(** * nsjail: the cgroup installer (cgroup.cc) and the mount-namespace
      constructor (mnt.cc)

    A shallow embedding of the two translation units.  Every libc / kernel
    entry point and every helper of other translation units (util::,
    subproc::) is an opaque operation of an abstract kernel: a function
    from the call and the kernel state to a reply and the next kernel
    state.  The program is written in a state monad that threads the kernel
    state and the process-private static counter of mnt.cc, and that
    returns the chronological list of the calls it issued together with
    their replies.  Theorems are stated for every kernel.

    Conventions:
    - integers are [Z]; a field holds a value of its C type, and the
      arithmetic the code does on it is wrapped where C wraps;
    - strings are C strings, free of NUL;
    - logging (LOG_D, LOG_W, PLOG_W, ...) never changes control flow in
      these files and is left out;
    - TEMP_FAILURE_RETRY is glibc's macro re-issuing a call while it fails
      with EINTR; the operations it wraps ([c_open], [c_statvfs]) stand for
      the call as completed by that macro;
    - the loop around wait4 in mnt::initNs is the only loop of the two
      files that need not end; it is run on fuel. *)

From Stdlib Require Import ZArith List String Ascii Bool Lia.
From Stdlib Require DecimalString HexadecimalString.
Import ListNotations.

Open Scope Z_scope.

Infix "^^" := String.append (at level 60, right associativity).

(** ** Constants of the Linux headers (x86-64 values) *)

Definition PATH_MAX : nat := 4096.

Definition EEXIST : Z := 17.

Definition R_OK : Z := 4.

Definition O_RDONLY : Z := 0.
Definition O_WRONLY : Z := 1.
Definition O_CREAT : Z := 64.
Definition O_EXCL : Z := 128.
Definition O_CLOEXEC : Z := 524288.

Definition MS_RDONLY : Z := 1.
Definition MS_NOSUID : Z := 2.
Definition MS_NODEV : Z := 4.
Definition MS_NOEXEC : Z := 8.
Definition MS_SYNCHRONOUS : Z := 16.
Definition MS_REMOUNT : Z := 32.
Definition MS_MANDLOCK : Z := 64.
Definition MS_DIRSYNC : Z := 128.
Definition MS_NOATIME : Z := 1024.
Definition MS_NODIRATIME : Z := 2048.
Definition MS_BIND : Z := 4096.
Definition MS_MOVE : Z := 8192.
Definition MS_REC : Z := 16384.
Definition MS_SILENT : Z := 32768.
Definition MS_POSIXACL : Z := Z.shiftl 1 16.
Definition MS_UNBINDABLE : Z := Z.shiftl 1 17.
Definition MS_PRIVATE : Z := Z.shiftl 1 18.
Definition MS_SLAVE : Z := Z.shiftl 1 19.
Definition MS_SHARED : Z := Z.shiftl 1 20.
Definition MS_RELATIME : Z := Z.shiftl 1 21.
Definition MS_KERNMOUNT : Z := Z.shiftl 1 22.
Definition MS_I_VERSION : Z := Z.shiftl 1 23.
Definition MS_STRICTATIME : Z := Z.shiftl 1 24.
Definition MS_LAZYTIME : Z := Z.shiftl 1 25.

Definition ST_RDONLY : Z := 1.
Definition ST_NOSUID : Z := 2.
Definition ST_NODEV : Z := 4.
Definition ST_NOEXEC : Z := 8.
Definition ST_SYNCHRONOUS : Z := 16.
Definition ST_MANDLOCK : Z := 64.
Definition ST_NOATIME : Z := 1024.
Definition ST_NODIRATIME : Z := 2048.
Definition ST_RELATIME : Z := 4096.

Definition MNT_DETACH : Z := 2.

Definition CLONE_FS : Z := 512.
Definition SIGCHLD : Z := 17.

Definition S_IFMT : Z := 61440.
Definition S_IFDIR : Z := 16384.
Definition S_ISDIR (mode : Z) : bool := Z.land mode S_IFMT =? S_IFDIR.

(** <sys/wait.h>: a status word is a normal exit when its low seven bits
    are clear, and then carries the exit code in bits 8..15. *)
Definition WIFEXITED (status : Z) : bool := Z.land status 127 =? 0.
Definition WEXITSTATUS (status : Z) : Z := Z.shiftr (Z.land status 65280) 8.
Definition W_EXITCODE (code sig : Z) : Z := Z.lor (Z.shiftl code 8) sig.

(** ** Machine integers and printf conversions *)

Definition wrap32 (z : Z) : Z := z mod 2 ^ 32.
Definition wrap64 (z : Z) : Z := z mod 2 ^ 64.

(** [~x] on a 64-bit unsigned operand. *)
Definition not64 (x : Z) : Z := wrap64 (Z.lnot x).

(** std::to_string / "%d" / "%u" / PRIu64. *)
Definition to_string (z : Z) : string :=
  DecimalString.NilZero.string_of_int (Z.to_int z).

(** "%x". *)
Definition hex (z : Z) : string :=
  HexadecimalString.NilZero.string_of_uint (N.to_hex_uint (Z.to_N z)).

(** "%#tx": the alternate form prefixes 0x to a non-zero value only. *)
Definition alt_hex (z : Z) : string :=
  if z =? 0 then "0"%string else ("0x" ^^ hex z)%string.

(** [mask] is contained in [x]. *)
Definition has_bits (x mask : Z) : Prop := Z.land x mask = mask.

(** snprintf into a buffer of [size] bytes keeps at most [size - 1]
    characters. *)
Definition snprintf (size : nat) (s : string) : string :=
  substring 0 (size - 1) s.

Definition empty (s : string) : bool :=
  match s with EmptyString => true | String _ _ => false end.

(** ** nsjail.h: the records shared by both files

    Modelled from the spec: nsjail.h, which declares mount_t, nsjconf_t,
    isDir_t and the execution modes, is not among the sources.  The
    fields are those of the specification's data model (sections 3.1 to
    3.3) under the names cgroup.cc and mnt.cc use for them. *)

Module nsjail.

Inductive isDir_t :=
| NS_DIR_NO
| NS_DIR_YES
| NS_DIR_MAYBE
| NS_DIR_other (raw : Z).  (* any other integer converted to the enum *)

Inductive ns_mode_t :=
| MODE_LISTEN_TCP
| MODE_STANDALONE_ONCE
| MODE_STANDALONE_EXECVE
| MODE_STANDALONE_RERUN.

Definition ns_mode_eqb (a b : ns_mode_t) : bool :=
  match a, b with
  | MODE_LISTEN_TCP, MODE_LISTEN_TCP
  | MODE_STANDALONE_ONCE, MODE_STANDALONE_ONCE
  | MODE_STANDALONE_EXECVE, MODE_STANDALONE_EXECVE
  | MODE_STANDALONE_RERUN, MODE_STANDALONE_RERUN => true
  | _, _ => false
  end.

Record mount_t := mk_mount {
  src : string;
  src_content : string;
  dst : string;
  fs_type : string;
  options : string;
  flags : Z;
  is_dir : bool;
  is_symlink : bool;
  is_mandatory : bool;
  mounted : bool
}.

Record nsjconf_t := mk_nsjconf {
  mode : ns_mode_t;
  clone_newns : bool;
  chroot : string;
  cwd : string;
  orig_uid : Z;
  mountpts : list mount_t;
  cgroup_mem_mount : string;
  cgroup_mem_parent : string;
  cgroup_mem_max : Z;
  cgroup_pids_mount : string;
  cgroup_pids_parent : string;
  cgroup_pids_max : Z;
  cgroup_net_cls_mount : string;
  cgroup_net_cls_parent : string;
  cgroup_net_cls_classid : Z;
  cgroup_cpu_mount : string;
  cgroup_cpu_parent : string;
  cgroup_cpu_ms_per_sec : Z
}.

Definition set_mountpts (c : nsjconf_t) (l : list mount_t) : nsjconf_t :=
  mk_nsjconf (mode c) (clone_newns c) (chroot c) (cwd c) (orig_uid c) l
    (cgroup_mem_mount c) (cgroup_mem_parent c) (cgroup_mem_max c)
    (cgroup_pids_mount c) (cgroup_pids_parent c) (cgroup_pids_max c)
    (cgroup_net_cls_mount c) (cgroup_net_cls_parent c)
    (cgroup_net_cls_classid c)
    (cgroup_cpu_mount c) (cgroup_cpu_parent c) (cgroup_cpu_ms_per_sec c).

End nsjail.

Export nsjail.

(** ** Operations of the environment *)

Inductive call :=
| c_mkdir (path : string) (perm : Z)
| c_access (path : string) (amode : Z)
| c_stat (path : string)
| c_statvfs (path : string)
| c_open (path : string) (oflags perm : Z)
| c_close (fd : Z)
| c_unlink (path : string)
| c_symlink (target linkpath : string)
| c_mount (source : option string) (target : string)
    (fstype : option string) (mflags : Z) (data : option string)
| c_umount2 (target : string) (uflags : Z)
| c_pivot_root (new_root put_old : string)
| c_chroot (path : string)
| c_chdir (path : string)
| c_getenv (name : string)
| c_wait4 (pid : Z) (woptions : Z)
| c_cloneProc (cflags : Z)                 (* subproc::cloneProc *)
| c_rnd64                                  (* util::rnd64 *)
| c_createDirRecursively (path : string)   (* util::createDirRecursively *)
| c_writeToFd (fd : Z) (buf : string)      (* util::writeToFd *)
| c_writeBufToFile (path buf : string) (oflags : Z). (* util::writeBufToFile *)

(** What a call hands back: the returned integer (a C++ bool is non-zero
    for true), errno as left by the call, the integer it stores through an
    out-pointer (st_mode of stat, f_flag of statvfs, the status of wait4),
    and the string a char* result points to (None for NULL). *)
Record reply := mk_reply {
  ret : Z;
  errno : Z;
  out : Z;
  str : option string
}.

Definition event : Type := call * reply.

Definition failed (r : reply) : bool := ret r =? -1.
Definition truthy (r : reply) : bool := negb (ret r =? 0).

(** Classifiers of calls. *)
Definition is_mount (c : call) : bool :=
  match c with c_mount _ _ _ _ _ => true | _ => false end.

Definition is_statvfs (c : call) : bool :=
  match c with c_statvfs _ => true | _ => false end.

Definition is_access (c : call) : bool :=
  match c with c_access _ _ => true | _ => false end.

Definition is_wait4 (c : call) : bool :=
  match c with c_wait4 _ _ => true | _ => false end.

Definition is_prefix {A} (l1 l2 : list A) : Prop := exists k, l2 = l1 ++ k.

Section Program.

Variable W : Type.
Variable kernel : call -> W -> reply * W.

(** Process state: the kernel state and mountPt's static df_counter. *)
Record st := mk_st { kst : W; df_counter : Z }.

Definition M (A : Type) : Type := st -> A * st * list event.

Definition pure {A} (a : A) : M A := fun s => (a, s, []).

Definition bind {A B} (m : M A) (f : A -> M B) : M B :=
  fun s =>
    let '(a, s1, t1) := m s in
    let '(b, s2, t2) := f a s1 in
    (b, s2, t1 ++ t2).

Definition sys (c : call) : M reply :=
  fun s =>
    let '(r, w) := kernel c (kst s) in
    (r, mk_st w (df_counter s), [(c, r)]).

(** [++df_counter] on a uint64_t. *)
Definition next_df_counter : M Z :=
  fun s =>
    let n := wrap64 (df_counter s + 1) in
    (n, mk_st (kst s) n, []).

End Program.

Arguments pure {W A} a.
Arguments bind {W A B} m f.
Arguments sys {W} kernel c.
Arguments next_df_counter {W}.
Arguments kst {W} s.
Arguments df_counter {W} s.
Arguments mk_st {W} kst df_counter.

Notation "x <- m ;; k" := (bind m (fun x => k))
  (at level 61, m at next level, right associativity).
Notation "m ;;; k" := (bind m (fun _ => k))
  (at level 61, right associativity).


(** ** Concrete environments used to run the model

    A kernel without state of its own: every call goes through, except the
    calls selected by [bad], which fail with [err]. *)

Module scenario.

Definition reply_ok (c : call) : reply :=
  match c with
  | c_open _ _ _ => mk_reply 3 0 0 None
  | c_stat _ => mk_reply 0 0 S_IFDIR None
  | c_wait4 pid _ => mk_reply pid 0 (W_EXITCODE 0 0) None
  | c_cloneProc _ => mk_reply 4242 0 0 None
  | c_rnd64 => mk_reply 7 0 0 None
  | c_createDirRecursively _ | c_writeToFd _ _ | c_writeBufToFile _ _ _ =>
      mk_reply 1 0 0 None
  | _ => mk_reply 0 0 0 None
  end.

Definition reply_bad (err : Z) (c : call) : reply :=
  match c with
  | c_createDirRecursively _ | c_writeToFd _ _ | c_writeBufToFile _ _ _ =>
      mk_reply 0 err 0 None
  | _ => mk_reply (-1) err 0 None
  end.

Definition failing (bad : call -> bool) (err : Z)
  (c : call) (w : unit) : reply * unit :=
  (if bad c then reply_bad err c else reply_ok c, w).

Definition all_ok : call -> unit -> reply * unit :=
  failing (fun _ => false) 0.

(** As [all_ok], with stat reporting [st_mode] for every path. *)
Definition with_stat (st_mode : Z) (c : call) (w : unit) : reply * unit :=
  match c with
  | c_stat _ => (mk_reply 0 0 st_mode None, w)
  | _ => all_ok c w
  end.

(** As [all_ok], with the variable [name] set to [value] and no other. *)
Definition with_env (name value : string) (c : call) (w : unit)
  : reply * unit :=
  match c with
  | c_getenv n =>
      (mk_reply 0 0 0 (if String.eqb n name then Some value else None), w)
  | _ => all_ok c w
  end.

Definition S_IFREG : Z := 32768.

Definition start : st unit := mk_st tt 0.


Definition a_conf : nsjconf_t :=
  mk_nsjconf MODE_STANDALONE_ONCE true "" "/" 1000 []
    "/sys/fs/cgroup/memory" "NSJAIL" 67108864
    "/sys/fs/cgroup/pids" "NSJAIL" 0
    "/sys/fs/cgroup/net_cls" "NSJAIL" 1048577
    "/sys/fs/cgroup/cpu" "NSJAIL" 250.



End scenario.

(** * cgroup.cc *)

Module cgroup.

Section Installer.

Context {W : Type}.
Variable kernel : call -> W -> reply * W.

Definition cgroup_path (mnt parent : string) (pid : Z) : string :=
  snprintf PATH_MAX (mnt ^^ "/" ^^ parent ^^ "/NSJAIL." ^^ to_string pid).

Definition mkdir_cgroup (path : string) : M W bool :=
  r <- sys kernel (c_mkdir path 448) ;;
  pure (negb (failed r && negb (errno r =? EEXIST))).

Definition writeBufToFile (fname buf : string) (oflags : Z) : M W bool :=
  r <- sys kernel (c_writeBufToFile fname buf oflags) ;;
  pure (truthy r).

Definition initNsFromParentMem (nsjconf : nsjconf_t) (pid : Z) : M W bool :=
  if cgroup_mem_max nsjconf =? 0 then pure true else
  let mem_cgroup_path :=
    cgroup_path (cgroup_mem_mount nsjconf) (cgroup_mem_parent nsjconf) pid in
  ok <- mkdir_cgroup mem_cgroup_path ;;
  if negb ok then pure false else
  let mem_max_str := to_string (cgroup_mem_max nsjconf) in
  let fname := snprintf PATH_MAX (mem_cgroup_path ^^ "/memory.limit_in_bytes") in
  ok <- writeBufToFile fname mem_max_str (Z.lor O_WRONLY O_CLOEXEC) ;;
  if negb ok then pure false else
  let fname := snprintf PATH_MAX (mem_cgroup_path ^^ "/memory.oom_control") in
  ok <- writeBufToFile fname "0" (Z.lor O_WRONLY O_CLOEXEC) ;;
  if negb ok then pure false else
  let pid_str := to_string pid in
  let fname := snprintf PATH_MAX (mem_cgroup_path ^^ "/tasks") in
  ok <- writeBufToFile fname pid_str (Z.lor O_WRONLY O_CLOEXEC) ;;
  if negb ok then pure false else
  pure true.

Definition initNsFromParentPids (nsjconf : nsjconf_t) (pid : Z) : M W bool :=
  if cgroup_pids_max nsjconf =? 0 then pure true else
  let pids_cgroup_path :=
    cgroup_path (cgroup_pids_mount nsjconf) (cgroup_pids_parent nsjconf) pid in
  ok <- mkdir_cgroup pids_cgroup_path ;;
  if negb ok then pure false else
  let pids_max_str := to_string (cgroup_pids_max nsjconf) in
  let fname := snprintf PATH_MAX (pids_cgroup_path ^^ "/pids.max") in
  ok <- writeBufToFile fname pids_max_str (Z.lor O_WRONLY O_CLOEXEC) ;;
  if negb ok then pure false else
  let pid_str := to_string pid in
  let fname := snprintf PATH_MAX (pids_cgroup_path ^^ "/tasks") in
  ok <- writeBufToFile fname pid_str (Z.lor O_WRONLY O_CLOEXEC) ;;
  if negb ok then pure false else
  pure true.

Definition initNsFromParentNetCls (nsjconf : nsjconf_t) (pid : Z) : M W bool :=
  if cgroup_net_cls_classid nsjconf =? 0 then pure true else
  let net_cls_cgroup_path :=
    cgroup_path (cgroup_net_cls_mount nsjconf)
      (cgroup_net_cls_parent nsjconf) pid in
  ok <- mkdir_cgroup net_cls_cgroup_path ;;
  if negb ok then pure false else
  let net_cls_classid_str :=
    snprintf 512 ("0x" ^^ hex (cgroup_net_cls_classid nsjconf)) in
  let fname := snprintf PATH_MAX (net_cls_cgroup_path ^^ "/net_cls.classid") in
  ok <- writeBufToFile fname net_cls_classid_str (Z.lor O_WRONLY O_CLOEXEC) ;;
  if negb ok then pure false else
  let pid_str := to_string pid in
  let fname := snprintf PATH_MAX (net_cls_cgroup_path ^^ "/tasks") in
  ok <- writeBufToFile fname pid_str (Z.lor O_WRONLY O_CLOEXEC) ;;
  if negb ok then pure false else
  pure true.

Definition initNsFromParentCpu (nsjconf : nsjconf_t) (pid : Z) : M W bool :=
  if cgroup_cpu_ms_per_sec nsjconf =? 0 then pure true else
  let cpu_cgroup_path :=
    cgroup_path (cgroup_cpu_mount nsjconf) (cgroup_cpu_parent nsjconf) pid in
  ok <- mkdir_cgroup cpu_cgroup_path ;;
  if negb ok then pure false else
  let cpu_ms_per_sec_str :=
    snprintf 512 (to_string (wrap32 (cgroup_cpu_ms_per_sec nsjconf * 1000))) in
  let fname := snprintf PATH_MAX (cpu_cgroup_path ^^ "/cpu.cfs_quota_us") in
  ok <- writeBufToFile fname cpu_ms_per_sec_str (Z.lor O_WRONLY O_CLOEXEC) ;;
  if negb ok then pure false else
  let cpu_period_us := "1000000"%string in
  let fname := snprintf PATH_MAX (cpu_cgroup_path ^^ "/cpu.cfs_period_us") in
  ok <- writeBufToFile fname cpu_period_us (Z.lor O_WRONLY O_CLOEXEC) ;;
  if negb ok then pure false else
  let pid_str := to_string pid in
  let fname := snprintf PATH_MAX (cpu_cgroup_path ^^ "/tasks") in
  ok <- writeBufToFile fname pid_str (Z.lor O_WRONLY O_CLOEXEC) ;;
  if negb ok then pure false else
  pure true.

Definition initNsFromParent (nsjconf : nsjconf_t) (pid : Z) : M W bool :=
  ok <- initNsFromParentMem nsjconf pid ;;
  if negb ok then pure false else
  ok <- initNsFromParentPids nsjconf pid ;;
  if negb ok then pure false else
  ok <- initNsFromParentNetCls nsjconf pid ;;
  if negb ok then pure false else
  ok <- initNsFromParentCpu nsjconf pid ;;
  if negb ok then pure false else
  pure true.

(** ** The installer as section 4.5 of the specification words it

    A controller is its limit, its per-child group directory and the files
    to write there, in order, the [tasks] file last. *)

Record controller := mk_controller {
  limit : Z;
  group_dir : string;
  files : list (string * string)
}.

Definition controller_calls (c : controller) : list call :=
  if limit c =? 0 then [] else
  c_mkdir (group_dir c) 448 ::
  map (fun f => c_writeBufToFile (snprintf PATH_MAX (group_dir c ^^ "/" ^^ fst f))
                  (snd f) (Z.lor O_WRONLY O_CLOEXEC))
      (files c).

Definition memory_controller (nsjconf : nsjconf_t) (pid : Z) : controller :=
  mk_controller (cgroup_mem_max nsjconf)
    (cgroup_path (cgroup_mem_mount nsjconf) (cgroup_mem_parent nsjconf) pid)
    [("memory.limit_in_bytes", to_string (cgroup_mem_max nsjconf));
     ("memory.oom_control", "0");
     ("tasks", to_string pid)]%string.

Definition pids_controller (nsjconf : nsjconf_t) (pid : Z) : controller :=
  mk_controller (cgroup_pids_max nsjconf)
    (cgroup_path (cgroup_pids_mount nsjconf) (cgroup_pids_parent nsjconf) pid)
    [("pids.max", to_string (cgroup_pids_max nsjconf));
     ("tasks", to_string pid)]%string.

Definition net_cls_controller (nsjconf : nsjconf_t) (pid : Z) : controller :=
  mk_controller (cgroup_net_cls_classid nsjconf)
    (cgroup_path (cgroup_net_cls_mount nsjconf)
       (cgroup_net_cls_parent nsjconf) pid)
    [("net_cls.classid",
      snprintf 512 ("0x" ^^ hex (cgroup_net_cls_classid nsjconf)));
     ("tasks", to_string pid)]%string.

Definition cpu_controller (nsjconf : nsjconf_t) (pid : Z) : controller :=
  mk_controller (cgroup_cpu_ms_per_sec nsjconf)
    (cgroup_path (cgroup_cpu_mount nsjconf) (cgroup_cpu_parent nsjconf) pid)
    [("cpu.cfs_quota_us",
      snprintf 512 (to_string (wrap32 (cgroup_cpu_ms_per_sec nsjconf * 1000))));
     ("cpu.cfs_period_us", "1000000");
     ("tasks", to_string pid)]%string.

(** The calls of a fully successful install: memory, pids, net_cls, cpu,
    a controller with a zero limit contributing none. *)
Definition expected_calls (nsjconf : nsjconf_t) (pid : Z) : list call :=
  controller_calls (memory_controller nsjconf pid) ++
  controller_calls (pids_controller nsjconf pid) ++
  controller_calls (net_cls_controller nsjconf pid) ++
  controller_calls (cpu_controller nsjconf pid).

(** A step went through: the directory was created or was there already,
    the write succeeded. *)
Definition step_ok (e : event) : bool :=
  match fst e with
  | c_mkdir _ _ => negb (failed (snd e) && negb (errno (snd e) =? EEXIST))
  | _ => truthy (snd e)
  end.

(** [staged calls m]: [m] issues the calls of [calls] in order and stops
    at the first one that does not go through; it returns true when all
    went through and false when the last call issued did not. *)
Definition staged (calls : list call) (m : M W bool) : Prop :=
  forall s,
    let '(r, _, tr) := m s in
    if r then map fst tr = calls /\ forallb step_ok tr = true
    else exists tr0 bad,
        tr = tr0 ++ [bad] /\ forallb step_ok tr0 = true /\
        step_ok bad = false /\ is_prefix (map fst tr) calls.

(** cgroup::initNs *)
Definition initNs : bool := true.

End Installer.

End cgroup.

(** * mnt.cc *)

Module mnt.

(** What a function that may call exit() does: return to its caller, or
    end the process with an exit code. *)
Inductive outcome (A : Type) :=
| Returned (a : A)
| Exited (code : Z).

Arguments Returned {A} a.
Arguments Exited {A} code.

Definition set_src (m : mount_t) (v : string) : mount_t :=
  mk_mount v (src_content m) (dst m) (fs_type m) (options m) (flags m)
    (is_dir m) (is_symlink m) (is_mandatory m) (mounted m).

Definition set_dst (m : mount_t) (v : string) : mount_t :=
  mk_mount (src m) (src_content m) v (fs_type m) (options m) (flags m)
    (is_dir m) (is_symlink m) (is_mandatory m) (mounted m).

Definition set_flags (m : mount_t) (v : Z) : mount_t :=
  mk_mount (src m) (src_content m) (dst m) (fs_type m) (options m) v
    (is_dir m) (is_symlink m) (is_mandatory m) (mounted m).

Definition set_is_dir (m : mount_t) (v : bool) : mount_t :=
  mk_mount (src m) (src_content m) (dst m) (fs_type m) (options m) (flags m)
    v (is_symlink m) (is_mandatory m) (mounted m).

Definition set_mounted (m : mount_t) (v : bool) : mount_t :=
  mk_mount (src m) (src_content m) (dst m) (fs_type m) (options m) (flags m)
    (is_dir m) (is_symlink m) (is_mandatory m) v.

(** [mount_t mnt;]: the strings are empty.  The scalar members are
    indeterminate in C++; addMountPt assigns every one of them before it
    returns true. *)
Definition fresh_mount_t : mount_t :=
  mk_mount "" "" "" "" "" 0 false false false false.

(** ** flagsToStr *)

(** Modelled from the spec: macros.h, which defines NS_VALSTR_STRUCT, is
    not among the sources; the table is the specification's "table of
    (bitmask, name) pairs", each constant paired with its spelling. *)
Definition mountFlags : list (Z * string) :=
  [ (MS_RDONLY, "MS_RDONLY");
    (MS_NOSUID, "MS_NOSUID");
    (MS_NODEV, "MS_NODEV");
    (MS_NOEXEC, "MS_NOEXEC");
    (MS_SYNCHRONOUS, "MS_SYNCHRONOUS");
    (MS_REMOUNT, "MS_REMOUNT");
    (MS_MANDLOCK, "MS_MANDLOCK");
    (MS_DIRSYNC, "MS_DIRSYNC");
    (MS_NOATIME, "MS_NOATIME");
    (MS_NODIRATIME, "MS_NODIRATIME");
    (MS_BIND, "MS_BIND");
    (MS_MOVE, "MS_MOVE");
    (MS_REC, "MS_REC");
    (MS_SILENT, "MS_SILENT");
    (MS_POSIXACL, "MS_POSIXACL");
    (MS_UNBINDABLE, "MS_UNBINDABLE");
    (MS_PRIVATE, "MS_PRIVATE");
    (MS_SLAVE, "MS_SLAVE");
    (MS_SHARED, "MS_SHARED");
    (MS_RELATIME, "MS_RELATIME");
    (MS_KERNMOUNT, "MS_KERNMOUNT");
    (MS_I_VERSION, "MS_I_VERSION");
    (MS_STRICTATIME, "MS_STRICTATIME");
    (MS_LAZYTIME, "MS_LAZYTIME") ]%string.

(** std::string::pop_back *)
Definition pop_back (s : string) : string :=
  substring 0 (String.length s - 1) s.

(** The body of the range-for: one table entry applied to the pair
    (res, knownFlagMask). *)
Definition flagsToStr_step (flags : Z) (acc : string * Z) (i : Z * string)
  : string * Z :=
  let '(res, knownFlagMask) := acc in
  ((if negb (Z.land flags (fst i) =? 0)
    then (res ^^ snd i) ^^ "|"
    else res),
   Z.lor knownFlagMask (fst i)).

Definition flagsToStr (flags : Z) : string :=
  let '(res, knownFlagMask) :=
    fold_left (flagsToStr_step flags) mountFlags (""%string, 0) in
  if (Z.land flags (not64 knownFlagMask) =? 0) && negb (empty res)
  then pop_back res
  else res ^^ alt_hex (Z.land flags (not64 knownFlagMask)).

(** The mask the loop of flagsToStr accumulates: it does not depend on
    the argument. *)
Definition knownFlagMask : Z :=
  fold_left (fun known i => Z.lor known (fst i)) mountFlags 0.

(** The names flagsToStr finds set, in table order, and the bits left. *)
Definition known_names (flags : Z) : list string :=
  map snd (filter (fun i => negb (Z.land flags (fst i) =? 0)) mountFlags).

Definition unknown_bits (flags : Z) : Z :=
  Z.land flags (not64 knownFlagMask).

(** Splitting a string at every occurrence of a separator. *)
Fixpoint split_on (sep : ascii) (s : string) : list string :=
  match s with
  | EmptyString => [EmptyString]
  | String c s' =>
      if Ascii.eqb c sep then EmptyString :: split_on sep s'
      else
        match split_on sep s' with
        | [] => [String c EmptyString]
        | tok :: toks => String c tok :: toks
        end
  end.

Fixpoint free_of (sep : ascii) (s : string) : bool :=
  match s with
  | EmptyString => true
  | String c s' => negb (Ascii.eqb c sep) && free_of sep s'
  end.

(** [joined names]: every name followed by the separator, as the loop of
    flagsToStr appends them. *)
Fixpoint joined (names : list string) : string :=
  match names with
  | [] => ""
  | n :: names => (n ^^ "|") ^^ joined names
  end.

(** The testable property of section 8 read strictly: the names are
    followed by a hexadecimal token only when bits outside the table are
    set. *)
Definition hex_only_for_unknown_bits (flags : Z) : Prop :=
  exists residue,
    split_on "|" (flagsToStr flags) = known_names flags ++ residue /\
    (List.length residue <= 1)%nat /\
    (residue <> [] -> unknown_bits flags <> 0).

(** ** remountRO's table *)

Definition mountPairs : list (Z * Z) :=
  [ (MS_RDONLY, ST_RDONLY);
    (MS_NOSUID, ST_NOSUID);
    (MS_NODEV, ST_NODEV);
    (MS_NOEXEC, ST_NOEXEC);
    (MS_SYNCHRONOUS, ST_SYNCHRONOUS);
    (MS_MANDLOCK, ST_MANDLOCK);
    (MS_NOATIME, ST_NOATIME);
    (MS_NODIRATIME, ST_NODIRATIME);
    (MS_RELATIME, ST_RELATIME) ].

Definition remount_flags (f_flag : Z) : Z :=
  fold_left
    (fun new_flags i =>
       if negb (Z.land f_flag (snd i) =? 0)
       then Z.lor new_flags (fst i)
       else new_flags)
    mountPairs
    (Z.lor (Z.lor MS_REMOUNT MS_RDONLY) MS_BIND).

(** [ms] when the probe reports [st], nothing otherwise. *)
Definition preserved (f_flag st ms : Z) : Z :=
  if Z.land f_flag st =? 0 then 0 else ms.

Section Constructor.

Context {W : Type}.
Variable kernel : call -> W -> reply * W.

Definition isDir (path : option string) : M W bool :=
  match path with
  | None => pure true
  | Some p =>
      r <- sys kernel (c_stat p) ;;
      if failed r then pure false
      else if S_ISDIR (out r) then pure true
      else pure false
  end.

(** mountPt from the comment "Initially mount it as RW" to its end. *)
Definition mountPt_mount (mpt : mount_t) (srcpath dstpath : string)
  : M W (bool * mount_t) :=
  let flags := Z.land (flags mpt) (not64 MS_RDONLY) in
  r <- sys kernel
         (c_mount (Some srcpath) dstpath (Some (fs_type mpt)) flags
            (Some (options mpt))) ;;
  if failed r then pure (false, mpt)
  else
    let mpt := set_mounted mpt true in
    (if negb (empty (src_content mpt))
     then sys kernel (c_unlink srcpath) ;;; pure tt
     else pure tt) ;;;
    pure (true, mpt).

Definition mountPt (mpt : mount_t) (newroot tmpdir : string)
  : M W (bool * mount_t) :=
  let dstpath := snprintf PATH_MAX (newroot ^^ "/" ^^ dst mpt) in
  let srcpath :=
    if negb (empty (src mpt)) then snprintf PATH_MAX (src mpt)
    else snprintf PATH_MAX "none" in
  r <- sys kernel (c_createDirRecursively dstpath) ;;
  if negb (truthy r) then pure (false, mpt) else
  if is_symlink mpt then
    r <- sys kernel (c_symlink srcpath dstpath) ;;
    if failed r then
      if is_mandatory mpt then pure (false, mpt) else pure (true, mpt)
    else pure (true, mpt)
  else
  (if is_dir mpt then
     sys kernel (c_mkdir dstpath 457) ;;; pure tt
   else
     r <- sys kernel
            (c_open dstpath (Z.lor (Z.lor O_CREAT O_RDONLY) O_CLOEXEC) 420) ;;
     if ret r >=? 0 then sys kernel (c_close (ret r)) ;;; pure tt
     else pure tt) ;;;
  if negb (empty (src_content mpt)) then
    n <- next_df_counter ;;
    let srcpath :=
      snprintf PATH_MAX (tmpdir ^^ "/dynamic_file." ^^ to_string n) in
    r <- sys kernel
           (c_open srcpath
              (Z.lor (Z.lor (Z.lor O_CREAT O_EXCL) O_CLOEXEC) O_WRONLY) 420) ;;
    if ret r <? 0 then pure (false, mpt) else
    w <- sys kernel (c_writeToFd (ret r) (src_content mpt)) ;;
    if negb (truthy w) then
      sys kernel (c_close (ret r)) ;;; pure (false, mpt)
    else
    sys kernel (c_close (ret r)) ;;;
    let mpt :=
      set_flags mpt
        (Z.lor (flags mpt) (Z.lor (Z.lor MS_BIND MS_REC) MS_PRIVATE)) in
    mountPt_mount mpt srcpath dstpath
  else
    mountPt_mount mpt srcpath dstpath.

Definition remountRO (mpt : mount_t) : M W bool :=
  if negb (mounted mpt) then pure true else
  if is_symlink mpt then pure true else
  if Z.land (flags mpt) MS_RDONLY =? 0 then pure true else
  vfs <- sys kernel (c_statvfs (dst mpt)) ;;
  if failed vfs then pure false else
  let new_flags := remount_flags (out vfs) in
  r <- sys kernel (c_mount (Some (dst mpt)) (dst mpt) None new_flags None) ;;
  if failed r then pure false else
  pure true.

Definition mkdirAndTest (dir : string) : M W bool :=
  r <- sys kernel (c_mkdir dir 493) ;;
  if failed r && negb (errno r =? EEXIST) then pure false else
  r <- sys kernel (c_access dir R_OK) ;;
  if failed r then pure false else
  pure true.

Definition getDir (nsjconf : nsjconf_t) (name : string)
  : M W (option string) :=
  let dir :=
    ((("/run/user/" ^^ "/nsjail.") ^^ to_string (orig_uid nsjconf)) ^^ ".")
      ^^ name in
  ok <- mkdirAndTest dir ;;
  if ok then pure (Some dir) else
  let dir := (("/tmp/nsjail." ^^ to_string (orig_uid nsjconf)) ^^ ".") ^^ name in
  ok <- mkdirAndTest dir ;;
  if ok then pure (Some dir) else
  tmp <- sys kernel (c_getenv "TMPDIR") ;;
  found <-
    match str tmp with
    | Some tmp =>
        let dir :=
          ((((tmp ^^ "/") ^^ "nsjail.") ^^ to_string (orig_uid nsjconf)) ^^ ".")
            ^^ name in
        ok <- mkdirAndTest dir ;;
        if ok then pure (Some dir) else pure None
    | None => pure None
    end ;;
  match found with
  | Some dir => pure (Some dir)
  | None =>
  let dir :=
    (("/dev/shm/nsjail." ^^ to_string (orig_uid nsjconf)) ^^ ".") ^^ name in
  ok <- mkdirAndTest dir ;;
  if ok then pure (Some dir) else
  rnd <- sys kernel c_rnd64 ;;
  let dir :=
    (((("/tmp/nsjail." ^^ to_string (orig_uid nsjconf)) ^^ ".") ^^ name) ^^ ".")
      ^^ to_string (ret rnd) in
  ok <- mkdirAndTest dir ;;
  if ok then pure (Some dir) else
  pure None
  end.

(** The mount pass: [for (auto& p : nsjconf->mountpts)] around mountPt.
    The descriptors are updated in place; a failing mandatory descriptor
    returns false from initNsInternal, leaving the rest untouched. *)
Fixpoint mountPts_loop (l : list mount_t) (newroot tmpdir : string)
  : M W (bool * list mount_t) :=
  match l with
  | [] => pure (true, [])
  | p :: rest =>
      res <- mountPt p newroot tmpdir ;;
      let '(ok, p) := res in
      if negb ok && is_mandatory p then pure (false, p :: rest)
      else
        res <- mountPts_loop rest newroot tmpdir ;;
        let '(r, rest) := res in
        pure (r, p :: rest)
  end.

(** The re-mount pass: [for (const auto& p : nsjconf->mountpts)] around
    remountRO. *)
Fixpoint remountRO_loop (l : list mount_t) : M W bool :=
  match l with
  | [] => pure true
  | p :: rest =>
      ok <- remountRO p ;;
      if negb ok && is_mandatory p then pure false
      else remountRO_loop rest
  end.

Definition initNsInternal (nsjconf : nsjconf_t) : M W (bool * nsjconf_t) :=
  if negb (clone_newns nsjconf) then
    if empty (chroot nsjconf) then pure (false, nsjconf) else
    r <- sys kernel (c_chroot (chroot nsjconf)) ;;
    if failed r then pure (false, nsjconf) else
    r <- sys kernel (c_chdir "/") ;;
    if failed r then pure (false, nsjconf) else
    pure (true, nsjconf)
  else
  r <- sys kernel (c_chdir "/") ;;
  if failed r then pure (false, nsjconf) else
  destdir <- getDir nsjconf "root" ;;
  match destdir with
  | None => pure (false, nsjconf)
  | Some destdir =>
  r <- sys kernel
         (c_mount (Some "/") "/" None (Z.lor MS_REC MS_PRIVATE) None)%string ;;
  if failed r then pure (false, nsjconf) else
  r <- sys kernel
         (c_mount None destdir (Some "tmpfs") 0 (Some "size=16777216"))%string ;;
  if failed r then pure (false, nsjconf) else
  tmpdir <- getDir nsjconf "tmp" ;;
  match tmpdir with
  | None => pure (false, nsjconf)
  | Some tmpdir =>
  r <- sys kernel
         (c_mount None tmpdir (Some "tmpfs") 0 (Some "size=16777216"))%string ;;
  if failed r then pure (false, nsjconf) else
  res <- mountPts_loop (mountpts nsjconf) destdir tmpdir ;;
  let '(ok, pts) := res in
  let nsjconf := set_mountpts nsjconf pts in
  if negb ok then pure (false, nsjconf) else
  r <- sys kernel (c_umount2 tmpdir MNT_DETACH) ;;
  if failed r then pure (false, nsjconf) else
  r <- sys kernel (c_pivot_root destdir destdir) ;;
  if failed r then pure (false, nsjconf) else
  r <- sys kernel (c_umount2 "/" MNT_DETACH) ;;
  if failed r then pure (false, nsjconf) else
  r <- sys kernel (c_chdir (cwd nsjconf)) ;;
  if failed r then pure (false, nsjconf) else
  ok <- remountRO_loop (mountpts nsjconf) ;;
  if negb ok then pure (false, nsjconf) else
  pure (true, nsjconf)
  end
  end.

(** [while (wait4(pid, &status, 0, NULL) != pid);] yields the status of
    the call that returned [pid]; [None] when [fuel] calls did not. *)
Fixpoint wait_loop (fuel : nat) (pid : Z) : M W (option Z) :=
  match fuel with
  | O => pure None
  | S fuel =>
      r <- sys kernel (c_wait4 pid 0) ;;
      if ret r =? pid then pure (Some (out r))
      else wait_loop fuel pid
  end.

(** The kernel hands the child [pid] over, with [status], to some wait4
    call of the loop started in kernel state [w]. *)
Inductive reaps (pid : Z) : W -> Z -> Prop :=
| reaps_now (w : W) (r : reply) (w' : W) :
    kernel (c_wait4 pid 0) w = (r, w') ->
    ret r = pid ->
    reaps pid w (out r)
| reaps_later (w : W) (r : reply) (w' : W) (status : Z) :
    kernel (c_wait4 pid 0) w = (r, w') ->
    ret r <> pid ->
    reaps pid w' status ->
    reaps pid w status.

(** initNs.  In the cloned child (cloneProc returned 0) the function does
    not return: it ends the process.  The child works on its own copy of
    the configuration, so the parent's copy is returned as it was. *)
Definition initNs (fuel : nat) (nsjconf : nsjconf_t)
  : M W (option (outcome bool * nsjconf_t)) :=
  if negb (ns_mode_eqb (mode nsjconf) MODE_STANDALONE_EXECVE) then
    res <- initNsInternal nsjconf ;;
    pure (Some (Returned (fst res), snd res))
  else
  pid <- sys kernel (c_cloneProc (Z.lor CLONE_FS SIGCHLD)) ;;
  if ret pid =? -1 then pure (Some (Returned false, nsjconf)) else
  if ret pid =? 0 then
    res <- initNsInternal nsjconf ;;
    pure (Some (Exited (if fst res then 0 else 255), snd res))
  else
  status <- wait_loop fuel (ret pid) ;;
  match status with
  | None => pure None
  | Some status =>
      if WIFEXITED status && (WEXITSTATUS status =? 0)
      then pure (Some (Returned true, nsjconf))
      else pure (Some (Returned false, nsjconf))
  end.

(** Lines 460-467 and 470-477 of addMountPt: the value the environment
    gives for a non-empty variable name, [None] when it is unset; the
    current string when no variable is named. *)
Definition from_env (env cur : string) : M W (option string) :=
  if negb (empty env) then
    e <- sys kernel (c_getenv env) ;;
    pure (str e)
  else pure (Some cur).

Definition addMountPt (mnt : mount_t) (src dst fstype options : string)
  (flags : Z) (is_dir : isDir_t) (is_mandatory : bool)
  (src_env dst_env src_content : string) (is_symlink : bool)
  : M W (bool * mount_t) :=
  e <- from_env src_env (nsjail.src mnt) ;;
  match e with
  | None => pure (false, mnt)
  | Some e =>
  let mnt := set_src mnt (e ^^ src) in
  e <- from_env dst_env (nsjail.dst mnt) ;;
  match e with
  | None => pure (false, mnt)
  | Some e =>
  let mnt := set_dst mnt (e ^^ dst) in
  let mnt :=
    mk_mount (nsjail.src mnt) src_content (nsjail.dst mnt) fstype options flags
      (nsjail.is_dir mnt) is_symlink is_mandatory false in
  match is_dir with
  | NS_DIR_YES => pure (true, set_is_dir mnt true)
  | NS_DIR_NO => pure (true, set_is_dir mnt false)
  | NS_DIR_MAYBE =>
      if negb (empty src_content) then pure (true, set_is_dir mnt false)
      else if empty (nsjail.src mnt) then pure (true, set_is_dir mnt true)
      else if negb (Z.land (nsjail.flags mnt) MS_BIND =? 0) then
        d <- isDir (Some (nsjail.src mnt)) ;;
        pure (true, set_is_dir mnt d)
      else pure (true, set_is_dir mnt true)
  | NS_DIR_other _ => pure (false, mnt)
  end
  end
  end.

Definition addMountPtHead (nsjconf : nsjconf_t) (src dst fstype options : string)
  (flags : Z) (is_dir : isDir_t) (is_mandatory : bool)
  (src_env dst_env src_content : string) (is_symlink : bool)
  : M W (bool * nsjconf_t) :=
  res <- addMountPt fresh_mount_t src dst fstype options flags is_dir
           is_mandatory src_env dst_env src_content is_symlink ;;
  let '(ok, mnt) := res in
  if negb ok then pure (false, nsjconf) else
  pure (true, set_mountpts nsjconf (mnt :: mountpts nsjconf)).

Definition addMountPtTail (nsjconf : nsjconf_t) (src dst fstype options : string)
  (flags : Z) (is_dir : isDir_t) (is_mandatory : bool)
  (src_env dst_env src_content : string) (is_symlink : bool)
  : M W (bool * nsjconf_t) :=
  res <- addMountPt fresh_mount_t src dst fstype options flags is_dir
           is_mandatory src_env dst_env src_content is_symlink ;;
  let '(ok, mnt) := res in
  if negb ok then pure (false, nsjconf) else
  pure (true, set_mountpts nsjconf (mountpts nsjconf ++ [mnt])).

End Constructor.

(** ** The mount pass as section 4.4.3 words it *)

(** The trace holds a successful kernel mount call for the descriptor:
    onto its destination under [newroot], with its type, its options and
    its flags without read-only. *)
Definition mounted_by (tr : list event) (newroot : string) (mpt : mount_t)
  : Prop :=
  exists srcpath r,
    In (c_mount (Some srcpath)
          (snprintf PATH_MAX (newroot ^^ "/" ^^ dst mpt))
          (Some (fs_type mpt))
          (Z.land (flags mpt) (not64 MS_RDONLY))
          (Some (options mpt)), r) tr /\
    failed r = false.

(** No mandatory descriptor is left unmounted (a symlink descriptor is
    never mounted). *)
Definition mandatory_mounted (l : list mount_t) : Prop :=
  Forall (fun p => is_mandatory p = true -> is_symlink p = false ->
                   mounted p = true) l.

(** ** The read-only re-mount as section 4.4.4 words it *)

Definition wants_remount (mpt : mount_t) : bool :=
  mounted mpt && negb (is_symlink mpt)
  && negb (Z.land (flags mpt) MS_RDONLY =? 0).

(** The targets of the mount calls of a trace, in order. *)
Definition mount_targets (tr : list event) : list string :=
  flat_map (fun e => match fst e with
                     | c_mount _ target _ _ _ => [target]
                     | _ => []
                     end) tr.

(** Section 4.4.4 read strictly: remountRO calls mount on the destination
    for exactly the descriptors that are mounted, not symlinks and
    read-only. *)
Definition remounts_exactly_read_only {W : Type}
  (kernel : call -> W -> reply * W) (mpt : mount_t) (s : st W) : Prop :=
  let '(_, _, tr) := remountRO kernel mpt s in
  wants_remount mpt = true <-> mount_targets tr = [dst mpt].

(** ** The scratch-directory chooser as section 4.2 words it *)

(** The two candidates tried before TMPDIR is looked up, the candidates
    that follow the lookup, and the candidate made of a random number. *)
Definition first_candidates (uid : Z) (label : string) : list string :=
  [ "/run/user//nsjail." ^^ to_string uid ^^ "." ^^ label;
    "/tmp/nsjail." ^^ to_string uid ^^ "." ^^ label ].

Definition next_candidates (uid : Z) (label : string) (tmpdir : option string)
  : list string :=
  match tmpdir with
  | Some t => [ t ^^ "/nsjail." ^^ to_string uid ^^ "." ^^ label ]
  | None => []
  end ++
  [ "/dev/shm/nsjail." ^^ to_string uid ^^ "." ^^ label ].

Definition last_candidate (uid : Z) (label : string) (random64 : Z) : string :=
  "/tmp/nsjail." ^^ to_string uid ^^ "." ^^ label ^^ "." ^^ to_string random64.

Definition candidates (uid : Z) (label : string) (tmpdir : option string)
  (random64 : Z) : list string :=
  first_candidates uid label ++ next_candidates uid label tmpdir ++
  [ last_candidate uid label random64 ].

End mnt.

(** * What mnt.cc does, told without running it

    The relations below describe the calls a function of mnt.cc issues
    and the result it returns, case by case, from the replies the calls
    got.  None of them mentions the function it describes.  Together
    with [replays], which says that the replies a trace records are the
    kernel's own, such a description leaves the function no freedom:
    the kernel and the arguments determine its trace and its result. *)

Module behaviour.

Import mnt.

(** The replies recorded in [tr] are those the kernel gives when the
    calls of [tr] are issued in order from kernel state [w], and [w'] is
    the kernel state after the last of them. *)
Fixpoint replays {W : Type} (kernel : call -> W -> reply * W)
  (w : W) (tr : list event) (w' : W) : Prop :=
  match tr with
  | [] => w' = w
  | (c, r) :: rest =>
      fst (kernel c w) = r /\ replays kernel (snd (kernel c w)) rest w'
  end.

(** Every computation of the program replays. *)
Definition replayed {W A : Type} (kernel : call -> W -> reply * W)
  (m : M W A) : Prop :=
  forall s, replays kernel (kst s) (snd (m s)) (kst (snd (fst (m s)))).

(** ** Finalization: the prefix a variable name stands for

    What the environment of kernel state [w] gives for the variable
    [env]: the string [cur] and no call when no variable is named, else
    the answer to getenv (None for NULL).  With it come the kernel state
    after the lookup and the lookup itself. *)
Definition prefix_in {W : Type} (kernel : call -> W -> reply * W)
  (env cur : string) (w : W) : option string * W * list event :=
  if empty env then (Some cur, w, [])
  else
    let '(r, w') := kernel (c_getenv env) w in
    (str r, w', [(c_getenv env, r)]).

(** ** The mount of a descriptor with content *)

Definition dstpath (newroot : string) (mpt : mount_t) : string :=
  snprintf PATH_MAX (newroot ^^ "/" ^^ dst mpt).

(** The staging file numbered [n] of the scratch directory. *)
Definition staging_file (tmpdir : string) (n : Z) : string :=
  snprintf PATH_MAX (tmpdir ^^ "/dynamic_file." ^^ to_string n).

Definition bind_rec_private : Z := Z.lor (Z.lor MS_BIND MS_REC) MS_PRIVATE.

(** The destination made ready: a directory is created with mode 0711,
    a file is opened with O_CREAT and closed again if the open gave a
    descriptor. *)
Definition dst_prepared (mpt : mount_t) (path : string) (t : list event)
  : Prop :=
  if is_dir mpt then exists r, t = [(c_mkdir path 457, r)]
  else
    exists r,
      (ret r >= 0 /\
       exists c,
         t = [(c_open path (Z.lor (Z.lor O_CREAT O_RDONLY) O_CLOEXEC) 420, r);
              (c_close (ret r), c)]) \/
      (ret r < 0 /\
       t = [(c_open path (Z.lor (Z.lor O_CREAT O_RDONLY) O_CLOEXEC) 420, r)]).

(** The content staged: the staging file created exclusively, the
    content written to the descriptor the open returned, the descriptor
    closed. *)
Definition content_staged (mpt : mount_t) (file : string)
  (r1 w c : reply) : list event :=
  [ (c_open file
       (Z.lor (Z.lor (Z.lor O_CREAT O_EXCL) O_CLOEXEC) O_WRONLY) 420, r1);
    (c_writeToFd (ret r1) (src_content mpt), w);
    (c_close (ret r1), c) ].

(** The kernel mount call of a descriptor with content: the staging file
    bound onto the destination, with bind, recursive and private added
    to the descriptor's flags and read-only cleared. *)
Definition content_mount_call (mpt : mount_t) (file path : string) : call :=
  c_mount (Some file) path (Some (fs_type mpt))
    (Z.land (Z.lor (flags mpt) bind_rec_private) (not64 MS_RDONLY))
    (Some (options mpt)).

(** What mountPt does with a descriptor that has content and is not a
    symlink, [n] being the number of its staging file: the trace, the
    result and the descriptor afterwards.  The five ways it can go are
    told apart by the replies. *)
Inductive content_mount (mpt : mount_t) (newroot tmpdir : string) (n : Z)
  : list event -> bool -> mount_t -> Prop :=
| cm_no_parents (r0 : reply) :
    truthy r0 = false ->
    content_mount mpt newroot tmpdir n
      [(c_createDirRecursively (dstpath newroot mpt), r0)]
      false mpt
| cm_no_staging_file (r0 : reply) (prep : list event) (r1 : reply) :
    truthy r0 = true ->
    dst_prepared mpt (dstpath newroot mpt) prep ->
    ret r1 < 0 ->
    content_mount mpt newroot tmpdir n
      ((c_createDirRecursively (dstpath newroot mpt), r0) :: prep ++
       [(c_open (staging_file tmpdir n)
           (Z.lor (Z.lor (Z.lor O_CREAT O_EXCL) O_CLOEXEC) O_WRONLY) 420, r1)])
      false mpt
| cm_not_written (r0 : reply) (prep : list event) (r1 w c : reply) :
    truthy r0 = true ->
    dst_prepared mpt (dstpath newroot mpt) prep ->
    ret r1 >= 0 ->
    truthy w = false ->
    content_mount mpt newroot tmpdir n
      ((c_createDirRecursively (dstpath newroot mpt), r0) :: prep ++
       content_staged mpt (staging_file tmpdir n) r1 w c)
      false mpt
| cm_mount_failed (r0 : reply) (prep : list event) (r1 w c r : reply) :
    truthy r0 = true ->
    dst_prepared mpt (dstpath newroot mpt) prep ->
    ret r1 >= 0 ->
    truthy w = true ->
    failed r = true ->
    content_mount mpt newroot tmpdir n
      ((c_createDirRecursively (dstpath newroot mpt), r0) :: prep ++
       content_staged mpt (staging_file tmpdir n) r1 w c ++
       [(content_mount_call mpt (staging_file tmpdir n) (dstpath newroot mpt),
         r)])
      false
      (set_flags mpt (Z.lor (flags mpt) bind_rec_private))
| cm_mounted (r0 : reply) (prep : list event) (r1 w c r u : reply) :
    truthy r0 = true ->
    dst_prepared mpt (dstpath newroot mpt) prep ->
    ret r1 >= 0 ->
    truthy w = true ->
    failed r = false ->
    content_mount mpt newroot tmpdir n
      ((c_createDirRecursively (dstpath newroot mpt), r0) :: prep ++
       content_staged mpt (staging_file tmpdir n) r1 w c ++
       [(content_mount_call mpt (staging_file tmpdir n) (dstpath newroot mpt),
         r);
        (c_unlink (staging_file tmpdir n), u)])
      true
      (set_mounted (set_flags mpt (Z.lor (flags mpt) bind_rec_private)) true).

(** ** The mount of a descriptor without content *)

(** The source of its mount call: the descriptor's source, or the
    literal none when that is empty. *)
Definition srcpath (mpt : mount_t) : string :=
  if empty (src mpt) then snprintf PATH_MAX "none"
  else snprintf PATH_MAX (src mpt).

(** Its kernel mount call: the descriptor's flags with read-only
    cleared. *)
Definition plain_mount_call (mpt : mount_t) (path : string) : call :=
  c_mount (Some (srcpath mpt)) path (Some (fs_type mpt))
    (Z.land (flags mpt) (not64 MS_RDONLY))
    (Some (options mpt)).

(** What mountPt does with a descriptor that has no content and is not a
    symlink: once the parents of the destination exist and the
    destination was made ready, the mount call is issued, whatever the
    calls that made the destination ready returned. *)
Inductive plain_mount (mpt : mount_t) (newroot : string)
  : list event -> bool -> mount_t -> Prop :=
| pm_no_parents (r0 : reply) :
    truthy r0 = false ->
    plain_mount mpt newroot
      [(c_createDirRecursively (dstpath newroot mpt), r0)]
      false mpt
| pm_mount_failed (r0 : reply) (prep : list event) (r : reply) :
    truthy r0 = true ->
    dst_prepared mpt (dstpath newroot mpt) prep ->
    failed r = true ->
    plain_mount mpt newroot
      ((c_createDirRecursively (dstpath newroot mpt), r0) :: prep ++
       [(plain_mount_call mpt (dstpath newroot mpt), r)])
      false mpt
| pm_mounted (r0 : reply) (prep : list event) (r : reply) :
    truthy r0 = true ->
    dst_prepared mpt (dstpath newroot mpt) prep ->
    failed r = false ->
    plain_mount mpt newroot
      ((c_createDirRecursively (dstpath newroot mpt), r0) :: prep ++
       [(plain_mount_call mpt (dstpath newroot mpt), r)])
      true (set_mounted mpt true).

(** ** The read-only re-mount *)

(** What remountRO does for one descriptor: nothing, with true, unless
    the descriptor is mounted, not a symlink and read-only in its flags;
    else the statvfs probe of the destination and, only after a probe
    that succeeded, the mount call on the destination with the flags
    composed from the probe.  [ok] is what remountRO returns. *)
Definition remounted (p : mount_t) (t : list event) (ok : bool) : Prop :=
  if wants_remount p then
    (exists vfs,
       t = [(c_statvfs (dst p), vfs)] /\ failed vfs = true /\ ok = false) \/
    (exists vfs m,
       t = [(c_statvfs (dst p), vfs);
            (c_mount (Some (dst p)) (dst p) None
               (remount_flags (out vfs)) None, m)] /\
       failed vfs = false /\ ok = negb (failed m))
  else t = [] /\ ok = true.

(** The re-mount pass over a sequence: the descriptors are taken in
    order; the pass stops with false at the first mandatory descriptor
    for which remountRO returned false, issuing nothing for the
    descriptors behind it, goes on after any other descriptor, and
    returns true at the end of the sequence. *)
Inductive remount_pass : list mount_t -> list event -> bool -> Prop :=
| pass_end : remount_pass [] [] true
| pass_stop (p : mount_t) (rest : list mount_t) (t : list event) :
    remounted p t false ->
    is_mandatory p = true ->
    remount_pass (p :: rest) t false
| pass_on (p : mount_t) (rest : list mount_t) (t : list event) (ok : bool)
    (t' : list event) (r : bool) :
    remounted p t ok ->
    ok = true \/ is_mandatory p = false ->
    remount_pass rest t' r ->
    remount_pass (p :: rest) (t ++ t') r.

(** ** The scratch-directory chooser *)

(** One candidate tested: mkdir with mode 0755 and, unless mkdir failed
    with an errno other than EEXIST, access for reading.  The candidate
    is accepted when the access call succeeded. *)
Inductive tested (dir : string) : list event -> bool -> Prop :=
| tested_no_directory (r : reply) :
    failed r = true -> errno r <> EEXIST ->
    tested dir [(c_mkdir dir 493, r)] false
| tested_access (r a : reply) :
    failed r = false \/ errno r = EEXIST ->
    tested dir [(c_mkdir dir 493, r); (c_access dir R_OK, a)]
      (negb (failed a)).

(** The candidates of a list tested in order, up to and including the
    first one accepted, which is the result; the result is null when
    every candidate of the list was tested and rejected. *)
Inductive tried : list string -> list event -> option string -> Prop :=
| tried_all : tried [] [] None
| tried_accepted (dir : string) (rest : list string) (t : list event) :
    tested dir t true ->
    tried (dir :: rest) t (Some dir)
| tried_rejected (dir : string) (rest : list string) (t t' : list event)
    (res : option string) :
    tested dir t false ->
    tried rest t' res ->
    tried (dir :: rest) (t ++ t') res.

(** The chooser for a uid and a label.  It tries the first two
    candidates.  Only when both were rejected it looks TMPDIR up, once,
    and tries the candidate under its value, if it has one, and then the
    one under /dev/shm.  Only when these were rejected too it draws a
    random number, once, and tries the candidate that ends in it. *)
Definition chooses (uid : Z) (label : string) (tr : list event)
  (res : option string) : Prop :=
  (exists dir,
     res = Some dir /\ tried (first_candidates uid label) tr (Some dir)) \/
  (exists t1 e t2,
     tried (first_candidates uid label) t1 None /\
     ((exists dir,
         res = Some dir /\
         tried (next_candidates uid label (str e)) t2 (Some dir) /\
         tr = t1 ++ (c_getenv "TMPDIR", e) :: t2) \/
      (exists rnd t3,
         tried (next_candidates uid label (str e)) t2 None /\
         tried [last_candidate uid label (ret rnd)] t3 res /\
         tr = t1 ++ (c_getenv "TMPDIR", e) :: t2 ++ (c_rnd64, rnd) :: t3))).

(** The calls that test a directory, and what a trace has of them. *)
Definition is_test (c : call) : bool :=
  match c with
  | c_mkdir _ _ | c_access _ _ => true
  | _ => false
  end.

Definition tests (tr : list event) : list event :=
  filter (fun e => is_test (fst e)) tr.

End behaviour.

(** * cgroup.cc: teardown

    rmdir is not among the operations of the installers and of the
    constructor; the teardown functions run over it alone.  Each returns
    the kernel state it leaves and the rmdir calls it issued, with their
    replies. *)

Module cgroup_finish.

Section Teardown.

Context {W : Type}.
Variable rmdir : string -> W -> reply * W.

Definition finishFromParentMem (nsjconf : nsjconf_t) (pid : Z) (w : W)
  : W * list (string * reply) :=
  if cgroup_mem_max nsjconf =? 0 then (w, []) else
  let mem_cgroup_path :=
    cgroup.cgroup_path (cgroup_mem_mount nsjconf)
      (cgroup_mem_parent nsjconf) pid in
  let '(r, w) := rmdir mem_cgroup_path w in
  (w, [(mem_cgroup_path, r)]).

Definition finishFromParentPids (nsjconf : nsjconf_t) (pid : Z) (w : W)
  : W * list (string * reply) :=
  if cgroup_pids_max nsjconf =? 0 then (w, []) else
  let pids_cgroup_path :=
    cgroup.cgroup_path (cgroup_pids_mount nsjconf)
      (cgroup_pids_parent nsjconf) pid in
  let '(r, w) := rmdir pids_cgroup_path w in
  (w, [(pids_cgroup_path, r)]).

Definition finishFromParentCpu (nsjconf : nsjconf_t) (pid : Z) (w : W)
  : W * list (string * reply) :=
  if cgroup_cpu_ms_per_sec nsjconf =? 0 then (w, []) else
  let cpu_cgroup_path :=
    cgroup.cgroup_path (cgroup_cpu_mount nsjconf)
      (cgroup_cpu_parent nsjconf) pid in
  let '(r, w) := rmdir cpu_cgroup_path w in
  (w, [(cpu_cgroup_path, r)]).

Definition finishFromParentNetCls (nsjconf : nsjconf_t) (pid : Z) (w : W)
  : W * list (string * reply) :=
  if cgroup_net_cls_classid nsjconf =? 0 then (w, []) else
  let net_cls_cgroup_path :=
    cgroup.cgroup_path (cgroup_net_cls_mount nsjconf)
      (cgroup_net_cls_parent nsjconf) pid in
  let '(r, w) := rmdir net_cls_cgroup_path w in
  (w, [(net_cls_cgroup_path, r)]).

Definition finishFromParent (nsjconf : nsjconf_t) (pid : Z) (w : W)
  : W * list (string * reply) :=
  let '(w, t1) := finishFromParentMem nsjconf pid w in
  let '(w, t2) := finishFromParentPids nsjconf pid w in
  let '(w, t3) := finishFromParentNetCls nsjconf pid w in
  let '(w, t4) := finishFromParentCpu nsjconf pid w in
  (w, t1 ++ t2 ++ t3 ++ t4).

End Teardown.

(** The directories a list of calls asks mkdir for, in order. *)
Definition mkdir_paths (calls : list call) : list string :=
  flat_map (fun c => match c with c_mkdir p _ => [p] | _ => [] end) calls.

End cgroup_finish.

(** * Readings of a trace *)

Module trace.

Fixpoint remove_fd (fd : Z) (held : list Z) : list Z :=
  match held with
  | [] => []
  | x :: held' => if x =? fd then held' else x :: remove_fd fd held'
  end.

(** The descriptors held after a trace by a process that held [held]
    before it: a successful open adds its result, close drops its
    argument. *)
Fixpoint open_fds (tr : list event) (held : list Z) : list Z :=
  match tr with
  | [] => held
  | (c_open _ _ _, r) :: rest =>
      if ret r >=? 0 then open_fds rest (ret r :: held)
      else open_fds rest held
  | (c_close fd, _) :: rest => open_fds rest (remove_fd fd held)
  | _ :: rest => open_fds rest held
  end.

(** Every call of the computation satisfies [p], and the computation
    leaves the static counter alone. *)
Definition only {W A : Type} (p : call -> bool) (m : M W A) : Prop :=
  forall s,
    forallb (fun e => p (fst e)) (snd (m s)) = true /\
    df_counter (snd (fst (m s))) = df_counter s.

(** The calls of the scratch-directory chooser. *)
Definition getDir_call (c : call) : bool :=
  match c with
  | c_mkdir _ perm => perm =? 493
  | c_access _ amode => amode =? R_OK
  | c_getenv name => String.eqb name "TMPDIR"
  | c_rnd64 => true
  | _ => false
  end.

(** The calls of the read-only re-mount pass. *)
Definition remount_call (c : call) : bool :=
  match c with
  | c_statvfs _ => true
  | c_mount (Some source) target None mflags None =>
      String.eqb source target && negb (Z.land mflags MS_REMOUNT =? 0)
  | _ => false
  end.

(** The calls of the mount pass: those of mountPt. *)
Definition mountPt_call (c : call) : bool :=
  match c with
  | c_createDirRecursively _ | c_symlink _ _ | c_open _ _ _ | c_close _
  | c_writeToFd _ _ | c_unlink _ => true
  | c_mkdir _ perm => perm =? 457
  | c_mount (Some _) _ (Some _) _ (Some _) => true
  | _ => false
  end.

(** What the mount pass may change in a descriptor: [mounted], from false
    to true, and the flags of a content descriptor, by adding bind,
    recursive and private. *)
Definition same_entry (p p' : mount_t) : Prop :=
  src p' = src p /\ src_content p' = src_content p /\ dst p' = dst p /\
  fs_type p' = fs_type p /\ options p' = options p /\
  is_dir p' = is_dir p /\ is_symlink p' = is_symlink p /\
  is_mandatory p' = is_mandatory p /\
  (mounted p = true -> mounted p' = true) /\
  (flags p' = flags p \/
   (empty (src_content p) = false /\
    flags p' = Z.lor (flags p) (Z.lor (Z.lor MS_BIND MS_REC) MS_PRIVATE))).

End trace.

(** ** Further concrete inputs *)

Module scenario_more.

(** /lib64 as a link to /lib. *)
Definition lib64_link : mount_t :=
  mk_mount "/lib" "" "/lib64" "" "" 0 false true true false.

(** /etc/hostname synthesized from four bytes, read-only. *)
Definition hostname_file : mount_t :=
  mk_mount "" "jail" "/etc/hostname" "" "" MS_RDONLY false false true false.

(** A mandatory read-only bind of /bin. *)
Definition bin_bind : mount_t :=
  mk_mount "/bin" "" "/bin" "" "" (Z.lor MS_BIND MS_RDONLY)
    true false true false.

Definition conf_bin : nsjconf_t := set_mountpts scenario.a_conf [bin_bind].

End scenario_more.

(** * Properties of cgroup.cc *)

Section cgroup_facts.

Import cgroup.

Context {W : Type}.
Variable kernel : call -> W -> reply * W.

Lemma staged_pure_true : staged (W:=W) [] (pure true).
Proof. intro s; simpl; auto. Qed.

Lemma staged_seq (c1 c2 : list call) (m1 m2 : M W bool) :
  staged c1 m1 -> staged c2 m2 ->
  staged (c1 ++ c2) (ok <- m1 ;; if negb ok then pure false else m2).
Proof.
  intros H1 H2 s. unfold bind.
  specialize (H1 s). destruct (m1 s) as [[r1 s1] t1].
  destruct r1; simpl.
  - destruct H1 as [Hc Hok].
    specialize (H2 s1). destruct (m2 s1) as [[r2 s2] t2].
    destruct r2.
    + destruct H2 as [Hc2 Hok2]. split.
      * rewrite <- Hc, <- Hc2. apply map_app.
      * rewrite forallb_app, Hok, Hok2. reflexivity.
    + destruct H2 as (tr0 & bad & -> & Hok0 & Hbad & k & Hk).
      exists (t1 ++ tr0), bad. repeat split; auto.
      * now rewrite app_assoc.
      * rewrite forallb_app, Hok, Hok0. reflexivity.
      * exists k. rewrite <- Hc, Hk, (map_app fst t1), <- app_assoc.
        reflexivity.
  - destruct H1 as (tr0 & bad & -> & Hok0 & Hbad & k & Hk).
    exists tr0, bad. rewrite app_nil_r. repeat split; auto.
    exists (k ++ c2). rewrite Hk, app_assoc. reflexivity.
Qed.

Lemma staged_mkdir (path : string) :
  staged [c_mkdir path 448] (mkdir_cgroup kernel path).
Proof.
  intro s. unfold mkdir_cgroup, bind, sys, pure.
  destruct (kernel (c_mkdir path 448) (kst s)) as [r w]. simpl.
  destruct (negb (failed r && negb (errno r =? EEXIST))) eqn:E.
  - unfold step_ok. simpl. rewrite E. auto.
  - exists [], (c_mkdir path 448, r). unfold step_ok. simpl.
    repeat split; auto. exists []. reflexivity.
Qed.

Lemma staged_write (fname buf : string) (oflags : Z) :
  staged [c_writeBufToFile fname buf oflags]
         (writeBufToFile kernel fname buf oflags).
Proof.
  intro s. unfold writeBufToFile, bind, sys, pure.
  destruct (kernel (c_writeBufToFile fname buf oflags) (kst s)) as [r w]. simpl.
  destruct (truthy r) eqn:E.
  - unfold step_ok. simpl. rewrite E. auto.
  - exists [], (c_writeBufToFile fname buf oflags, r). unfold step_ok. simpl.
    repeat split; auto. exists []. reflexivity.
Qed.

Lemma staged_step (c : call) (cs : list call) (m k : M W bool) :
  staged [c] m -> staged cs k ->
  staged (c :: cs) (ok <- m ;; if negb ok then pure false else k).
Proof. intros H1 H2. exact (staged_seq [c] cs m k H1 H2). Qed.

Ltac staged_steps :=
  repeat first
    [ apply staged_pure_true
    | apply staged_step; [ first [ apply staged_mkdir | apply staged_write ] | ] ].

Lemma staged_Mem nsjconf pid :
  staged (controller_calls (memory_controller nsjconf pid))
         (initNsFromParentMem kernel nsjconf pid).
Proof.
  unfold initNsFromParentMem, controller_calls, memory_controller. simpl.
  destruct (cgroup_mem_max nsjconf =? 0); staged_steps.
Qed.

Lemma staged_Pids nsjconf pid :
  staged (controller_calls (pids_controller nsjconf pid))
         (initNsFromParentPids kernel nsjconf pid).
Proof.
  unfold initNsFromParentPids, controller_calls, pids_controller. simpl.
  destruct (cgroup_pids_max nsjconf =? 0); staged_steps.
Qed.

Lemma staged_NetCls nsjconf pid :
  staged (controller_calls (net_cls_controller nsjconf pid))
         (initNsFromParentNetCls kernel nsjconf pid).
Proof.
  unfold initNsFromParentNetCls, controller_calls, net_cls_controller. simpl.
  destruct (cgroup_net_cls_classid nsjconf =? 0); staged_steps.
Qed.

Lemma staged_Cpu nsjconf pid :
  staged (controller_calls (cpu_controller nsjconf pid))
         (initNsFromParentCpu kernel nsjconf pid).
Proof.
  unfold initNsFromParentCpu, controller_calls, cpu_controller. simpl.
  destruct (cgroup_cpu_ms_per_sec nsjconf =? 0); staged_steps.
Qed.

Lemma staged_initNsFromParent nsjconf pid :
  staged (expected_calls nsjconf pid) (initNsFromParent kernel nsjconf pid).
Proof.
  unfold initNsFromParent, expected_calls.
  apply staged_seq; [apply staged_Mem|].
  apply staged_seq; [apply staged_Pids|].
  apply staged_seq; [apply staged_NetCls|].
  rewrite <- (app_nil_r (controller_calls (cpu_controller nsjconf pid))).
  apply staged_seq; [apply staged_Cpu|].
  apply staged_pure_true.
Qed.


End cgroup_facts.

(** Scenarios 4 and 5 of the specification: memory limit 67108864, pids
    disabled, net_cls class 0x100001 and 250 ms/s of cpu for pid 1234. *)
Example install_scenario :
  cgroup.initNsFromParent scenario.all_ok scenario.a_conf 1234 scenario.start
  = (true, scenario.start,
     map (fun c => (c, scenario.reply_ok c))
       [c_mkdir "/sys/fs/cgroup/memory/NSJAIL/NSJAIL.1234" 448;
        c_writeBufToFile
          "/sys/fs/cgroup/memory/NSJAIL/NSJAIL.1234/memory.limit_in_bytes"
          "67108864" 524289;
        c_writeBufToFile
          "/sys/fs/cgroup/memory/NSJAIL/NSJAIL.1234/memory.oom_control"
          "0" 524289;
        c_writeBufToFile "/sys/fs/cgroup/memory/NSJAIL/NSJAIL.1234/tasks"
          "1234" 524289;
        c_mkdir "/sys/fs/cgroup/net_cls/NSJAIL/NSJAIL.1234" 448;
        c_writeBufToFile
          "/sys/fs/cgroup/net_cls/NSJAIL/NSJAIL.1234/net_cls.classid"
          "0x100001" 524289;
        c_writeBufToFile "/sys/fs/cgroup/net_cls/NSJAIL/NSJAIL.1234/tasks"
          "1234" 524289;
        c_mkdir "/sys/fs/cgroup/cpu/NSJAIL/NSJAIL.1234" 448;
        c_writeBufToFile
          "/sys/fs/cgroup/cpu/NSJAIL/NSJAIL.1234/cpu.cfs_quota_us"
          "250000" 524289;
        c_writeBufToFile
          "/sys/fs/cgroup/cpu/NSJAIL/NSJAIL.1234/cpu.cfs_period_us"
          "1000000" 524289;
        c_writeBufToFile "/sys/fs/cgroup/cpu/NSJAIL/NSJAIL.1234/tasks"
          "1234" 524289]%string).
Proof. vm_compute. reflexivity. Qed.

(** A failing write in the memory controller stops the install there. *)
Example install_stops_at_first_failure :
  let bad c :=
    match c with
    | c_writeBufToFile p _ _ =>
        String.eqb p
          "/sys/fs/cgroup/memory/NSJAIL/NSJAIL.1234/memory.oom_control"
    | _ => false
    end in
  let '(r, _, tr) :=
    cgroup.initNsFromParent (scenario.failing bad 13) scenario.a_conf 1234
      scenario.start in
  r = false /\ List.length tr = 3%nat.
Proof. vm_compute. auto. Qed.

(** * Properties of flagsToStr *)

Section flagsToStr_facts.

Import mnt.

Lemma append_assoc (a b c : string) : (a ^^ b) ^^ c = a ^^ (b ^^ c).
Proof. induction a as [|x a IH]; simpl; [reflexivity|now rewrite IH]. Qed.

Lemma append_empty_r (a : string) : a ^^ "" = a.
Proof. induction a as [|x a IH]; simpl; [reflexivity|now rewrite IH]. Qed.

Lemma free_of_append (sep : ascii) (a b : string) :
  free_of sep (a ^^ b) = free_of sep a && free_of sep b.
Proof.
  induction a as [|x a IH]; simpl; [reflexivity|].
  rewrite IH. now rewrite andb_assoc.
Qed.

Lemma split_on_nonempty (sep : ascii) (s : string) : split_on sep s <> [].
Proof.
  destruct s as [|c s]; simpl; [discriminate|].
  destruct (Ascii.eqb c sep); [discriminate|].
  destruct (split_on sep s); discriminate.
Qed.

(** A token free of the separator, followed by the separator, is split
    off whole. *)
Lemma split_on_token (sep : ascii) (tok rest : string) :
  free_of sep tok = true ->
  split_on sep (tok ^^ String sep rest) = tok :: split_on sep rest.
Proof.
  induction tok as [|c tok IH]; simpl; intros H.
  - now rewrite Ascii.eqb_refl.
  - apply andb_prop in H. destruct H as [Hc Ht].
    apply negb_true_iff in Hc. rewrite Hc, (IH Ht). reflexivity.
Qed.

Lemma split_on_free (sep : ascii) (tok : string) :
  free_of sep tok = true -> split_on sep tok = [tok].
Proof.
  induction tok as [|c tok IH]; simpl; intros H; [reflexivity|].
  apply andb_prop in H. destruct H as [Hc Ht].
  apply negb_true_iff in Hc. rewrite Hc, (IH Ht). reflexivity.
Qed.

Lemma joined_app (a b : list string) : joined (a ++ b) = joined a ^^ joined b.
Proof.
  induction a as [|n a IH]; simpl; [reflexivity|].
  now rewrite IH, !append_assoc.
Qed.

Lemma empty_joined (names : list string) :
  empty (joined names) = match names with [] => true | _ => false end.
Proof.
  destruct names as [|n names]; simpl; [reflexivity|].
  destruct n; reflexivity.
Qed.

Lemma split_on_joined (names : list string) (last : string) :
  Forall (fun n => free_of "|" n = true) names ->
  free_of "|" last = true ->
  split_on "|" (joined names ^^ last) = names ++ [last].
Proof.
  intros Hn Hl. induction Hn as [|n names Hfree _ IH]; simpl.
  - now apply split_on_free.
  - rewrite !append_assoc. simpl.
    rewrite (split_on_token "|" n _ Hfree), IH. reflexivity.
Qed.

Lemma pop_back_append (s : string) : pop_back (s ^^ "|") = s.
Proof.
  unfold pop_back.
  assert (Hlen : (String.length (s ^^ "|") - 1)%nat = String.length s).
  { induction s as [|c s IH]; simpl in *; [reflexivity|].
    destruct (String.length (s ^^ "|")) eqn:E; simpl in *; [|lia].
    destruct s; discriminate. }
  rewrite Hlen. clear Hlen.
  induction s as [|c s IH]; simpl; [reflexivity|now rewrite IH].
Qed.

(** The loop of flagsToStr, started from any accumulator. *)
Lemma flagsToStr_loop (flags : Z) (table : list (Z * string))
  (res : string) (known : Z) :
  fold_left (flagsToStr_step flags) table (res, known) =
  (res ^^ joined
            (map snd
               (filter (fun i => negb (Z.land flags (fst i) =? 0)) table)),
   fold_left (fun known i => Z.lor known (fst i)) table known).
Proof.
  revert res known. induction table as [|i table IH]; intros res known; simpl.
  - now rewrite append_empty_r.
  - rewrite IH. destruct (negb (Z.land flags (fst i) =? 0)); simpl.
    + now rewrite !append_assoc.
    + reflexivity.
Qed.

Lemma flagsToStr_unfold (flags : Z) :
  flagsToStr flags =
  let res := joined (known_names flags) in
  if (unknown_bits flags =? 0) && negb (empty res)
  then pop_back res
  else res ^^ alt_hex (unknown_bits flags).
Proof.
  unfold flagsToStr, known_names, unknown_bits, knownFlagMask.
  rewrite flagsToStr_loop.
  change ("" ^^ ?x)%string with x.
  reflexivity.
Qed.

Lemma hex_digits_free (d : Hexadecimal.uint) :
  free_of "|" (HexadecimalString.NilEmpty.string_of_uint d) = true.
Proof. induction d; simpl; auto. Qed.

Lemma alt_hex_free (z : Z) : free_of "|" (alt_hex z) = true.
Proof.
  unfold alt_hex, hex. destruct (z =? 0); [reflexivity|].
  simpl. unfold HexadecimalString.NilZero.string_of_uint.
  destruct (N.to_hex_uint (Z.to_N z)); try reflexivity; apply hex_digits_free.
Qed.

Lemma known_names_free (flags : Z) :
  Forall (fun n => free_of "|" n = true) (known_names flags).
Proof.
  unfold known_names.
  assert (H : Forall (fun n => free_of "|" n = true) (map snd mountFlags)).
  { repeat constructor. }
  revert H. generalize mountFlags as table.
  induction table as [|i table IH]; simpl; intros H; [constructor|].
  inversion H; subst.
  destruct (negb (Z.land flags (fst i) =? 0)); simpl; auto.
Qed.

(** C7, as the code has it: split at '|', the output of flagsToStr is the
    names of the known flags set in the input, in table order, followed
    by at most one hexadecimal token for the bits outside the table; that
    token is left out exactly when no such bit is set and at least one
    known flag is.  An input with no known flag set, zero included, gives
    the hexadecimal token alone. *)
Theorem C7_flagsToStr_tokens (flags : Z) :
  split_on "|" (flagsToStr flags) =
  known_names flags ++
  (if (unknown_bits flags =? 0)
      && negb (match known_names flags with [] => true | _ => false end)
   then []
   else [alt_hex (unknown_bits flags)]).
Proof.
  rewrite flagsToStr_unfold. cbv zeta. rewrite empty_joined.
  pose proof (known_names_free flags) as Hfree.
  destruct (unknown_bits flags =? 0) eqn:Hu; simpl.
  - destruct (known_names flags) as [|n names] eqn:Hn using rev_ind; simpl.
    + apply split_on_free, alt_hex_free.
    + clear IHnames.
      assert (Hne : match names ++ [n] with [] => true | _ => false end = false)
        by (destruct names; reflexivity).
      rewrite Hne. simpl.
      rewrite joined_app. simpl. rewrite append_empty_r.
      rewrite <- append_assoc, pop_back_append, app_nil_r.
      apply Forall_app in Hfree. destruct Hfree as [Hnames Hlast].
      inversion Hlast; subst.
      now apply split_on_joined.
  - apply split_on_joined; [assumption|apply alt_hex_free].
Qed.

End flagsToStr_facts.

(** No flag at all is rendered as the hexadecimal token "0", although no
    bit outside the table is set. *)
Lemma C7_zero_flags_counterexample :
  mnt.flagsToStr 0 = "0"%string /\
  mnt.known_names 0 = [] /\
  mnt.unknown_bits 0 = 0 /\
  ~ mnt.hex_only_for_unknown_bits 0.
Proof.
  repeat split; try reflexivity.
  intros (residue & Hsplit & _ & Hbits).
  vm_compute in Hsplit. subst residue.
  apply Hbits; [discriminate|reflexivity].
Qed.

Example flagsToStr_examples :
  mnt.flagsToStr 0 = "0"%string /\
  mnt.flagsToStr (Z.lor MS_RDONLY MS_BIND) = "MS_RDONLY|MS_BIND"%string /\
  mnt.flagsToStr (Z.lor (Z.lor MS_RDONLY MS_BIND) 256)
  = "MS_RDONLY|MS_BIND|0x100"%string /\
  mnt.flagsToStr 256 = "0x100"%string.
Proof. vm_compute. auto. Qed.

(** * Properties of mnt.cc *)

Section mnt_facts.

Import mnt behaviour.

Context {W : Type}.
Variable kernel : call -> W -> reply * W.

#[local] Arguments isDir : simpl never.
#[local] Arguments from_env : simpl never.
#[local] Arguments snprintf : simpl never.
#[local] Arguments to_string : simpl never.
#[local] Arguments String.append : simpl never.
#[local] Arguments not64 : simpl never.
#[local] Arguments Z.land : simpl never.
#[local] Arguments Z.lor : simpl never.

(** ** The replies of a trace are the kernel's *)

Lemma replays_app (w : W) (t1 : list event) (w1 : W) (t2 : list event)
  (w2 : W) :
  replays kernel w t1 w1 -> replays kernel w1 t2 w2 ->
  replays kernel w (t1 ++ t2) w2.
Proof.
  revert w. induction t1 as [|[c r] t1 IH]; simpl; intros w H1 H2.
  - subst w1. exact H2.
  - destruct H1 as [Hr H1]. split; [exact Hr|]. now apply IH.
Qed.

Lemma replayed_pure {A} (a : A) : replayed kernel (pure a).
Proof. intro s. reflexivity. Qed.

Lemma replayed_sys (c : call) : replayed kernel (sys kernel c).
Proof.
  intro s. unfold sys. destruct (kernel c (kst s)) as [r w] eqn:K. simpl.
  rewrite K. simpl. auto.
Qed.

Lemma replayed_next_df_counter : replayed kernel next_df_counter.
Proof. intro s. reflexivity. Qed.

Lemma replayed_bind {A B} (m : M W A) (f : A -> M W B) :
  replayed kernel m -> (forall a, replayed kernel (f a)) ->
  replayed kernel (bind m f).
Proof.
  intros Hm Hf s. unfold bind.
  specialize (Hm s). destruct (m s) as [[a s1] t1]. simpl in Hm.
  specialize (Hf a s1). destruct (f a s1) as [[b s2] t2]. simpl in *.
  eapply replays_app; eassumption.
Qed.

Ltac replay_steps :=
  repeat first
    [ apply replayed_pure
    | apply replayed_sys
    | apply replayed_next_df_counter
    | apply replayed_bind; [|intros ?]
    | match goal with
      | |- replayed _ (if ?b then _ else _) => destruct b
      | |- replayed _ (match ?x with _ => _ end) => destruct x
      | |- replayed _ (let '(_, _) := ?x in _) => destruct x
      end ].


(** ** Descriptor finalization *)

Lemma isDir_probe (p : string) (s : st W) :
  isDir kernel (Some p) s =
  let '(r, w) := kernel (c_stat p) (kst s) in
  (negb (failed r) && S_ISDIR (out r), mk_st w (df_counter s), [(c_stat p, r)]).
Proof.
  unfold isDir, bind, sys, pure.
  destruct (kernel (c_stat p) (kst s)) as [r w].
  destruct (failed r); simpl; [reflexivity|].
  destruct (S_ISDIR (out r)); reflexivity.
Qed.

Ltac run_kernel :=
  repeat match goal with
  | |- context [kernel ?c ?w] =>
      let r := fresh "r" in
      let w' := fresh "w" in
      let K := fresh "K" in
      destruct (kernel c w) as [r w'] eqn:K; simpl
  end.

Ltac run_addMountPt :=
  unfold addMountPt, from_env, isDir, bind, sys, pure; simpl.

(** The lookups of addMountPt are those of [prefix_in]. *)
Lemma from_env_prefix_in (env cur : string) (s : st W) :
  from_env kernel env cur s =
  let '(p, w, t) := prefix_in kernel env cur (kst s) in
  (p, mk_st w (df_counter s), t).
Proof.
  unfold from_env, prefix_in, bind, sys, pure.
  destruct (empty env); simpl.
  - destruct s; reflexivity.
  - destruct (kernel (c_getenv env) (kst s)) as [r w]. reflexivity.
Qed.

(** addMountPt, from the kernel and the arguments alone: whether it
    returns true, the descriptor it leaves and the calls it issues. *)
Lemma addMountPt_exact
  (mnt0 : mount_t) (src dst fstype options : string) (flags : Z)
  (is_dir : isDir_t) (is_mandatory : bool)
  (src_env dst_env src_content : string) (is_symlink : bool) (s : st W) :
  let '(ok, m, _, tr) :=
    addMountPt kernel mnt0 src dst fstype options flags is_dir is_mandatory
      src_env dst_env src_content is_symlink s in
  let '(ps, w1, t1) := prefix_in kernel src_env (nsjail.src mnt0) (kst s) in
  let '(pd, w2, t2) := prefix_in kernel dst_env (nsjail.dst mnt0) w1 in
  match ps with
  | None => ok = false /\ m = mnt0 /\ tr = t1
  | Some ps =>
      match pd with
      | None => ok = false /\ tr = t1 ++ t2
      | Some pd =>
          let fin d :=
            mk_mount (ps ^^ src) src_content (pd ^^ dst) fstype options flags
              d is_symlink is_mandatory false in
          let r := fst (kernel (c_stat (ps ^^ src)) w2) in
          match is_dir with
          | NS_DIR_YES => ok = true /\ m = fin true /\ tr = t1 ++ t2
          | NS_DIR_NO => ok = true /\ m = fin false /\ tr = t1 ++ t2
          | NS_DIR_MAYBE =>
              ok = true /\
              if negb (empty src_content)
              then m = fin false /\ tr = t1 ++ t2
              else if empty (ps ^^ src)
              then m = fin true /\ tr = t1 ++ t2
              else if negb (Z.land flags MS_BIND =? 0)
              then m = fin (negb (failed r) && S_ISDIR (out r)) /\
                   tr = t1 ++ t2 ++ [(c_stat (ps ^^ src), r)]
              else m = fin true /\ tr = t1 ++ t2
          | NS_DIR_other _ => ok = false /\ tr = t1 ++ t2
          end
      end
  end.
Proof.
  unfold addMountPt, bind.
  rewrite from_env_prefix_in.
  destruct (prefix_in kernel src_env (nsjail.src mnt0) (kst s))
    as [[ps w1] t1].
  destruct ps as [ps|]; simpl.
  2:{ destruct (prefix_in kernel dst_env (nsjail.dst mnt0) w1) as [[pd w2] t2].
      rewrite app_nil_r. auto. }
  rewrite from_env_prefix_in. simpl.
  destruct (prefix_in kernel dst_env (nsjail.dst mnt0) w1) as [[pd w2] t2].
  destruct pd as [pd|]; simpl; [|auto].
  destruct is_dir; simpl; rewrite ?app_nil_r; auto.
  destruct (empty src_content); simpl; rewrite ?app_nil_r; auto.
  destruct (empty (ps ^^ src)); simpl; rewrite ?app_nil_r; auto.
  destruct (Z.land flags MS_BIND =? 0); simpl; rewrite ?app_nil_r; auto.
  rewrite isDir_probe. simpl.
  - destruct (kernel (c_stat (ps ^^ src)) w2) as [r w]. simpl.
    repeat split.
  - rewrite !app_nil_r. auto.
Qed.

(** C5: finalization succeeds whenever the named variables are set and
    the tag is yes, no or maybe, and then the tag resolves to true for
    yes and false for no; for maybe to false when there is source
    content, else to true when the source (after the environment prefix)
    is empty, else, when the bind flag is set, to the is-directory probe
    of the source (the last call is stat on the source, and the result is
    that the kernel's reply succeeded and reported a directory), else to
    true.  With a named variable unset or another tag it returns
    false. *)
Theorem C5_is_dir_resolution
  (mnt0 : mount_t) (src dst fstype options : string) (flags : Z)
  (is_dir : isDir_t) (is_mandatory : bool)
  (src_env dst_env src_content : string) (is_symlink : bool) (s : st W) :
  let '(ok, m, _, tr) :=
    addMountPt kernel mnt0 src dst fstype options flags is_dir is_mandatory
      src_env dst_env src_content is_symlink s in
  let '(ps, w1, _) := prefix_in kernel src_env (nsjail.src mnt0) (kst s) in
  let '(pd, w2, _) := prefix_in kernel dst_env (nsjail.dst mnt0) w1 in
  match ps, pd with
  | Some ps, Some pd =>
      match is_dir with
      | NS_DIR_YES => ok = true /\ nsjail.is_dir m = true
      | NS_DIR_NO => ok = true /\ nsjail.is_dir m = false
      | NS_DIR_MAYBE =>
          ok = true /\ nsjail.src m = ps ^^ src /\
          if negb (empty src_content) then nsjail.is_dir m = false
          else if empty (nsjail.src m) then nsjail.is_dir m = true
          else if negb (Z.land flags MS_BIND =? 0) then
            exists tr0 r,
              tr = tr0 ++ [(c_stat (nsjail.src m), r)] /\
              r = fst (kernel (c_stat (nsjail.src m)) w2) /\
              nsjail.is_dir m = negb (failed r) && S_ISDIR (out r)
          else nsjail.is_dir m = true
      | NS_DIR_other _ => ok = false
      end
  | _, _ => ok = false
  end.
Proof.
  pose proof (addMountPt_exact mnt0 src dst fstype options flags is_dir
                is_mandatory src_env dst_env src_content is_symlink s) as H.
  destruct (addMountPt kernel mnt0 src dst fstype options flags is_dir
              is_mandatory src_env dst_env src_content is_symlink s)
    as [[[ok m] s1] tr].
  destruct (prefix_in kernel src_env (nsjail.src mnt0) (kst s))
    as [[ps w1] t1].
  destruct (prefix_in kernel dst_env (nsjail.dst mnt0) w1) as [[pd w2] t2].
  destruct ps as [ps|]; [|tauto].
  destruct pd as [pd|]; [|tauto].
  destruct is_dir; simpl in H; try tauto.
  - destruct H as (-> & -> & _). auto.
  - destruct H as (-> & -> & _). auto.
  - destruct H as [-> H]. split; [reflexivity|].
    destruct (empty src_content); simpl in *.
    + destruct (empty (ps ^^ src)) eqn:Hsrc.
      * destruct H as [-> _]. simpl. rewrite Hsrc. auto.
      * destruct (Z.land flags MS_BIND =? 0); simpl in *.
        -- destruct H as [-> _]. simpl. rewrite Hsrc. auto.
        -- destruct H as [-> ->]. simpl. rewrite Hsrc.
           split; [reflexivity|].
           eexists (t1 ++ t2), _. rewrite app_assoc. auto.
    + destruct H as [-> _]. auto.
Qed.

Lemma from_env_cases (env cur : string) (s : st W) :
  let '(res, s', t) := from_env kernel env cur s in
  (empty env = true /\ res = Some cur /\ t = [] /\ s' = s) \/
  (empty env = false /\
   exists r, t = [(c_getenv env, r)] /\ res = str r).
Proof.
  unfold from_env, bind, sys, pure.
  destruct (empty env); simpl; [left; auto|].
  destruct (kernel (c_getenv env) (kst s)) as [r w]. simpl.
  right. split; [reflexivity|]. exists r. auto.
Qed.


(** Why addMountPt returns false: the tag is none of yes, no, maybe, or
    the last call issued looked up a named variable that is unset. *)
Lemma addMountPt_false
  (mnt0 : mount_t) (src dst fstype options : string) (flags : Z)
  (is_dir : isDir_t) (is_mandatory : bool)
  (src_env dst_env src_content : string) (is_symlink : bool) (s : st W) :
  let '(ok, _, _, tr) :=
    addMountPt kernel mnt0 src dst fstype options flags is_dir is_mandatory
      src_env dst_env src_content is_symlink s in
  ok = false ->
  (exists raw, is_dir = NS_DIR_other raw) \/
  (exists tr0 env r,
     tr = tr0 ++ [(c_getenv env, r)] /\ str r = None /\
     empty env = false /\ (env = src_env \/ env = dst_env)).
Proof.
  unfold addMountPt, bind.
  pose proof (from_env_cases src_env (nsjail.src mnt0) s) as H1.
  destruct (from_env kernel src_env (nsjail.src mnt0) s) as [[e1 s1] t1].
  destruct e1 as [e1|].
  - match goal with |- context [from_env kernel dst_env ?c s1] =>
      pose proof (from_env_cases dst_env c s1) as H2;
      destruct (from_env kernel dst_env c s1) as [[e2 s2] t2]
    end.
    destruct e2 as [e2|].
    + destruct is_dir; simpl; try discriminate.
      * destruct (empty src_content); simpl; try discriminate.
        destruct (empty (e1 ^^ src)); simpl; try discriminate.
        destruct (Z.land flags MS_BIND =? 0); simpl; try discriminate.
        destruct (isDir kernel (Some (e1 ^^ src)) s2) as [[d s3] t3].
        simpl. discriminate.
      * intros _. left. eauto.
    + simpl. intros _. right.
      destruct H2 as [(_ & ? & _)|(He & r & -> & Hr)]; [discriminate|].
      exists t1, dst_env, r. rewrite app_nil_r. auto.
  - simpl. intros _. right.
    destruct H1 as [(_ & ? & _)|(He & r & -> & Hr)]; [discriminate|].
    exists [], src_env, r. auto.
Qed.

(** The scalar members a fresh [mount_t] starts with do not matter: two
    descriptors with the same strings are finalized alike. *)
Lemma addMountPt_overwrites_scalars
  (mnt0 mnt1 : mount_t) (src dst fstype options : string) (flags : Z)
  (is_dir : isDir_t) (is_mandatory : bool)
  (src_env dst_env src_content : string) (is_symlink : bool) (s : st W) :
  nsjail.src mnt0 = nsjail.src mnt1 -> nsjail.dst mnt0 = nsjail.dst mnt1 ->
  fst (fst (fst (addMountPt kernel mnt0 src dst fstype options flags is_dir
                   is_mandatory src_env dst_env src_content is_symlink s)))
  = true ->
  addMountPt kernel mnt0 src dst fstype options flags is_dir
    is_mandatory src_env dst_env src_content is_symlink s
  = addMountPt kernel mnt1 src dst fstype options flags is_dir
      is_mandatory src_env dst_env src_content is_symlink s.
Proof.
  intros Hs Hd. unfold addMountPt, bind. rewrite <- Hs.
  destruct (from_env kernel src_env (nsjail.src mnt0) s) as [[e1 s1] t1].
  destruct e1 as [e1|]; [|discriminate]. simpl. rewrite <- Hd.
  destruct (from_env kernel dst_env _ s1) as [[e2 s2] t2].
  destruct e2 as [e2|]; [|discriminate].
  destruct is_dir; simpl; try discriminate; reflexivity.
Qed.

(** C10: when addMountPtHead or addMountPtTail returns false the
    configuration, and with it the descriptor sequence, is the one passed
    in, and the reason is an unset variable named for the source or the
    destination or a tag outside yes, no and maybe; when it returns true
    the new sequence is the old one with the finalized descriptor put in
    front (head) or at the end (tail), nothing else changed. *)
Theorem C10_add_head_tail
  (nsjconf : nsjconf_t) (src dst fstype options : string) (flags : Z)
  (is_dir : isDir_t) (is_mandatory : bool)
  (src_env dst_env src_content : string) (is_symlink : bool) (s : st W) :
  let added :=
    addMountPt kernel fresh_mount_t src dst fstype options flags is_dir
      is_mandatory src_env dst_env src_content is_symlink s in
  let why_not (tr : list event) :=
    (exists raw, is_dir = NS_DIR_other raw) \/
    (exists tr0 env r,
       tr = tr0 ++ [(c_getenv env, r)] /\ str r = None /\
       empty env = false /\ (env = src_env \/ env = dst_env)) in
  (let '(ok, conf', s', tr) :=
     addMountPtHead kernel nsjconf src dst fstype options flags is_dir
       is_mandatory src_env dst_env src_content is_symlink s in
   if ok then
     exists m,
       added = (true, m, s', tr) /\
       conf' = set_mountpts nsjconf (m :: mountpts nsjconf) /\
       mountpts conf' = m :: mountpts nsjconf /\
       List.length (mountpts conf') = S (List.length (mountpts nsjconf))
   else conf' = nsjconf /\ why_not tr) /\
  (let '(ok, conf', s', tr) :=
     addMountPtTail kernel nsjconf src dst fstype options flags is_dir
       is_mandatory src_env dst_env src_content is_symlink s in
   if ok then
     exists m,
       added = (true, m, s', tr) /\
       conf' = set_mountpts nsjconf (mountpts nsjconf ++ [m]) /\
       mountpts conf' = mountpts nsjconf ++ [m] /\
       List.length (mountpts conf') = S (List.length (mountpts nsjconf))
   else conf' = nsjconf /\ why_not tr).
Proof.
  intros added why_not.
  pose proof (addMountPt_false fresh_mount_t src dst fstype options flags
                is_dir is_mandatory src_env dst_env src_content is_symlink s)
    as Hf.
  unfold addMountPtHead, addMountPtTail, bind. subst added.
  destruct (addMountPt kernel fresh_mount_t src dst fstype options flags
              is_dir is_mandatory src_env dst_env src_content is_symlink s)
    as [[[ok m] s1] t1].
  destruct ok; simpl.
  - split; exists m; rewrite app_nil_r; repeat split; auto.
    rewrite length_app. simpl. lia.
  - rewrite app_nil_r. split; (split; [reflexivity|]); apply Hf; reflexivity.
Qed.

(** ** mountPt *)

Ltac split_ifs :=
  repeat match goal with
  | |- context [if ?b then _ else _] => destruct b eqn:?; simpl
  end.

(** mountPt issues at most one mount call.  With none, the descriptor is
    returned as it was.  With one, the staged content (if any) has put
    bind, recursive and private into the flags, the call carries the
    flags without read-only, and [mounted] is set exactly when the call
    succeeded. *)
Lemma mountPt_spec (mpt : mount_t) (newroot tmpdir : string) (s : st W) :
  let '(ok, m, _, tr) := mountPt kernel mpt newroot tmpdir s in
  match filter (fun e => is_mount (fst e)) tr with
  | [] =>
      m = mpt /\ (ok = true -> is_symlink mpt = true)
  | [(c, r)] =>
      is_symlink mpt = false /\
      (exists srcpath,
         c = c_mount (Some srcpath)
               (snprintf PATH_MAX (newroot ^^ "/" ^^ dst mpt))
               (Some (fs_type mpt))
               (Z.land (flags m) (not64 MS_RDONLY))
               (Some (options mpt))) /\
      m = set_mounted
            (set_flags mpt
               (if empty (src_content mpt) then flags mpt
                else Z.lor (flags mpt)
                       (Z.lor (Z.lor MS_BIND MS_REC) MS_PRIVATE)))
            (if failed r then mounted mpt else true) /\
      ok = negb (failed r)
  | _ => False
  end.
Proof.
  unfold mountPt, mountPt_mount, bind, sys, pure, next_df_counter.
  destruct mpt as [src sc dst ft op fl isd isl ism mtd]. simpl.
  repeat first
    [ progress run_kernel
    | match goal with
      | |- context [if ?b then _ else _] => destruct b eqn:?; simpl
      end ];
    simpl; repeat split; eauto; try discriminate.
Qed.

Lemma has_bits_lor (x mask : Z) : has_bits (Z.lor x mask) mask.
Proof.
  unfold has_bits. apply Z.bits_inj'. intros n _.
  rewrite Z.land_spec, Z.lor_spec.
  destruct (Z.testbit x n), (Z.testbit mask n); reflexivity.
Qed.

Lemma existsb_filter_nil {A} (f : A -> bool) (l : list A) :
  existsb f l = false <-> filter f l = [].
Proof.
  induction l as [|a l IH]; simpl; [tauto|].
  destruct (f a); simpl; [split; discriminate|exact IH].
Qed.

Ltac to_Z :=
  repeat match goal with
  | H : (_ <? _) = true |- _ => apply Z.ltb_lt in H
  | H : (_ <? _) = false |- _ => apply Z.ltb_ge in H
  | H : (_ >=? _) = true |- _ => rewrite Z.geb_leb in H; apply Z.leb_le in H
  | H : (_ >=? _) = false |- _ => rewrite Z.geb_leb in H; apply Z.leb_gt in H
  | H : negb _ = true |- _ => apply negb_true_iff in H
  | H : negb _ = false |- _ => apply negb_false_iff in H
  end.

Ltac prepared :=
  match goal with
  | D : is_dir _ = _ |- dst_prepared _ _ _ =>
      unfold dst_prepared; rewrite D; eexists;
      first [ reflexivity
            | left; split; [|eexists; reflexivity]; lia
            | right; split; [|reflexivity]; lia ]
  end.

(** mountPt on a descriptor with content that is not a symlink. *)
Lemma mountPt_content (mpt : mount_t) (newroot tmpdir : string) (s : st W) :
  empty (src_content mpt) = false ->
  is_symlink mpt = false ->
  let '(ok, m, _, tr) := mountPt kernel mpt newroot tmpdir s in
  content_mount mpt newroot tmpdir (wrap64 (df_counter s + 1)) tr ok m.
Proof.
  intros Hc Hs.
  unfold mountPt, mountPt_mount, bind, sys, pure, next_df_counter.
  rewrite Hs. simpl. rewrite Hc. simpl.
  destruct (kernel (c_createDirRecursively _) (kst s)) as [r0 w0].
  destruct (truthy r0) eqn:T0; simpl; [|apply cm_no_parents; exact T0].
  destruct (is_dir mpt) eqn:D; simpl;
    repeat first
      [ progress run_kernel
      | match goal with
        | |- context [if ?b then _ else _] => destruct b eqn:?; simpl
        end ];
    to_Z;
    first
      [ solve [ eapply (cm_no_staging_file _ _ _ _ _ [_]);
                [assumption|prepared|lia] ]
      | solve [ eapply (cm_no_staging_file _ _ _ _ _ [_; _]);
                [assumption|prepared|lia] ]
      | solve [ eapply (cm_not_written _ _ _ _ _ [_]);
                [assumption|prepared|lia|assumption] ]
      | solve [ eapply (cm_not_written _ _ _ _ _ [_; _]);
                [assumption|prepared|lia|assumption] ]
      | solve [ eapply (cm_mount_failed _ _ _ _ _ [_]);
                [assumption|prepared|lia|assumption|assumption] ]
      | solve [ eapply (cm_mount_failed _ _ _ _ _ [_; _]);
                [assumption|prepared|lia|assumption|assumption] ]
      | solve [ eapply (cm_mounted _ _ _ _ _ [_]);
                [assumption|prepared|lia|assumption|assumption] ]
      | solve [ eapply (cm_mounted _ _ _ _ _ [_; _]);
                [assumption|prepared|lia|assumption|assumption] ] ].
Qed.

(** mountPt on a descriptor without content that is not a symlink. *)
Lemma mountPt_plain (mpt : mount_t) (newroot tmpdir : string) (s : st W) :
  empty (src_content mpt) = true ->
  is_symlink mpt = false ->
  let '(ok, m, _, tr) := mountPt kernel mpt newroot tmpdir s in
  plain_mount mpt newroot tr ok m.
Proof.
  intros Hc Hs.
  unfold mountPt, mountPt_mount, bind, sys, pure, next_df_counter.
  rewrite Hs. simpl. rewrite Hc. simpl.
  destruct (kernel (c_createDirRecursively _) (kst s)) as [r0 w0].
  destruct (truthy r0) eqn:T0; simpl; [|apply pm_no_parents; exact T0].
  assert (Esrc : (if negb (empty (src mpt)) then snprintf PATH_MAX (src mpt)
                  else snprintf PATH_MAX "none") = srcpath mpt)
    by (unfold srcpath; destruct (empty (src mpt)); reflexivity).
  rewrite Esrc.
  destruct (is_dir mpt) eqn:D; simpl;
    repeat first
      [ progress run_kernel
      | match goal with
        | |- context [if ?b then _ else _] => destruct b eqn:?; simpl
        end ];
    to_Z;
    first
      [ solve [ eapply (pm_mount_failed _ _ _ [_]);
                [assumption|prepared|assumption] ]
      | solve [ eapply (pm_mount_failed _ _ _ [_; _]);
                [assumption|prepared|assumption] ]
      | solve [ eapply (pm_mounted _ _ _ [_]);
                [assumption|prepared|assumption] ]
      | solve [ eapply (pm_mounted _ _ _ [_; _]);
                [assumption|prepared|assumption] ] ].
Qed.

Lemma mountPt_replayed (mpt : mount_t) (newroot tmpdir : string) :
  replayed kernel (mountPt kernel mpt newroot tmpdir).
Proof. unfold mountPt, mountPt_mount. replay_steps. Qed.

Lemma has_bits_without_rdonly (x : Z) :
  has_bits (Z.land (Z.lor x bind_rec_private) (not64 MS_RDONLY))
    bind_rec_private.
Proof.
  unfold has_bits.
  rewrite <- Z.land_assoc.
  change (Z.land (not64 MS_RDONLY) bind_rec_private) with bind_rec_private.
  apply has_bits_lor.
Qed.

(** C3, as the code has it: finalization stores the flags as the caller
    passed them, whenever it succeeds (the named variables are set and
    the tag is known).  For a descriptor with source content it is
    mountPt, in the mount pass, that ORs bind, recursive and private into
    the flags, after staging the content and before the kernel mount
    call: the mount call, if any, directly follows the write of the
    content and the close of the staging file and carries the flags with
    the three bits; the flags of the descriptor are the old ones with the
    three bits added when mountPt issued a mount call, and unchanged when
    it issued none. *)
Theorem C3_content_flags_set_in_mount_pass :
  (forall (mnt0 : mount_t) (src dst fstype options : string) (flags : Z)
          (is_dir : isDir_t) (is_mandatory : bool)
          (src_env dst_env src_content : string) (is_symlink : bool)
          (s : st W),
     let '(ok, m, _, _) :=
       addMountPt kernel mnt0 src dst fstype options flags is_dir
         is_mandatory src_env dst_env src_content is_symlink s in
     let '(ps, w1, _) := prefix_in kernel src_env (nsjail.src mnt0) (kst s) in
     let '(pd, _, _) := prefix_in kernel dst_env (nsjail.dst mnt0) w1 in
     match ps, pd, is_dir with
     | None, _, _ | _, None, _ | _, _, NS_DIR_other _ => ok = false
     | Some _, Some _, _ => ok = true /\ nsjail.flags m = flags
     end) /\
  (forall (mpt : mount_t) (newroot tmpdir : string) (s : st W),
     empty (src_content mpt) = false ->
     let '(ok, m, s', tr) := mountPt kernel mpt newroot tmpdir s in
     replays kernel (kst s) tr (kst s') /\
     (if is_symlink mpt
      then flags m = flags mpt /\
           existsb (fun e => is_mount (fst e)) tr = false
      else content_mount mpt newroot tmpdir (wrap64 (df_counter s + 1))
             tr ok m) /\
     (forall c r, In (c, r) tr -> is_mount c = true ->
        c = content_mount_call mpt
              (staging_file tmpdir (wrap64 (df_counter s + 1)))
              (dstpath newroot mpt) /\
        has_bits (Z.land (Z.lor (flags mpt) bind_rec_private)
                    (not64 MS_RDONLY)) bind_rec_private) /\
     (if existsb (fun e => is_mount (fst e)) tr
      then flags m = Z.lor (flags mpt) (Z.lor (Z.lor MS_BIND MS_REC) MS_PRIVATE)
           /\ has_bits (flags m) (Z.lor (Z.lor MS_BIND MS_REC) MS_PRIVATE)
      else flags m = flags mpt)).
Proof.
  split.
  - intros mnt0 src dst fstype options flags is_dir is_mandatory
      src_env dst_env src_content is_symlink s.
    pose proof (addMountPt_exact mnt0 src dst fstype options flags is_dir
                  is_mandatory src_env dst_env src_content is_symlink s) as H.
    destruct (addMountPt kernel mnt0 src dst fstype options flags is_dir
                is_mandatory src_env dst_env src_content is_symlink s)
      as [[[ok m] s1] tr].
    destruct (prefix_in kernel src_env (nsjail.src mnt0) (kst s))
      as [[ps w1] t1].
    destruct (prefix_in kernel dst_env (nsjail.dst mnt0) w1) as [[pd w2] t2].
    destruct ps as [ps|]; [|tauto].
    destruct pd as [pd|]; [|destruct is_dir; tauto].
    destruct is_dir; simpl in H; try tauto.
    + destruct H as (-> & -> & _). auto.
    + destruct H as (-> & -> & _). auto.
    + destruct H as [-> H]. split; [reflexivity|].
      destruct (empty src_content), (empty (ps ^^ src)),
        (Z.land flags MS_BIND =? 0); simpl in H;
        destruct H as [-> _]; reflexivity.
  - intros mpt newroot tmpdir s Hc.
    pose proof (mountPt_spec mpt newroot tmpdir s) as H.
    pose proof (mountPt_content mpt newroot tmpdir s Hc) as Hcm.
    pose proof (mountPt_replayed mpt newroot tmpdir s) as Hre.
    destruct (mountPt kernel mpt newroot tmpdir s) as [[[ok m] s1] tr].
    simpl in Hre.
    assert (Hold :
              if existsb (fun e => is_mount (fst e)) tr
              then flags m = Z.lor (flags mpt) bind_rec_private /\
                   has_bits (flags m) bind_rec_private
              else flags m = flags mpt).
    { destruct (existsb (fun e => is_mount (fst e)) tr) eqn:E.
      + destruct (filter (fun e => is_mount (fst e)) tr) as [|[c r] [|]] eqn:F;
          [ apply existsb_filter_nil in F; congruence | | contradiction ].
        destruct H as (_ & _ & -> & _). rewrite Hc. simpl.
        split; [reflexivity|apply has_bits_lor].
      + apply existsb_filter_nil in E. rewrite E in H.
        destruct H as [-> _]. reflexivity. }
    split; [exact Hre|]. split; [|split; [|exact Hold]].
    + destruct (is_symlink mpt) eqn:Hs; [|exact (Hcm eq_refl)].
      destruct (existsb (fun e => is_mount (fst e)) tr) eqn:E; [|auto].
      destruct (filter (fun e => is_mount (fst e)) tr) as [|[c r] [|]] eqn:F;
        [ apply existsb_filter_nil in F; congruence | | contradiction ].
      destruct H as (H & _). discriminate.
    + intros c r Hin Hm. split; [|apply has_bits_without_rdonly].
      destruct (is_symlink mpt) eqn:Hs.
      * assert (Hf : In (c, r) (filter (fun e => is_mount (fst e)) tr))
          by (apply filter_In; auto).
        destruct (filter (fun e => is_mount (fst e)) tr) as [|[c0 r0] [|]];
          [contradiction| |contradiction].
        destruct H as (H & _). discriminate.
      * specialize (Hcm eq_refl).
        inversion Hcm; subst; clear Hcm;
          repeat match goal with
          | Hp : dst_prepared ?p _ _ |- _ =>
              unfold dst_prepared in Hp;
              destruct (is_dir p);
              [ destruct Hp as (? & ->)
              | destruct Hp as (? & [(_ & ? & ->)|(_ & ->)]) ]
          end;
          unfold content_staged in Hin; simpl in Hin;
          repeat (destruct Hin as [Hin|Hin];
                  [inversion Hin; subst; try discriminate; try reflexivity|]);
          try contradiction.
Qed.

(** ** getDir *)

Lemma mkdirAndTest_tested (dir : string) (s : st W) :
  let '(ok, _, t) := mkdirAndTest kernel dir s in
  tested dir t ok.
Proof.
  unfold mkdirAndTest, bind, sys, pure.
  destruct (kernel (c_mkdir dir 493) (kst s)) as [r1 w1].
  destruct (failed r1 && negb (errno r1 =? EEXIST)) eqn:E1; simpl.
  - apply andb_prop in E1. destruct E1 as [F1 E1].
    apply negb_true_iff, Z.eqb_neq in E1.
    now apply tested_no_directory.
  - destruct (kernel (c_access dir R_OK) w1) as [r2 w2].
    assert (H : tested dir [(c_mkdir dir 493, r1); (c_access dir R_OK, r2)]
                  (negb (failed r2))).
    { apply tested_access.
      destruct (failed r1); [right|left; reflexivity].
      simpl in E1. apply negb_false_iff, Z.eqb_eq in E1. exact E1. }
    destruct (failed r2); exact H.
Qed.

Lemma mkdirAndTest_replayed (dir : string) :
  replayed kernel (mkdirAndTest kernel dir).
Proof. unfold mkdirAndTest. replay_steps. Qed.

Lemma getDir_replayed (nsjconf : nsjconf_t) (name : string) :
  replayed kernel (getDir kernel nsjconf name).
Proof.
  unfold getDir.
  repeat first
    [ apply mkdirAndTest_replayed
    | apply replayed_pure
    | apply replayed_sys
    | apply replayed_bind; [|intros ?]
    | match goal with
      | |- replayed _ (if ?b then _ else _) => destruct b
      | |- replayed _ (match ?x with _ => _ end) => destruct x
      end ].
Qed.

#[local] Arguments mkdirAndTest : simpl never.

Lemma tried_one (dir : string) (t : list event) (ok : bool) :
  tested dir t ok -> tried [dir] t (if ok then Some dir else None).
Proof.
  intros H. destruct ok.
  - now apply tried_accepted.
  - rewrite <- (app_nil_r t). apply tried_rejected; [exact H|constructor].
Qed.

Lemma tried_app_some (l1 l2 : list string) (t : list event) (dir : string) :
  tried l1 t (Some dir) -> tried (l1 ++ l2) t (Some dir).
Proof.
  intros H. remember (Some dir) as res eqn:E.
  induction H as [|d rest t H|d rest t t' res H H' IH]; simpl.
  - discriminate.
  - now apply tried_accepted.
  - apply tried_rejected; auto.
Qed.

Lemma tried_app_none (l1 l2 : list string) (t1 t2 : list event)
  (res : option string) :
  tried l1 t1 None -> tried l2 t2 res -> tried (l1 ++ l2) (t1 ++ t2) res.
Proof.
  intros H1 H2. remember (@None string) as none eqn:E.
  induction H1 as [|d rest t H|d rest t t' res' H H' IH]; simpl.
  - exact H2.
  - discriminate.
  - rewrite <- app_assoc. apply tried_rejected; auto.
Qed.

Lemma tests_app (t1 t2 : list event) : tests (t1 ++ t2) = tests t1 ++ tests t2.
Proof. apply filter_app. Qed.

Lemma tried_tests (l : list string) (t : list event) (res : option string) :
  tried l t res -> tests t = t.
Proof.
  assert (Ht : forall dir t ok, tested dir t ok -> tests t = t)
    by (intros dir t0 ok H; destruct H; reflexivity).
  induction 1 as [|d rest t H|d rest t t' res H H' IH]; simpl.
  - reflexivity.
  - eapply Ht; eassumption.
  - rewrite tests_app, IH. erewrite Ht; [reflexivity|eassumption].
Qed.

(** A chooser that behaves as [chooses] says has tried the candidates
    of section 4.2, for the value of TMPDIR and the random number it
    got, in their order. *)
Lemma chooses_candidates (uid : Z) (label : string) (tr : list event)
  (res : option string) :
  chooses uid label tr res ->
  exists tmpdir random64,
    tried (candidates uid label tmpdir random64) (tests tr) res.
Proof.
  unfold chooses, candidates.
  intros [(dir & -> & H)|(t1 & e & t2 & H1 & [(dir & -> & H2 & ->)|
                                              (rnd & t3 & H2 & H3 & ->)])].
  - exists None, 0. rewrite (tried_tests _ _ _ H).
    now apply tried_app_some.
  - exists (str e), 0.
    rewrite tests_app.
    change (tests ((c_getenv "TMPDIR", e) :: t2)) with (tests t2).
    rewrite (tried_tests _ _ _ H1), (tried_tests _ _ _ H2).
    apply tried_app_none; [exact H1|]. now apply tried_app_some.
  - exists (str e), (ret rnd).
    rewrite tests_app.
    change (tests ((c_getenv "TMPDIR", e) :: t2 ++ (c_rnd64, rnd) :: t3))
      with (tests (t2 ++ (c_rnd64, rnd) :: t3)).
    rewrite tests_app.
    change (tests ((c_rnd64, rnd) :: t3)) with (tests t3).
    rewrite (tried_tests _ _ _ H1), (tried_tests _ _ _ H2),
      (tried_tests _ _ _ H3).
    apply tried_app_none; [exact H1|].
    apply tried_app_none; [exact H2|exact H3].
Qed.

Ltac run_mkdirAndTest T t :=
  match goal with
  | |- context [mkdirAndTest kernel ?d ?s] =>
      let ok := fresh "ok" in
      pose proof (mkdirAndTest_tested d s) as T;
      destruct (mkdirAndTest kernel d s) as [[ok ?] t];
      destruct ok; simpl
  end.

Ltac same_trace :=
  unfold event in *;
  repeat (rewrite <- app_assoc; simpl);
  rewrite ?app_nil_r; reflexivity.

Lemma tried_two_rejected (d1 d2 : string) (t1 t2 : list event) :
  tested d1 t1 false -> tested d2 t2 false -> tried [d1; d2] (t1 ++ t2) None.
Proof.
  intros Ha Hb. apply tried_rejected; [exact Ha|].
  rewrite <- (app_nil_r t2). apply tried_rejected; [exact Hb|constructor].
Qed.

(** getDir behaves as [chooses] says. *)
Lemma getDir_chooses (nsjconf : nsjconf_t) (name : string) (s : st W) :
  let '(res, _, tr) := getDir kernel nsjconf name s in
  chooses (orig_uid nsjconf) name tr res.
Proof.
  unfold getDir, bind, chooses, first_candidates, next_candidates,
    last_candidate.
  rewrite !append_assoc.
  change ("/run/user/" ^^ "/nsjail." ^^ ?x)%string
    with ("/run/user//nsjail." ^^ x)%string.
  run_mkdirAndTest T1 t1.
  { left. eexists. split; [reflexivity|].
    rewrite app_nil_r. now apply tried_accepted. }
  run_mkdirAndTest T2 t2.
  { left. eexists. split; [reflexivity|].
    rewrite app_nil_r. apply tried_rejected; [exact T1|].
    now apply tried_accepted. }
  pose proof (tried_two_rejected _ _ _ _ T1 T2) as H12.
  unfold sys at 1.
  destruct (kernel (c_getenv "TMPDIR") _) as [tmp w_tmp]. simpl.
  destruct (str tmp) as [tmpdir|] eqn:Htmp; simpl.
  - rewrite ?append_assoc.
    change ("/" ^^ "nsjail." ^^ ?x)%string with ("/nsjail." ^^ x)%string.
    run_mkdirAndTest T3 t3.
    { right. exists (t1 ++ t2), tmp, t3. split; [exact H12|].
      left. eexists. split; [reflexivity|]. rewrite Htmp.
      split; [now apply tried_accepted|same_trace]. }
    run_mkdirAndTest T4 t4.
    { right. exists (t1 ++ t2), tmp, (t3 ++ t4). split; [exact H12|].
      left. eexists. split; [reflexivity|]. rewrite Htmp.
      split; [apply tried_rejected; [exact T3|now apply tried_accepted]|].
      same_trace. }
    unfold sys at 1.
    destruct (kernel c_rnd64 _) as [rnd w_rnd]. simpl.
    rewrite ?append_assoc.
    match goal with
    | |- context [mkdirAndTest kernel ?d ?s] =>
        pose proof (mkdirAndTest_tested d s) as T5;
        destruct (mkdirAndTest kernel d s) as [[ok5 ?] t5]
    end.
    apply tried_one in T5.
    destruct ok5; simpl;
      (right; exists (t1 ++ t2), tmp, (t3 ++ t4); split; [exact H12|];
       right; exists rnd, t5; rewrite Htmp;
       split; [now apply tried_two_rejected|];
       split; [exact T5|same_trace]).
  - run_mkdirAndTest T4 t4.
    { right. exists (t1 ++ t2), tmp, t4. split; [exact H12|].
      left. eexists. split; [reflexivity|]. rewrite Htmp.
      split; [now apply tried_accepted|same_trace]. }
    unfold sys at 1.
    destruct (kernel c_rnd64 _) as [rnd w_rnd]. simpl.
    rewrite ?append_assoc.
    match goal with
    | |- context [mkdirAndTest kernel ?d ?s] =>
        pose proof (mkdirAndTest_tested d s) as T5;
        destruct (mkdirAndTest kernel d s) as [[ok5 ?] t5]
    end.
    apply tried_one in T5.
    destruct ok5; simpl;
      (right; exists (t1 ++ t2), tmp, t4; split; [exact H12|];
       right; exists rnd, t5; rewrite Htmp;
       split; [exact (tried_one _ _ _ T4)|];
       split; [exact T5|same_trace]).
Qed.

(** C8: getDir tries /run/user//nsjail.<uid>.<label>, then
    /tmp/nsjail.<uid>.<label>; only when both were rejected it looks
    TMPDIR up and tries $TMPDIR/nsjail.<uid>.<label> when TMPDIR is set,
    then /dev/shm/nsjail.<uid>.<label>; only when these were rejected it
    draws a random number and tries /tmp/nsjail.<uid>.<label>.<random64>.
    Trying a directory is mkdir with mode 0755 followed, unless mkdir
    failed otherwise than with EEXIST, by access for reading; the
    directory is accepted when access succeeded.  getDir stops at the
    first directory accepted and returns it; it returns null only after
    all the candidates were tried and rejected.  The replies are the
    kernel's, so the kernel and the arguments determine the run. *)
Theorem C8_getDir_candidates (nsjconf : nsjconf_t) (name : string) (s : st W) :
  let '(res, s', tr) := getDir kernel nsjconf name s in
  chooses (orig_uid nsjconf) name tr res /\
  replays kernel (kst s) tr (kst s') /\
  exists tmpdir random64,
    tried (candidates (orig_uid nsjconf) name tmpdir random64) (tests tr) res.
Proof.
  pose proof (getDir_chooses nsjconf name s) as H.
  pose proof (getDir_replayed nsjconf name s) as Hr.
  destruct (getDir kernel nsjconf name s) as [[res s'] tr]. simpl in Hr.
  split; [exact H|]. split; [exact Hr|].
  now apply chooses_candidates.
Qed.

(** ** The read-only re-mount *)

Lemma remount_step (acc f_flag st ms : Z) :
  (if negb (Z.land f_flag st =? 0) then Z.lor acc ms else acc) =
  Z.lor acc (preserved f_flag st ms).
Proof.
  unfold preserved. destruct (Z.land f_flag st =? 0); simpl.
  - now rewrite Z.lor_0_r.
  - reflexivity.
Qed.

Lemma remount_flags_spec (f_flag : Z) :
  remount_flags f_flag =
  Z.lor (Z.lor (Z.lor (Z.lor (Z.lor (Z.lor (Z.lor (Z.lor
    (Z.lor (Z.lor MS_REMOUNT MS_RDONLY) MS_BIND)
    (preserved f_flag ST_NOSUID MS_NOSUID))
    (preserved f_flag ST_NODEV MS_NODEV))
    (preserved f_flag ST_NOEXEC MS_NOEXEC))
    (preserved f_flag ST_SYNCHRONOUS MS_SYNCHRONOUS))
    (preserved f_flag ST_MANDLOCK MS_MANDLOCK))
    (preserved f_flag ST_NOATIME MS_NOATIME))
    (preserved f_flag ST_NODIRATIME MS_NODIRATIME))
    (preserved f_flag ST_RELATIME MS_RELATIME).
Proof.
  unfold remount_flags, mountPairs.
  cbn [fold_left fst snd].
  rewrite !remount_step.
  assert (H : Z.lor (Z.lor (Z.lor MS_REMOUNT MS_RDONLY) MS_BIND)
                (preserved f_flag ST_RDONLY MS_RDONLY)
              = Z.lor (Z.lor MS_REMOUNT MS_RDONLY) MS_BIND).
  { unfold preserved. destruct (Z.land f_flag ST_RDONLY =? 0); reflexivity. }
  rewrite H. reflexivity.
Qed.

Lemma remountRO_spec (mpt : mount_t) (s : st W) :
  let '(r, _, tr) := remountRO kernel mpt s in
  if wants_remount mpt then
    (exists vfs,
       tr = [(c_statvfs (dst mpt), vfs)] /\ failed vfs = true /\ r = false) \/
    (exists vfs m,
       tr = [(c_statvfs (dst mpt), vfs);
             (c_mount (Some (dst mpt)) (dst mpt) None
                (remount_flags (out vfs)) None, m)] /\
       failed vfs = false /\ r = negb (failed m))
  else tr = [] /\ r = true.
Proof.
  unfold remountRO, wants_remount, bind, sys, pure.
  destruct (mounted mpt); simpl; [|auto].
  destruct (is_symlink mpt); simpl; [auto|].
  destruct (Z.land (flags mpt) MS_RDONLY =? 0); simpl; [auto|].
  destruct (kernel (c_statvfs (dst mpt)) (kst s)) as [vfs w1].
  destruct (failed vfs) eqn:Fv; simpl.
  - left. exists vfs. auto.
  - destruct (kernel _ w1) as [m w2]. simpl.
    destruct (failed m) eqn:Fm; simpl; right; exists vfs, m;
      rewrite Fm; auto.
Qed.

Lemma land_clears_rdonly (x : Z) :
  Z.land (Z.land x (not64 MS_RDONLY)) MS_RDONLY = 0.
Proof.
  rewrite <- Z.land_assoc.
  change (Z.land (not64 MS_RDONLY) MS_RDONLY) with 0.
  apply Z.land_0_r.
Qed.

Lemma mount_targets_app (t1 t2 : list event) :
  mount_targets (t1 ++ t2) = mount_targets t1 ++ mount_targets t2.
Proof. unfold mount_targets. apply flat_map_app. Qed.

Lemma remountRO_targets (mpt : mount_t) (s : st W) :
  let '(r, _, tr) := remountRO kernel mpt s in
  (forallb (fun e => negb (failed (snd e))) tr = true ->
   r = true /\
   mount_targets tr = if wants_remount mpt then [dst mpt] else []) /\
  (forall t, In t (mount_targets tr) ->
             wants_remount mpt = true /\ dst mpt = t).
Proof.
  pose proof (remountRO_spec mpt s) as H.
  destruct (remountRO kernel mpt s) as [[r s1] tr].
  destruct (wants_remount mpt).
  - destruct H as [(vfs & -> & Fv & ->)|(vfs & m & -> & Fv & ->)]; simpl.
    + rewrite Fv. simpl. split; [discriminate|contradiction].
    + rewrite Fv. simpl. rewrite andb_true_r. split.
      * intros ->. auto.
      * intros t [<-|[]]. auto.
  - destruct H as [-> ->]. simpl. split; [auto|contradiction].
Qed.

(** The re-mount pass over the whole sequence: every mount call of the
    pass targets the destination of a descriptor that wants the re-mount;
    when no call of the pass failed, the pass returns true and the
    targets are those of all such descriptors, in order. *)
Lemma remountRO_loop_targets (l : list mount_t) (s : st W) :
  let '(r, _, tr) := remountRO_loop kernel l s in
  (forallb (fun e => negb (failed (snd e))) tr = true ->
   r = true /\
   mount_targets tr = map dst (filter wants_remount l)) /\
  (forall t, In t (mount_targets tr) ->
             exists p, In p l /\ wants_remount p = true /\ dst p = t).
Proof.
  revert s. induction l as [|p l IH]; intros s; simpl.
  - split; [auto|contradiction].
  - unfold bind.
    pose proof (remountRO_targets p s) as Hp.
    destruct (remountRO kernel p s) as [[ok s1] t1].
    destruct Hp as [Hok Hin].
    destruct (negb ok && is_mandatory p) eqn:Estop; simpl.
    + rewrite app_nil_r. split.
      * intros Hall. destruct (Hok Hall) as [-> _]. discriminate.
      * intros t Ht. destruct (Hin t Ht) as [Hw Hd]. exists p. auto.
    + specialize (IH s1).
      destruct (remountRO_loop kernel l s1) as [[r s2] t2].
      destruct IH as [IHok IHin]. split.
      * rewrite forallb_app. intros Hall.
        apply andb_prop in Hall. destruct Hall as [H1 H2].
        destruct (Hok H1) as [_ Ht1]. destruct (IHok H2) as [-> Ht2].
        split; [reflexivity|].
        rewrite mount_targets_app, Ht1, Ht2.
        destruct (wants_remount p); reflexivity.
      * intros t Ht. rewrite mount_targets_app in Ht.
        apply in_app_or in Ht. destruct Ht as [Ht|Ht].
        -- destruct (Hin t Ht) as [Hw Hd]. exists p. auto.
        -- destruct (IHin t Ht) as (q & Hq & Hw & Hd). exists q. auto.
Qed.

Lemma remountRO_replayed (mpt : mount_t) : replayed kernel (remountRO kernel mpt).
Proof. unfold remountRO. replay_steps. Qed.

Lemma remountRO_loop_replayed (l : list mount_t) :
  replayed kernel (remountRO_loop kernel l).
Proof.
  induction l as [|p l IH]; simpl; [apply replayed_pure|].
  apply replayed_bind; [apply remountRO_replayed|].
  intros ok. destruct (negb ok && is_mandatory p); [apply replayed_pure|exact IH].
Qed.

(** The re-mount pass behaves as [remount_pass] says. *)
Lemma remountRO_loop_pass (l : list mount_t) (s : st W) :
  let '(r, _, tr) := remountRO_loop kernel l s in
  remount_pass l tr r.
Proof.
  revert s. induction l as [|p l IH]; intros s; simpl.
  - constructor.
  - unfold bind.
    pose proof (remountRO_spec p s) as Hp.
    destruct (remountRO kernel p s) as [[ok s1] t1].
    destruct (negb ok && is_mandatory p) eqn:Estop; simpl.
    + apply andb_prop in Estop. destruct Estop as [Hok Hman].
      apply negb_true_iff in Hok. subst ok.
      rewrite app_nil_r. now apply pass_stop.
    + specialize (IH s1).
      destruct (remountRO_loop kernel l s1) as [[r s2] t2].
      apply pass_on with (ok := ok); [exact Hp| |exact IH].
      destruct ok; [now left|right]. exact Estop.
Qed.

(** C6, as the code has it: every mount call mountPt issues carries the
    descriptor's flags (with bind, recursive and private added for a
    content descriptor) with read-only cleared.  remountRO issues nothing
    unless the descriptor is mounted, not a symlink and read-only in its
    flags; then it probes the destination with statvfs and, only when the
    probe succeeded, calls mount on the destination with remount,
    read-only and bind plus each of nosuid, nodev, noexec, synchronous,
    mandlock, noatime, nodiratime and relatime the probe reports; a failed
    probe makes it return false without a mount call.  For a descriptor
    that is not a symlink mountPt does issue its mount call, once the
    parents of the destination exist and, for a content descriptor, the
    content is staged.  The re-mount pass
    takes the descriptors in order, each as remountRO does; it stops with
    false at the first mandatory descriptor for which remountRO returned
    false, issuing nothing for the descriptors behind it, goes on after
    any other descriptor and returns true at the end; the replies are the
    kernel's.  So the pass targets only descriptors that want the
    re-mount, and all of them in order when no call of the pass failed. *)
Theorem C6_rw_mount_then_ro_remount :
  (forall (mpt : mount_t) (newroot tmpdir : string) (s : st W),
     let '(_, m, _, tr) := mountPt kernel mpt newroot tmpdir s in
     forall c r, In (c, r) tr -> is_mount c = true ->
     exists srcpath,
       c = c_mount (Some srcpath)
             (snprintf PATH_MAX (newroot ^^ "/" ^^ dst mpt))
             (Some (fs_type mpt))
             (Z.land (flags m) (not64 MS_RDONLY))
             (Some (options mpt)) /\
       Z.land (Z.land (flags m) (not64 MS_RDONLY)) MS_RDONLY = 0) /\
  (forall (mpt : mount_t) (s : st W),
     let '(r, _, tr) := remountRO kernel mpt s in
     if mounted mpt && negb (is_symlink mpt)
        && negb (Z.land (flags mpt) MS_RDONLY =? 0)
     then
       (exists vfs,
          tr = [(c_statvfs (dst mpt), vfs)] /\
          failed vfs = true /\ r = false) \/
       (exists vfs m,
          tr = [(c_statvfs (dst mpt), vfs);
                (c_mount (Some (dst mpt)) (dst mpt) None
                   (remount_flags (out vfs)) None, m)] /\
          failed vfs = false /\ r = negb (failed m))
     else tr = [] /\ r = true) /\
  (forall f_flag : Z,
     remount_flags f_flag =
     Z.lor (Z.lor (Z.lor (Z.lor (Z.lor (Z.lor (Z.lor (Z.lor
       (Z.lor (Z.lor MS_REMOUNT MS_RDONLY) MS_BIND)
       (preserved f_flag ST_NOSUID MS_NOSUID))
       (preserved f_flag ST_NODEV MS_NODEV))
       (preserved f_flag ST_NOEXEC MS_NOEXEC))
       (preserved f_flag ST_SYNCHRONOUS MS_SYNCHRONOUS))
       (preserved f_flag ST_MANDLOCK MS_MANDLOCK))
       (preserved f_flag ST_NOATIME MS_NOATIME))
       (preserved f_flag ST_NODIRATIME MS_NODIRATIME))
       (preserved f_flag ST_RELATIME MS_RELATIME)) /\
  (forall (l : list mount_t) (s : st W),
     let '(r, s', tr) := remountRO_loop kernel l s in
     remount_pass l tr r /\
     replays kernel (kst s) tr (kst s') /\
     (forallb (fun e => negb (failed (snd e))) tr = true ->
      r = true /\
      mount_targets tr = map dst (filter wants_remount l)) /\
     (forall t, In t (mount_targets tr) ->
                exists p, In p l /\ wants_remount p = true /\ dst p = t)) /\
  (forall (mpt : mount_t) (newroot tmpdir : string) (s : st W),
     is_symlink mpt = false ->
     let '(ok, m, s', tr) := mountPt kernel mpt newroot tmpdir s in
     replays kernel (kst s) tr (kst s') /\
     if empty (src_content mpt)
     then plain_mount mpt newroot tr ok m
     else content_mount mpt newroot tmpdir (wrap64 (df_counter s + 1))
            tr ok m).
Proof.
  repeat apply conj.
  5:{ intros mpt newroot tmpdir s Hs.
      pose proof (mountPt_plain mpt newroot tmpdir s) as Hp.
      pose proof (mountPt_content mpt newroot tmpdir s) as Hc.
      pose proof (mountPt_replayed mpt newroot tmpdir s) as Hr.
      destruct (mountPt kernel mpt newroot tmpdir s) as [[[ok m] s1] tr].
      simpl in Hr. split; [exact Hr|].
      destruct (empty (src_content mpt)); auto. }
  - intros mpt newroot tmpdir s.
    pose proof (mountPt_spec mpt newroot tmpdir s) as H.
    destruct (mountPt kernel mpt newroot tmpdir s) as [[[ok m] s1] tr].
    intros c r Hin Hc.
    assert (Hf : In (c, r) (filter (fun e => is_mount (fst e)) tr))
      by (apply filter_In; auto).
    destruct (filter (fun e => is_mount (fst e)) tr) as [|[c0 r0] [|]];
      [contradiction| |contradiction].
    destruct Hf as [Hf|[]]. inversion Hf; subst c0 r0.
    destruct H as (_ & (srcpath & ->) & _ & _).
    exists srcpath. split; [reflexivity|apply land_clears_rdonly].
  - intros mpt s. exact (remountRO_spec mpt s).
  - exact remount_flags_spec.
  - intros l s.
    pose proof (remountRO_loop_pass l s) as Hp.
    pose proof (remountRO_loop_replayed l s) as Hr.
    pose proof (remountRO_loop_targets l s) as Ht.
    destruct (remountRO_loop kernel l s) as [[r s'] tr]. simpl in Hr.
    tauto.
Qed.

(** ** The mount pass *)

#[local] Arguments getDir : simpl never.
#[local] Arguments mountPt : simpl never.
#[local] Arguments mountPts_loop : simpl nomatch.
#[local] Arguments remountRO_loop : simpl never.

Lemma mounted_by_app_l (t1 t2 : list event) (newroot : string) (p : mount_t) :
  mounted_by t1 newroot p -> mounted_by (t1 ++ t2) newroot p.
Proof.
  intros (sp & r & Hin & Hr). exists sp, r. split; [|exact Hr].
  apply in_or_app. now left.
Qed.

Lemma mounted_by_app_r (t1 t2 : list event) (newroot : string) (p : mount_t) :
  mounted_by t2 newroot p -> mounted_by (t1 ++ t2) newroot p.
Proof.
  intros (sp & r & Hin & Hr). exists sp, r. split; [|exact Hr].
  apply in_or_app. now right.
Qed.

(** What mountPt does to [mounted]. *)
Lemma mountPt_mounted (mpt : mount_t) (newroot tmpdir : string) (s : st W) :
  let '(ok, m, _, tr) := mountPt kernel mpt newroot tmpdir s in
  is_mandatory m = is_mandatory mpt /\ is_symlink m = is_symlink mpt /\
  (mounted m = true -> mounted mpt = true \/ mounted_by tr newroot m) /\
  (ok = false -> mounted m = mounted mpt) /\
  (ok = true -> is_symlink m = false -> mounted m = true).
Proof.
  pose proof (mountPt_spec mpt newroot tmpdir s) as H.
  destruct (mountPt kernel mpt newroot tmpdir s) as [[[ok m] s1] tr].
  destruct (filter (fun e => is_mount (fst e)) tr) as [|[c r] [|]] eqn:F;
    [ | | contradiction ].
  - destruct H as [-> Hsym]. repeat split; auto.
    intros Hok Hs. rewrite (Hsym Hok) in Hs. discriminate.
  - destruct H as (Hsym & (sp & Hc) & Hm & Hok).
    assert (Hin : In (c, r) tr).
    { assert (Hf : In (c, r) (filter (fun e => is_mount (fst e)) tr))
        by (rewrite F; now left).
      apply filter_In in Hf. tauto. }
    subst m ok. simpl. repeat split.
    + destruct (failed r) eqn:Fr; [now left|].
      intros _. right. exists sp, r. split; [|exact Fr].
      simpl. simpl in Hc. rewrite <- Hc. exact Hin.
    + destruct (failed r); [reflexivity|discriminate].
    + destruct (failed r); [discriminate|reflexivity].
Qed.

Lemma mountPts_loop_spec (l : list mount_t) (newroot tmpdir : string)
  (s : st W) :
  let '(ok, l', _, tr) := mountPts_loop kernel l newroot tmpdir s in
  Forall2 (fun p p' => mounted p' = true ->
                       mounted p = true \/ mounted_by tr newroot p') l l' /\
  (ok = true -> mandatory_mounted l').
Proof.
  revert s. induction l as [|p l IH]; intros s; simpl.
  - split; [constructor|]. intros _. constructor.
  - unfold bind.
    pose proof (mountPt_mounted p newroot tmpdir s) as Hp.
    destruct (mountPt kernel p newroot tmpdir s) as [[[ok p'] s1] t1].
    destruct Hp as (Hman & Hsym & Hset & Hfail & Hok).
    destruct (negb ok && is_mandatory p') eqn:Estop; simpl.
    + rewrite app_nil_r. split; [|discriminate].
      constructor; [exact Hset|].
      clear. induction l; constructor; auto.
    + specialize (IH s1).
      destruct (mountPts_loop kernel l newroot tmpdir s1)
        as [[[r l'] s2] t2].
      destruct IH as [IHrel IHok]. simpl. rewrite app_nil_r. split.
      * constructor.
        -- intros Hm. destruct (Hset Hm) as [?|Hby]; [now left|].
           right. now apply mounted_by_app_l.
        -- eapply Forall2_impl; [|exact IHrel].
           intros a b Hab Hm. destruct (Hab Hm) as [?|Hby]; [now left|].
           right. now apply mounted_by_app_r.
      * intros ->. constructor; [|now apply IHok].
        intros Hm Hs. apply Hok; [|exact Hs].
        destruct ok; [reflexivity|]. simpl in Estop.
        rewrite Hm in Estop. discriminate.
Qed.

Ltac next_call :=
  match goal with
  | |- context [kernel ?c ?w] =>
      let r := fresh "r" in
      let w' := fresh "w" in
      destruct (kernel c w) as [r w']; simpl;
      destruct (failed r); simpl
  end.

(** initNsInternal with a mount namespace: either it returns false before
    the mount pass, the configuration untouched, or the pass runs once
    over the configured sequence; a pass that returns false ends
    initNsInternal there, with false and no further call. *)
Lemma initNsInternal_pass (nsjconf : nsjconf_t) (s : st W) :
  clone_newns nsjconf = true ->
  let '(r, conf', s', tr) := initNsInternal kernel nsjconf s in
  (conf' = nsjconf /\ r = false) \/
  (exists pre destdir tmpdir s0,
     let '(ok, pts, s1, t) :=
       mountPts_loop kernel (mountpts nsjconf) destdir tmpdir s0 in
     conf' = set_mountpts nsjconf pts /\
     is_prefix (pre ++ t) tr /\
     (ok = false -> r = false /\ tr = pre ++ t /\ s' = s1) /\
     (r = true -> ok = true)).
Proof.
  intros Hns. unfold initNsInternal. rewrite Hns. simpl.
  unfold bind, sys, pure.
  next_call; [left; auto|].
  destruct (getDir kernel nsjconf "root" _) as [[[destdir|] s1] t1]; simpl;
    [|left; auto].
  next_call; [left; auto|].
  next_call; [left; auto|].
  destruct (getDir kernel nsjconf "tmp" _) as [[[tmpdir|] s2] t2]; simpl;
    [|left; auto].
  next_call; [left; auto|].
  destruct (mountPts_loop kernel (mountpts nsjconf) destdir tmpdir _)
    as [[[ok pts] s3] t3] eqn:E.
  pose (pre :=
          (c_chdir "/", r) :: t1 ++
          (c_mount (Some "/"%string) "/" None (Z.lor MS_REC MS_PRIVATE) None,
           r0) ::
          (c_mount None destdir (Some "tmpfs"%string) 0
             (Some "size=16777216"%string), r1) :: t2 ++
          [(c_mount None tmpdir (Some "tmpfs"%string) 0
              (Some "size=16777216"%string), r2)]).
  assert (Hpre : forall (rest : list event),
            pre ++ t3 ++ rest
            = (c_chdir "/", r) :: t1 ++
              (c_mount (Some "/"%string) "/" None (Z.lor MS_REC MS_PRIVATE)
                 None, r0) ::
              (c_mount None destdir (Some "tmpfs"%string) 0
                 (Some "size=16777216"%string), r1) :: t2 ++
              (c_mount None tmpdir (Some "tmpfs"%string) 0
                 (Some "size=16777216"%string), r2) :: t3 ++ rest).
  { intros rest. unfold pre. simpl. rewrite <- !app_assoc. simpl.
    rewrite <- !app_assoc. reflexivity. }
  assert (Hgoal : forall rc s' tr,
            (exists rest, tr = pre ++ t3 ++ rest /\
                          (ok = false -> rc = false /\ rest = [] /\ s' = s3) /\
                          (rc = true -> ok = true)) ->
            (set_mountpts nsjconf pts = nsjconf /\ rc = false) \/
            (exists pre destdir tmpdir s0,
               let '(ok, pts', s1, t) :=
                 mountPts_loop kernel (mountpts nsjconf) destdir tmpdir s0 in
               set_mountpts nsjconf pts = set_mountpts nsjconf pts' /\
               is_prefix (pre ++ t) tr /\
               (ok = false -> rc = false /\ tr = pre ++ t /\ s' = s1) /\
               (rc = true -> ok = true))).
  { intros rc s' tr (rest & -> & Hf & Ht). right.
    exists pre, destdir, tmpdir, (mk_st w2 (df_counter s2)). rewrite E.
    repeat split; auto.
    - exists rest. now rewrite app_assoc.
    - now apply Hf.
    - destruct (Hf H) as (_ & -> & _). now rewrite app_nil_r.
    - now apply Hf. }
  simpl. destruct ok; simpl.
  2: { apply Hgoal. exists []. split; [symmetry; apply Hpre|auto]. }
  repeat (next_call;
          [ apply Hgoal; eexists; rewrite Hpre;
            split; [reflexivity|split; [discriminate|auto]] | ]).
  destruct (remountRO_loop kernel pts _) as [[ok2 s4] t4]. simpl.
  destruct ok2; simpl; apply Hgoal; eexists; rewrite Hpre;
    (split; [reflexivity|split; [discriminate|auto]]).
Qed.

Lemma Forall2_same {A} (R : A -> A -> Prop) (l : list A) :
  (forall a, R a a) -> Forall2 R l l.
Proof. intros H. induction l; constructor; auto. Qed.


(** ** initNs in standalone-exec mode *)

#[local] Arguments initNsInternal : simpl never.

(** Once the kernel reaps the child, enough fuel makes the wait loop
    return its status; the loop issues wait4 calls only. *)
Lemma wait_loop_reaps (pid : Z) (w : W) (status : Z) (n : Z) :
  reaps kernel pid w status ->
  exists fuel0, forall fuel, (fuel0 <= fuel)%nat ->
    exists s' t,
      wait_loop kernel fuel pid (mk_st w n) = (Some status, s', t) /\
      forallb (fun e => is_wait4 (fst e)) t = true.
Proof.
  induction 1 as [w r w' K Hr | w r w' status K Hr _ IH].
  - exists 1%nat. intros fuel Hf.
    destruct fuel as [|fuel]; [lia|]. simpl.
    unfold bind, sys, pure. simpl. rewrite K.
    apply Z.eqb_eq in Hr. rewrite Hr. simpl. eauto.
  - destruct IH as [fuel0 IH]. exists (S fuel0). intros fuel Hf.
    destruct fuel as [|fuel]; [lia|]. simpl.
    unfold bind, sys, pure. simpl. rewrite K.
    apply Z.eqb_neq in Hr. rewrite Hr.
    destruct (IH fuel ltac:(lia)) as (s' & t & -> & Ht).
    simpl. eexists _, _. split; [reflexivity|]. simpl. exact Ht.
Qed.

(** C2: in standalone-exec mode initNs clones.  When the clone failed it
    returns false.  In the sub-child it runs the whole of initNsInternal
    and exits, with code 0 when that returned true and 0xff otherwise.
    In the parent it issues wait4 calls only and, once the kernel reaps
    the child, returns true exactly when the status reported is a normal
    exit with code 0.  The two exit codes differ, and the parent's test
    applied to the status of a child exiting with them gives back what
    initNsInternal returned in the child. *)
Theorem C2_standalone_exec (nsjconf : nsjconf_t) (s : st W) :
  mode nsjconf = MODE_STANDALONE_EXECVE ->
  let '(pid, w1) := kernel (c_cloneProc (Z.lor CLONE_FS SIGCHLD)) (kst s) in
  let s1 := mk_st w1 (df_counter s) in
  let cloned := (c_cloneProc (Z.lor CLONE_FS SIGCHLD), pid) in
  (ret pid = -1 ->
   forall fuel,
     initNs kernel fuel nsjconf s
     = (Some (Returned false, nsjconf), s1, [cloned])) /\
  (ret pid = 0 ->
   forall fuel,
     let '(r, conf', s2, t) := initNsInternal kernel nsjconf s1 in
     initNs kernel fuel nsjconf s
     = (Some (Exited (if r then 0 else 255), conf'), s2, cloned :: t)) /\
  (ret pid <> -1 -> ret pid <> 0 ->
   forall status, reaps kernel (ret pid) w1 status ->
   exists fuel0, forall fuel, (fuel0 <= fuel)%nat ->
     exists s2 t,
       initNs kernel fuel nsjconf s
       = (Some (Returned (WIFEXITED status && (WEXITSTATUS status =? 0)),
                nsjconf), s2, cloned :: t) /\
       forallb (fun e => is_wait4 (fst e)) t = true) /\
  (0 <> 255 /\
   forall r : bool,
     WIFEXITED (W_EXITCODE (if r then 0 else 255) 0)
     && (WEXITSTATUS (W_EXITCODE (if r then 0 else 255) 0) =? 0) = r).
Proof.
  intros Hmode. unfold initNs. rewrite Hmode. simpl.
  unfold bind, sys, pure.
  destruct (kernel (c_cloneProc (Z.lor CLONE_FS SIGCHLD)) (kst s))
    as [pid w1].
  split; [|split; [|split]].
  - intros Hp fuel. rewrite Hp. reflexivity.
  - intros Hp fuel. rewrite Hp. simpl.
    destruct (initNsInternal kernel nsjconf _) as [[[r conf'] s2] t].
    simpl. rewrite app_nil_r. reflexivity.
  - intros Hp1 Hp0 status Hreap.
    apply Z.eqb_neq in Hp1, Hp0. rewrite Hp1, Hp0.
    destruct (wait_loop_reaps (ret pid) w1 status (df_counter s) Hreap)
      as [fuel0 Hfuel].
    exists fuel0. intros fuel Hf.
    destruct (Hfuel fuel Hf) as (s2 & t & -> & Ht).
    exists s2, t. split; [|exact Ht].
    destruct (WIFEXITED status && (WEXITSTATUS status =? 0));
      simpl; rewrite app_nil_r; reflexivity.
  - split; [discriminate|]. intros [|]; reflexivity.
Qed.

End mnt_facts.


(** A descriptor with content, finalized with flags 0 and appended: its
    flags are still 0 in the sequence. *)
Lemma C3_flags_after_finalization_counterexample :
  let run :=
    mnt.addMountPtTail scenario.all_ok scenario.a_conf
      "" "/etc/hostname" "" "" 0 NS_DIR_MAYBE true "" "" "jail" false
      scenario.start in
  fst (fst (fst run)) = true /\
  exists m,
    In m (mountpts (snd (fst (fst run)))) /\
    empty (src_content m) = false /\
    flags m = 0 /\
    ~ has_bits (flags m) (Z.lor (Z.lor MS_BIND MS_REC) MS_PRIVATE).
Proof.
  intro run.
  destruct run as [[[ok conf'] s'] tr] eqn:E.
  vm_compute in E. inversion E; subst. split; [reflexivity|].
  eexists. split; [left; reflexivity|]. split; [reflexivity|].
  split; [reflexivity|].
  unfold has_bits. simpl. discriminate.
Qed.

(** A mandatory content descriptor with read-only in its flags, every
    call going through: the staging file is bound with the three bits
    and without read-only, and the descriptor ends with the three bits. *)
Lemma C3_content_flags_witness :
  let mpt := mk_mount "" "jail" "/etc/hostname" "" "" 1 false false true false in
  let run := mnt.mountPt scenario.all_ok mpt "/new" "/stage" scenario.start in
  empty (src_content mpt) = false /\
  In (c_mount (Some "/stage/dynamic_file.1"%string) "/new//etc/hostname"
        (Some ""%string)
        (Z.lor (Z.lor MS_BIND MS_REC) MS_PRIVATE) (Some ""%string),
      mk_reply 0 0 0 None) (snd run) /\
  has_bits (flags (snd (fst (fst run))))
    (Z.lor (Z.lor MS_BIND MS_REC) MS_PRIVATE).
Proof.
  intros mpt run. split; [reflexivity|].
  pose proof (proj2 (C3_content_flags_set_in_mount_pass scenario.all_ok)
                mpt "/new" "/stage" scenario.start eq_refl)%string as H.
  fold run in H.
  destruct run as [[[ok m] s1] tr] eqn:E.
  destruct H as (_ & _ & _ & H).
  assert (Hx : tr = snd run) by (rewrite E; reflexivity).
  assert (Hin : In (c_mount (Some "/stage/dynamic_file.1"%string)
                      "/new//etc/hostname" (Some ""%string)
                      (Z.lor (Z.lor MS_BIND MS_REC) MS_PRIVATE)
                      (Some ""%string),
                    mk_reply 0 0 0 None) tr).
  { rewrite Hx. vm_compute. do 6 right. left. reflexivity. }
  split; [exact Hin|].
  assert (He : existsb (fun e => is_mount (fst e)) tr = true).
  { apply existsb_exists. eexists. split; [exact Hin|reflexivity]. }
  simpl. rewrite He in H. exact (proj2 H).
Defined.

(** A mounted read-only descriptor whose statvfs probe fails: remountRO
    returns false and issues no mount call. *)
Lemma C6_failed_probe_counterexample :
  let mpt :=
    mk_mount "/bin" "" "/bin" "" "" (Z.lor MS_BIND MS_RDONLY)
      true false false true in
  let run := mnt.remountRO (scenario.failing is_statvfs 5) mpt scenario.start in
  mnt.wants_remount mpt = true /\
  fst (fst run) = false /\
  mnt.mount_targets (snd run) = [] /\
  ~ mnt.remounts_exactly_read_only (scenario.failing is_statvfs 5) mpt
      scenario.start.
Proof.
  intros mpt run. unfold mnt.remounts_exactly_read_only.
  assert (E : run = (false, scenario.start,
                     [(c_statvfs "/bin", mk_reply (-1) 5 0 None)])).
  { vm_compute. reflexivity. }
  subst run. rewrite E. simpl.
  repeat split; try reflexivity.
  intros [H _]. specialize (H eq_refl). discriminate.
Qed.

Example remount_keeps_probe_flags :
  mnt.remount_flags (Z.lor ST_NOSUID ST_RELATIME)
  = Z.lor (Z.lor (Z.lor (Z.lor MS_REMOUNT MS_RDONLY) MS_BIND) MS_NOSUID)
      MS_RELATIME.
Proof. reflexivity. Qed.

(** The parent of a child that exits normally with code 0. *)
Lemma C2_standalone_exec_witness :
  let conf :=
    mk_nsjconf MODE_STANDALONE_EXECVE true "" "/" 1000 []
      "" "" 0 "" "" 0 "" "" 0 "" "" 0 in
  mode conf = MODE_STANDALONE_EXECVE /\
  exists fuel0, forall fuel, (fuel0 <= fuel)%nat ->
    fst (fst (mnt.initNs scenario.all_ok fuel conf scenario.start))
    = Some (mnt.Returned true, conf).
Proof.
  intro conf. split; [reflexivity|].
  pose proof (C2_standalone_exec scenario.all_ok conf scenario.start eq_refl)
    as H.
  simpl in H. destruct H as (_ & _ & H & _).
  assert (Hreap : mnt.reaps scenario.all_ok 4242 tt (W_EXITCODE 0 0)).
  { apply (mnt.reaps_now scenario.all_ok 4242 tt
             (mk_reply 4242 0 (W_EXITCODE 0 0) None) tt); reflexivity. }
  destruct (H ltac:(discriminate) ltac:(discriminate) (W_EXITCODE 0 0) Hreap)
    as [fuel0 Hfuel].
  exists fuel0. intros fuel Hf.
  destruct (Hfuel fuel Hf) as (s2 & t & -> & _). reflexivity.
Defined.

(** The tag no, the tag maybe on a bind of a regular file, the tag
    maybe on content, and a tag outside the enumeration. *)
Lemma C5_is_dir_resolution_witness :
  let no :=
    fst (fst (mnt.addMountPt scenario.all_ok mnt.fresh_mount_t
                "/etc/passwd" "/etc/passwd" "" "" MS_BIND NS_DIR_NO true
                "" "" "" false scenario.start)) in
  let file :=
    fst (fst (mnt.addMountPt (scenario.with_stat scenario.S_IFREG)
                mnt.fresh_mount_t
                "/etc/passwd" "/etc/passwd" "" "" MS_BIND NS_DIR_MAYBE true
                "" "" "" false scenario.start)) in
  let content :=
    fst (fst (mnt.addMountPt scenario.all_ok mnt.fresh_mount_t
                "" "/etc/passwd" "" "" 0 NS_DIR_MAYBE true
                "" "" "root:x:0:0" false scenario.start)) in
  let other :=
    fst (fst (mnt.addMountPt scenario.all_ok mnt.fresh_mount_t
                "" "/etc/passwd" "" "" 0 (NS_DIR_other 7) true
                "" "" "" false scenario.start)) in
  (fst no = true /\ is_dir (snd no) = false) /\
  (fst file = true /\ is_dir (snd file) = false) /\
  (fst content = true /\ is_dir (snd content) = false) /\
  fst other = false.
Proof.
  intros no file content other.
  pose proof (C5_is_dir_resolution scenario.all_ok mnt.fresh_mount_t
                "/etc/passwd" "/etc/passwd" "" "" MS_BIND NS_DIR_NO true
                "" "" "" false scenario.start) as H1.
  pose proof (C5_is_dir_resolution (scenario.with_stat scenario.S_IFREG)
                mnt.fresh_mount_t
                "/etc/passwd" "/etc/passwd" "" "" MS_BIND NS_DIR_MAYBE true
                "" "" "" false scenario.start) as H2.
  pose proof (C5_is_dir_resolution scenario.all_ok mnt.fresh_mount_t
                "" "/etc/passwd" "" "" 0 NS_DIR_MAYBE true
                "" "" "root:x:0:0" false scenario.start) as H3.
  pose proof (C5_is_dir_resolution scenario.all_ok mnt.fresh_mount_t
                "" "/etc/passwd" "" "" 0 (NS_DIR_other 7) true
                "" "" "" false scenario.start) as H4.
  unfold no, file, content, other.
  destruct (mnt.addMountPt scenario.all_ok mnt.fresh_mount_t
              "/etc/passwd" "/etc/passwd" "" "" MS_BIND NS_DIR_NO true
              "" "" "" false scenario.start) as [[[ok1 m1] s1] tr1].
  destruct (mnt.addMountPt (scenario.with_stat scenario.S_IFREG)
              mnt.fresh_mount_t
              "/etc/passwd" "/etc/passwd" "" "" MS_BIND NS_DIR_MAYBE true
              "" "" "" false scenario.start) as [[[ok2 m2] s2] tr2].
  destruct (mnt.addMountPt scenario.all_ok mnt.fresh_mount_t
              "" "/etc/passwd" "" "" 0 NS_DIR_MAYBE true
              "" "" "root:x:0:0" false scenario.start) as [[[ok3 m3] s3] tr3].
  destruct (mnt.addMountPt scenario.all_ok mnt.fresh_mount_t
              "" "/etc/passwd" "" "" 0 (NS_DIR_other 7) true
              "" "" "" false scenario.start) as [[[ok4 m4] s4] tr4].
  simpl in H1, H3, H4. cbv beta iota zeta in H2.
  change (behaviour.prefix_in (scenario.with_stat scenario.S_IFREG) ""
            (src mnt.fresh_mount_t) (kst scenario.start))
    with (Some ""%string, tt, @nil event) in H2.
  cbv beta iota zeta in H2.
  change (behaviour.prefix_in (scenario.with_stat scenario.S_IFREG) ""
            (dst mnt.fresh_mount_t) tt)
    with (Some ""%string, tt, @nil event) in H2.
  cbv beta iota zeta in H2.
  destruct H2 as (Hok2 & Hsrc2 & H2).
  rewrite Hsrc2 in H2. simpl in H2.
  destruct H2 as (tr0 & r & _ & Hr & Hd).
  simpl. repeat split; try tauto.
  rewrite Hd, Hr. reflexivity.
Defined.

(** The boundary cases of the specification: maybe with a bind of an
    existing regular file is not a directory; maybe with an empty source
    and no content is one; a variable prefixes the source. *)
Example is_dir_maybe_examples :
  is_dir (snd (fst (fst
    (mnt.addMountPt (scenario.with_stat scenario.S_IFREG) mnt.fresh_mount_t
       "/etc/passwd" "/etc/passwd" "" "" MS_BIND NS_DIR_MAYBE true
       "" "" "" false scenario.start)))) = false /\
  is_dir (snd (fst (fst
    (mnt.addMountPt scenario.all_ok mnt.fresh_mount_t
       "" "/proc" "proc" "" 0 NS_DIR_MAYBE true
       "" "" "" false scenario.start)))) = true /\
  src (snd (fst (fst
    (mnt.addMountPt (scenario.with_env "HOME" "/home/user")
       mnt.fresh_mount_t "/.cache" "/cache" "" "" MS_BIND NS_DIR_MAYBE true
       "HOME" "" "" false scenario.start)))) = "/home/user/.cache"%string /\
  fst (fst (fst
    (mnt.addMountPt (scenario.with_env "HOME" "/home/user")
       mnt.fresh_mount_t "/.cache" "/cache" "" "" MS_BIND NS_DIR_MAYBE true
       "XDG" "" "" false scenario.start))) = false.
Proof. vm_compute. auto. Qed.

(** The candidates for uid 1000 and the label root, TMPDIR being /var/tmp
    and the random number 7. *)
Example candidates_example :
  mnt.candidates 1000 "root" (Some "/var/tmp"%string) 7 =
  [ "/run/user//nsjail.1000.root"; "/tmp/nsjail.1000.root";
    "/var/tmp/nsjail.1000.root"; "/dev/shm/nsjail.1000.root";
    "/tmp/nsjail.1000.root.7" ]%string.
Proof. reflexivity. Qed.

(** With no directory readable and TMPDIR unset getDir tries four
    directories and returns null. *)
Example getDir_all_rejected :
  let '(res, _, tr) :=
    mnt.getDir (scenario.failing is_access 13) scenario.a_conf "root"
      scenario.start in
  res = None /\
  map fst tr =
  [ c_mkdir "/run/user//nsjail.1000.root" 493;
    c_access "/run/user//nsjail.1000.root" R_OK;
    c_mkdir "/tmp/nsjail.1000.root" 493;
    c_access "/tmp/nsjail.1000.root" R_OK;
    c_getenv "TMPDIR";
    c_mkdir "/dev/shm/nsjail.1000.root" 493;
    c_access "/dev/shm/nsjail.1000.root" R_OK;
    c_rnd64;
    c_mkdir "/tmp/nsjail.1000.root.7" 493;
    c_access "/tmp/nsjail.1000.root.7" R_OK ]%string.
Proof. vm_compute. auto. Qed.

(** * Further properties of cgroup.cc *)

Section cgroup_finish_facts.

Import cgroup cgroup_finish.

Context {W : Type}.
Variable kernel : call -> W -> reply * W.
Variable rmdir : string -> W -> reply * W.

#[local] Arguments cgroup_path : simpl never.
#[local] Arguments snprintf : simpl never.
#[local] Arguments to_string : simpl never.
#[local] Arguments String.append : simpl never.
#[local] Arguments Z.lor : simpl never.

Lemma mkdir_paths_app (a b : list call) :
  mkdir_paths (a ++ b) = mkdir_paths a ++ mkdir_paths b.
Proof. unfold mkdir_paths. apply flat_map_app. Qed.

(** The rmdir calls of finishFromParent: one for each controller with a
    non-zero limit, whatever the earlier ones answered. *)
Lemma finishFromParent_paths (nsjconf : nsjconf_t) (pid : Z) (w : W) :
  map fst (snd (finishFromParent rmdir nsjconf pid w)) =
  mkdir_paths (expected_calls nsjconf pid).
Proof.
  unfold finishFromParent, finishFromParentMem, finishFromParentPids,
    finishFromParentNetCls, finishFromParentCpu, expected_calls,
    controller_calls, memory_controller, pids_controller,
    net_cls_controller, cpu_controller.
  cbn [limit group_dir files].
  rewrite !mkdir_paths_app.
  destruct (cgroup_mem_max nsjconf =? 0);
    [|destruct (rmdir _ w) as [r1 w1]];
    (destruct (cgroup_pids_max nsjconf =? 0);
     [|match goal with |- context [rmdir ?p ?x] =>
         destruct (rmdir p x) as [r2 w2] end]);
    (destruct (cgroup_net_cls_classid nsjconf =? 0);
     [|match goal with |- context [rmdir ?p ?x] =>
         destruct (rmdir p x) as [r3 w3] end]);
    (destruct (cgroup_cpu_ms_per_sec nsjconf =? 0);
     [|match goal with |- context [rmdir ?p ?x] =>
         destruct (rmdir p x) as [r4 w4] end]);
    reflexivity.
Qed.

(** X1: finishFromParent asks rmdir for the group directory of every
    controller with a non-zero limit, in the order memory, pids, net_cls,
    cpu, and goes on whatever rmdir answers.  These are the directories a
    complete initNsFromParent for the same configuration and pid asks
    mkdir for; the directories of any run of the installer are a prefix
    of them, and all of them when the installer returned true. *)
Theorem finishFromParent_removes_installed_dirs
  (nsjconf : nsjconf_t) (pid : Z) (s : st W) (w : W) :
  let removed := map fst (snd (finishFromParent rmdir nsjconf pid w)) in
  let '(r, _, tr) := initNsFromParent kernel nsjconf pid s in
  removed = mkdir_paths (expected_calls nsjconf pid) /\
  is_prefix (mkdir_paths (map fst tr)) removed /\
  (r = true -> mkdir_paths (map fst tr) = removed).
Proof.
  intro removed. subst removed. rewrite finishFromParent_paths.
  pose proof (staged_initNsFromParent kernel nsjconf pid s) as H.
  destruct (initNsFromParent kernel nsjconf pid s) as [[r s'] tr].
  split; [reflexivity|].
  destruct r.
  - destruct H as [-> _]. split; [|reflexivity].
    exists []. now rewrite app_nil_r.
  - destruct H as (tr0 & bad & _ & _ & _ & k & Hk). split; [|discriminate].
    exists (mkdir_paths k). rewrite Hk. apply mkdir_paths_app.
Qed.

End cgroup_finish_facts.

(** Teardown for the configuration of scenarios 4 and 5, rmdir failing. *)
Example finishFromParent_scenario :
  cgroup_finish.finishFromParent
    (fun p (w : unit) => (mk_reply (-1) 16 0 None, w)) scenario.a_conf 1234 tt
  = (tt,
     [("/sys/fs/cgroup/memory/NSJAIL/NSJAIL.1234", mk_reply (-1) 16 0 None);
      ("/sys/fs/cgroup/net_cls/NSJAIL/NSJAIL.1234", mk_reply (-1) 16 0 None);
      ("/sys/fs/cgroup/cpu/NSJAIL/NSJAIL.1234", mk_reply (-1) 16 0 None)]
     %string).
Proof. vm_compute. reflexivity. Qed.

(** * Further properties of mnt.cc *)

Section mnt_more_facts.

Import mnt trace behaviour.

Context {W : Type}.
Variable kernel : call -> W -> reply * W.

#[local] Arguments isDir : simpl never.
#[local] Arguments from_env : simpl never.
#[local] Arguments snprintf : simpl never.
#[local] Arguments to_string : simpl never.
#[local] Arguments String.append : simpl never.
#[local] Arguments not64 : simpl never.
#[local] Arguments wrap64 : simpl never.
#[local] Arguments Z.land : simpl never.
#[local] Arguments Z.lor : simpl never.
#[local] Arguments Z.add : simpl never.

Ltac run_calls :=
  repeat first
    [ match goal with
      | |- context [kernel ?c ?w] =>
          let r := fresh "r" in
          let w' := fresh "w" in
          destruct (kernel c w) as [r w']; simpl
      end
    | match goal with
      | |- context [if ?b then _ else _] => destruct b eqn:?; simpl
      end ].

Ltac pick_event H :=
  simpl in H;
  repeat (destruct H as [H|H];
          [inversion H; subst; try discriminate|]);
  try contradiction.

(** ** mountPt *)

(** X2: a symlink descriptor never reaches a mount call.  mountPt creates
    the parents of the destination and then the link, whose target is the
    source or the literal none when the source is empty; a failing link
    makes it return false only for a mandatory descriptor.  The
    descriptor and the staging counter are left as they were, and
    remountRO does nothing for such a descriptor. *)
Theorem symlink_descriptor_never_mounts
  (mpt : mount_t) (newroot tmpdir : string) (s : st W) :
  is_symlink mpt = true ->
  let dstpath := snprintf PATH_MAX (newroot ^^ "/" ^^ dst mpt) in
  let target :=
    if empty (src mpt) then snprintf PATH_MAX "none"
    else snprintf PATH_MAX (src mpt) in
  let '(ok, m, s', tr) := mountPt kernel mpt newroot tmpdir s in
  m = mpt /\ df_counter s' = df_counter s /\
  ((exists r0,
      tr = [(c_createDirRecursively dstpath, r0)] /\
      truthy r0 = false /\ ok = false) \/
   (exists r0 r1,
      tr = [(c_createDirRecursively dstpath, r0);
            (c_symlink target dstpath, r1)] /\
      truthy r0 = true /\ ok = negb (failed r1 && is_mandatory mpt))) /\
  remountRO kernel mpt s = (true, s, []).
Proof.
  intros Hsym.
  assert (Hrm : remountRO kernel mpt s = (true, s, [])).
  { unfold remountRO. rewrite Hsym. destruct (mounted mpt); reflexivity. }
  rewrite Hrm. clear Hrm.
  unfold mountPt, bind, sys, pure. rewrite Hsym.
  destruct (kernel (c_createDirRecursively _) (kst s)) as [r0 w0].
  destruct (truthy r0) eqn:T0; simpl.
  - destruct (kernel (c_symlink _ _) w0) as [r1 w1] eqn:K1.
    destruct (empty (src mpt)); simpl in *;
      destruct (failed r1) eqn:F1; simpl;
      try destruct (is_mandatory mpt); simpl;
      (repeat split; auto; right; exists r0, r1; rewrite F1; auto).
  - repeat split; auto. left. exists r0. auto.
Qed.

Lemma mountPt_open_fds
  (mpt : mount_t) (newroot tmpdir : string) (s : st W) (held : list Z) :
  open_fds (snd (mountPt kernel mpt newroot tmpdir s)) held = held.
Proof.
  unfold mountPt, mountPt_mount, bind, sys, pure, next_df_counter.
  destruct mpt as [src sc dst ft op fl isd isl ism mtd]. simpl.
  run_calls; rewrite ?Z.eqb_refl; try reflexivity; exfalso;
    repeat match goal with
    | H : (_ >=? _) = _ |- _ => rewrite Z.geb_leb in H
    | H : (_ <? _) = true |- _ => apply Z.ltb_lt in H
    | H : (_ <? _) = false |- _ => apply Z.ltb_ge in H
    | H : (_ <=? _) = true |- _ => apply Z.leb_le in H
    | H : (_ <=? _) = false |- _ => apply Z.leb_gt in H
    end; lia.
Qed.

Lemma open_fds_app (t1 t2 : list event) (held : list Z) :
  open_fds (t1 ++ t2) held = open_fds t2 (open_fds t1 held).
Proof.
  revert held. induction t1 as [|[c r] t1 IH]; intros held; simpl;
    [reflexivity|].
  destruct c; try apply IH. destruct (ret r >=? 0); apply IH.
Qed.

(** X3: mountPt closes every descriptor it opened: the descriptors held
    after it are those held before, whatever the kernel answered; and so
    for the mount pass over any sequence. *)
Theorem mount_pass_closes_what_it_opens :
  (forall (mpt : mount_t) (newroot tmpdir : string) (s : st W)
          (held : list Z),
     open_fds (snd (mountPt kernel mpt newroot tmpdir s)) held = held) /\
  (forall (l : list mount_t) (newroot tmpdir : string) (s : st W)
          (held : list Z),
     open_fds (snd (mountPts_loop kernel l newroot tmpdir s)) held = held).
Proof.
  split; [exact mountPt_open_fds|].
  induction l as [|p l IH]; intros newroot tmpdir s held; [reflexivity|].
  simpl. unfold bind.
  pose proof (mountPt_open_fds p newroot tmpdir s held) as Hp.
  destruct (mountPt kernel p newroot tmpdir s) as [[[ok p'] s1] t1].
  simpl in Hp.
  destruct (negb ok && is_mandatory p'); simpl.
  - now rewrite app_nil_r.
  - specialize (IH newroot tmpdir s1 held).
    destruct (mountPts_loop kernel l newroot tmpdir s1) as [[[r l'] s2] t2].
    simpl in *. now rewrite open_fds_app, Hp, app_nil_r.
Qed.

(** X4: for a descriptor with content, any mount call of mountPt is
    preceded, in this order, by the exclusive creation of the staging
    file tmpdir/dynamic_file.N, N being the static counter after its
    increment, the write of exactly the content to the descriptor that
    open returned, and the close of that descriptor; the mount call
    binds that staging file on the destination.  The staging file is
    unlinked, as the last call, exactly when the mount succeeded. *)
Theorem mountPt_stages_content
  (mpt : mount_t) (newroot tmpdir : string) (s : st W) :
  empty (src_content mpt) = false ->
  let n := wrap64 (df_counter s + 1) in
  let staged := snprintf PATH_MAX (tmpdir ^^ "/dynamic_file." ^^ to_string n) in
  let dstpath := snprintf PATH_MAX (newroot ^^ "/" ^^ dst mpt) in
  let '(ok, m, s', tr) := mountPt kernel mpt newroot tmpdir s in
  forall c r, In (c, r) tr -> is_mount c = true ->
  exists pre o wr cl post,
    tr = pre ++
         [(c_open staged
             (Z.lor (Z.lor (Z.lor O_CREAT O_EXCL) O_CLOEXEC) O_WRONLY) 420, o);
          (c_writeToFd (ret o) (src_content mpt), wr);
          (c_close (ret o), cl);
          (c, r)] ++ post /\
    c = c_mount (Some staged) dstpath (Some (fs_type mpt))
          (Z.land (Z.lor (flags mpt) (Z.lor (Z.lor MS_BIND MS_REC) MS_PRIVATE))
             (not64 MS_RDONLY))
          (Some (options mpt)) /\
    0 <= ret o /\ truthy wr = true /\ df_counter s' = n /\
    ok = negb (failed r) /\
    (if failed r then post = []
     else exists u, post = [(c_unlink staged, u)]).
Proof.
  intros Hc. unfold mountPt, mountPt_mount, bind, sys, pure, next_df_counter.
  destruct mpt as [src sc dst ft op fl isd isl ism mtd]. simpl in *.
  subst. rewrite Hc. simpl.
  run_calls; intros mc mr Hin Hm; pick_event Hin;
    repeat match goal with
    | H : negb _ = false |- _ => apply negb_false_iff in H
    | H : (_ <? _) = false |- _ => apply Z.ltb_ge in H
    end;
    (first [ eexists [_; _], _, _, _, _; split; [reflexivity|]
           | eexists [_; _; _], _, _, _, _; split; [reflexivity|] ]);
    repeat match goal with
    | H : failed _ = _ |- _ => rewrite H
    end;
    repeat split; eauto.
Qed.

(** X5: for a descriptor without content that is not a symlink, the
    source of the mount call is the descriptor's source, or the literal
    none when that is empty, and the flags are the descriptor's without
    read-only; nothing is written, staged or unlinked, and the flags and
    the staging counter are left as they were. *)
Theorem mountPt_plain_source
  (mpt : mount_t) (newroot tmpdir : string) (s : st W) :
  empty (src_content mpt) = true ->
  let source :=
    if empty (src mpt) then snprintf PATH_MAX "none"
    else snprintf PATH_MAX (src mpt) in
  let '(ok, m, s', tr) := mountPt kernel mpt newroot tmpdir s in
  df_counter s' = df_counter s /\ flags m = flags mpt /\
  forall c r, In (c, r) tr ->
    match c with
    | c_mount so _ _ mflags _ =>
        so = Some source /\ mflags = Z.land (flags mpt) (not64 MS_RDONLY)
    | c_writeToFd _ _ | c_unlink _ => False
    | _ => True
    end.
Proof.
  intros Hc. unfold mountPt, mountPt_mount, bind, sys, pure, next_df_counter.
  destruct mpt as [src sc dst ft op fl isd isl ism mtd]. simpl in *.
  subst. rewrite Hc. simpl.
  run_calls; (split; [reflexivity|]); (split; [reflexivity|]);
    intros mc mr Hin; pick_event Hin; auto.
Qed.

(** ** Which calls a function issues *)

Lemma only_pure {A} (p : call -> bool) (a : A) : only (W:=W) p (pure a).
Proof. intro s. simpl. auto. Qed.

Lemma only_sys (p : call -> bool) (c : call) :
  p c = true -> only p (sys kernel c).
Proof.
  intros Hp s. unfold sys. destruct (kernel c (kst s)) as [r w]. simpl.
  rewrite Hp. auto.
Qed.

Lemma only_bind {A B} (p : call -> bool) (m : M W A) (f : A -> M W B) :
  only p m -> (forall a, only p (f a)) -> only p (bind m f).
Proof.
  intros Hm Hf s. unfold bind.
  specialize (Hm s). destruct (m s) as [[a s1] t1]. simpl in Hm.
  specialize (Hf a s1). destruct (f a s1) as [[b s2] t2]. simpl in *.
  destruct Hm as [Hm1 Hm2]. destruct Hf as [Hf1 Hf2]. split.
  - rewrite forallb_app. apply andb_true_intro. auto.
  - congruence.
Qed.

Lemma only_weaken {A} (p q : call -> bool) (m : M W A) :
  (forall c, p c = true -> q c = true) -> only p m -> only q m.
Proof.
  intros Hpq Hm s. destruct (Hm s) as [Ht Hd]. split; [|exact Hd].
  rewrite forallb_forall in *. intros e He. apply Hpq, Ht, He.
Qed.

Ltac only_steps :=
  repeat first
    [ apply only_pure
    | apply only_sys; reflexivity
    | apply only_bind; [|intros ?]
    | match goal with
      | |- only _ (if ?b then _ else _) => destruct b
      | |- only _ (match ?x with _ => _ end) => destruct x
      end ].

Lemma mkdirAndTest_only (dir : string) :
  only getDir_call (mkdirAndTest kernel dir).
Proof. unfold mkdirAndTest. only_steps. Qed.

Lemma getDir_only (nsjconf : nsjconf_t) (name : string) :
  only getDir_call (getDir kernel nsjconf name).
Proof.
  unfold getDir.
  repeat first
    [ apply mkdirAndTest_only
    | apply only_pure
    | apply only_sys; reflexivity
    | apply only_bind; [|intros ?]
    | match goal with
      | |- only _ (if ?b then _ else _) => destruct b
      | |- only _ (match ?x with _ => _ end) => destruct x
      end ].
Qed.

(** X6: getDir issues nothing but mkdir with mode 0755, access for
    reading, the lookup of TMPDIR and util::rnd64: it removes nothing,
    mounts nothing, and leaves the staging counter alone. *)
Theorem getDir_calls (nsjconf : nsjconf_t) (name : string) :
  only getDir_call (getDir kernel nsjconf name).
Proof.
  unfold getDir.
  repeat first
    [ apply mkdirAndTest_only
    | apply only_pure
    | apply only_sys; reflexivity
    | apply only_bind; [|intros ?]
    | match goal with
      | |- only _ (if ?b then _ else _) => destruct b
      | |- only _ (match ?x with _ => _ end) => destruct x
      end ].
Qed.

Lemma remount_flags_facts (f_flag : Z) :
  Z.land (remount_flags f_flag) MS_REMOUNT = MS_REMOUNT /\
  has_bits (remount_flags f_flag) (Z.lor (Z.lor MS_REMOUNT MS_RDONLY) MS_BIND) /\
  unknown_bits (remount_flags f_flag) = 0 /\
  Z.land (remount_flags f_flag)
    (Z.lor (Z.lor (Z.lor MS_REC MS_PRIVATE) MS_MOVE)
       (Z.lor (Z.lor MS_SHARED MS_SLAVE) MS_UNBINDABLE)) = 0 /\
  hd_error (known_names (remount_flags f_flag)) = Some "MS_RDONLY"%string.
Proof.
  rewrite remount_flags_spec. unfold preserved, has_bits.
  destruct (Z.land f_flag ST_NOSUID =? 0),
           (Z.land f_flag ST_NODEV =? 0),
           (Z.land f_flag ST_NOEXEC =? 0),
           (Z.land f_flag ST_SYNCHRONOUS =? 0),
           (Z.land f_flag ST_MANDLOCK =? 0),
           (Z.land f_flag ST_NOATIME =? 0),
           (Z.land f_flag ST_NODIRATIME =? 0),
           (Z.land f_flag ST_RELATIME =? 0);
    vm_compute; auto.
Qed.

Lemma remountRO_only (mpt : mount_t) : only remount_call (remountRO kernel mpt).
Proof.
  unfold remountRO.
  repeat first
    [ apply only_pure
    | apply only_bind; [|intros ?]
    | match goal with
      | |- only _ (if ?b then _ else _) => destruct b
      end ].
  - apply only_sys. reflexivity.
  - apply only_sys. simpl. rewrite String.eqb_refl. simpl.
    apply negb_true_iff, Z.eqb_neq.
    rewrite (proj1 (remount_flags_facts _)). discriminate.
Qed.

Lemma remountRO_loop_only (l : list mount_t) :
  only remount_call (remountRO_loop kernel l).
Proof.
  induction l as [|p l IH]; simpl; [apply only_pure|].
  apply only_bind; [apply remountRO_only|].
  intros ok. destruct (negb ok && is_mandatory p); [apply only_pure|exact IH].
Qed.

(** ** flagsToStr and the flags of the re-mount *)

Lemma flagsToStr_split (flags : Z) :
  split_on "|" (flagsToStr flags) =
  known_names flags ++
  (if (unknown_bits flags =? 0)
      && negb (match known_names flags with [] => true | _ => false end)
   then []
   else [alt_hex (unknown_bits flags)]).
Proof.
  rewrite flagsToStr_unfold. cbv zeta. rewrite empty_joined.
  pose proof (known_names_free flags) as Hfree.
  destruct (unknown_bits flags =? 0) eqn:Hu; simpl.
  - destruct (known_names flags) as [|n names] eqn:Hn using rev_ind; simpl.
    + apply split_on_free, alt_hex_free.
    + clear IHnames.
      assert (Hne : match names ++ [n] with [] => true | _ => false end = false)
        by (destruct names; reflexivity).
      rewrite Hne. simpl.
      rewrite joined_app. simpl. rewrite append_empty_r.
      rewrite <- append_assoc, pop_back_append, app_nil_r.
      apply Forall_app in Hfree. destruct Hfree as [Hnames Hlast].
      inversion Hlast; subst.
      now apply split_on_joined.
  - apply split_on_joined; [assumption|apply alt_hex_free].
Qed.

Lemma known_names_nonempty (flags : Z) :
  Forall (fun n => n <> ""%string) (known_names flags).
Proof.
  unfold known_names.
  assert (H : Forall (fun n => n <> ""%string) (map snd mountFlags)).
  { repeat constructor; discriminate. }
  revert H. generalize mountFlags as table.
  induction table as [|i table IH]; simpl; intros H; [constructor|].
  inversion H; subst.
  destruct (negb (Z.land flags (fst i) =? 0)); simpl; auto.
Qed.

Lemma alt_hex_nonempty (z : Z) : alt_hex z <> ""%string.
Proof. unfold alt_hex. destruct (z =? 0); discriminate. Qed.

(** X7: flagsToStr never gives an empty string, and no token of its
    output between separators is empty: the output neither starts nor
    ends with the separator and never has two in a row. *)
Theorem flagsToStr_no_empty_token (flags : Z) :
  flagsToStr flags <> ""%string /\
  Forall (fun tok => tok <> ""%string) (split_on "|" (flagsToStr flags)).
Proof.
  assert (Htok : Forall (fun tok => tok <> ""%string)
                   (split_on "|" (flagsToStr flags))).
  { rewrite flagsToStr_split. apply Forall_app. split.
    - apply known_names_nonempty.
    - destruct ((unknown_bits flags =? 0) && _); constructor;
        [apply alt_hex_nonempty|constructor]. }
  split; [|exact Htok].
  intros He. rewrite He in Htok. simpl in Htok.
  inversion Htok; subst. auto.
Qed.

(** X8: whatever statvfs reports, the flags remountRO passes to mount
    contain remount, read-only and bind, contain no propagation, move or
    recursive flag, and consist of known flags only, so that their
    rendering by flagsToStr is the list of their names, MS_RDONLY first,
    with no hexadecimal residue. *)
Theorem remount_flags_are_known (f_flag : Z) :
  has_bits (remount_flags f_flag) (Z.lor (Z.lor MS_REMOUNT MS_RDONLY) MS_BIND) /\
  Z.land (remount_flags f_flag)
    (Z.lor (Z.lor (Z.lor MS_REC MS_PRIVATE) MS_MOVE)
       (Z.lor (Z.lor MS_SHARED MS_SLAVE) MS_UNBINDABLE)) = 0 /\
  unknown_bits (remount_flags f_flag) = 0 /\
  split_on "|" (flagsToStr (remount_flags f_flag))
  = known_names (remount_flags f_flag) /\
  hd_error (split_on "|" (flagsToStr (remount_flags f_flag)))
  = Some "MS_RDONLY"%string.
Proof.
  destruct (remount_flags_facts f_flag) as (_ & Hb & Hu & Hn & Hhd).
  assert (Hs : split_on "|" (flagsToStr (remount_flags f_flag))
               = known_names (remount_flags f_flag)).
  { rewrite flagsToStr_split, Hu.
    destruct (known_names (remount_flags f_flag)); [discriminate|].
    simpl. now rewrite app_nil_r. }
  repeat split; auto. now rewrite Hs.
Qed.

(** ** What the constructor changes in the configuration *)

#[local] Arguments getDir : simpl never.
#[local] Arguments mountPt : simpl never.
#[local] Arguments mountPts_loop : simpl nomatch.
#[local] Arguments remountRO_loop : simpl never.

Lemma same_entry_refl (p : mount_t) : same_entry p p.
Proof. unfold same_entry. tauto. Qed.

Lemma mountPt_same_entry (mpt : mount_t) (newroot tmpdir : string) (s : st W) :
  same_entry mpt (snd (fst (fst (mountPt kernel mpt newroot tmpdir s)))).
Proof.
  pose proof (mountPt_spec kernel mpt newroot tmpdir s) as H.
  destruct (mountPt kernel mpt newroot tmpdir s) as [[[ok m] s1] tr].
  simpl.
  destruct (filter (fun e => is_mount (fst e)) tr) as [|[c r] [|]];
    [ | | contradiction ].
  - destruct H as [-> _]. apply same_entry_refl.
  - destruct H as (_ & _ & -> & _). unfold same_entry. simpl.
    repeat split; auto.
    + intros ->. destruct (failed r); reflexivity.
    + destruct (empty (src_content mpt)); auto.
Qed.

Lemma mountPts_loop_same_entry (l : list mount_t) (newroot tmpdir : string)
  (s : st W) :
  Forall2 same_entry l
    (snd (fst (fst (mountPts_loop kernel l newroot tmpdir s)))).
Proof.
  revert s. induction l as [|p l IH]; intros s; simpl; [constructor|].
  unfold bind.
  pose proof (mountPt_same_entry p newroot tmpdir s) as Hp.
  destruct (mountPt kernel p newroot tmpdir s) as [[[ok p'] s1] t1].
  simpl in Hp.
  destruct (negb ok && is_mandatory p'); simpl.
  - constructor; [exact Hp|]. apply Forall2_same, same_entry_refl.
  - specialize (IH s1).
    destruct (mountPts_loop kernel l newroot tmpdir s1) as [[[r l'] s2] t2].
    simpl in *. constructor; assumption.
Qed.

(** X9: initNsInternal, in either mode, returns the configuration it was
    given but for the mount sequence, and the sequence it returns has
    the same descriptors in the same order: each differs from the
    original at most in [mounted], which can only turn true, and, for a
    content descriptor, in the flags, by bind, recursive and private
    added. *)
Theorem initNsInternal_keeps_descriptors (nsjconf : nsjconf_t) (s : st W) :
  let '(_, conf', _, _) := initNsInternal kernel nsjconf s in
  conf' = set_mountpts nsjconf (mountpts conf') /\
  Forall2 same_entry (mountpts nsjconf) (mountpts conf').
Proof.
  assert (Hsame : nsjconf = set_mountpts nsjconf (mountpts nsjconf))
    by (destruct nsjconf; reflexivity).
  assert (Hrefl : Forall2 same_entry (mountpts nsjconf) (mountpts nsjconf)).
  { apply Forall2_same, same_entry_refl. }
  destruct (clone_newns nsjconf) eqn:Hns.
  - pose proof (initNsInternal_pass kernel nsjconf s Hns) as H.
    destruct (initNsInternal kernel nsjconf s) as [[[r conf'] s'] tr].
    destruct H as [[-> _]|(pre & destdir & tmpdir & s0 & H)]; [auto|].
    pose proof (mountPts_loop_same_entry (mountpts nsjconf) destdir tmpdir s0)
      as L.
    destruct (mountPts_loop kernel (mountpts nsjconf) destdir tmpdir s0)
      as [[[ok pts] s1] t].
    destruct H as (-> & _). simpl in *. auto.
  - unfold initNsInternal. rewrite Hns. simpl.
    destruct (empty (chroot nsjconf)); simpl; [auto|].
    unfold bind, sys, pure.
    destruct (kernel (c_chroot (chroot nsjconf)) (kst s)) as [r1 w1].
    destruct (failed r1); simpl; [auto|].
    destruct (kernel (c_chdir "/") w1) as [r2 w2].
    destruct (failed r2); simpl; auto.
Qed.

(** ** initNsInternal with a mount namespace *)

(** A re-mount pass that returns true has re-mounted every mandatory
    descriptor that wants it. *)
Lemma remountRO_loop_true (l : list mount_t) (s : st W) :
  let '(r, _, t) := remountRO_loop kernel l s in
  r = true ->
  Forall (fun p =>
            is_mandatory p = true -> wants_remount p = true ->
            exists vfs rr,
              In (c_mount (Some (dst p)) (dst p) None
                    (remount_flags (out vfs)) None, rr) t /\
              failed rr = false) l.
Proof.
  revert s. induction l as [|p l IH]; intros s.
  - simpl. intros _. constructor.
  - change (remountRO_loop kernel (p :: l))
      with (ok <- remountRO kernel p ;;
            if negb ok && is_mandatory p then pure false
            else remountRO_loop kernel l).
    unfold bind.
    pose proof (remountRO_spec kernel p s) as Hp.
    destruct (remountRO kernel p s) as [[ok s1] t1].
    destruct (negb ok && is_mandatory p) eqn:Estop; simpl; [discriminate|].
    specialize (IH s1).
    destruct (remountRO_loop kernel l s1) as [[r s2] t2]. simpl.
    intros Hr. constructor.
    + intros Hman Hw. rewrite Hw in Hp. rewrite Hman in Estop.
      rewrite andb_true_r in Estop. apply negb_false_iff in Estop. subst ok.
      destruct Hp as [(vfs & _ & _ & Hf)|(vfs & m & -> & _ & Hm)];
        [discriminate|].
      exists vfs, m. split.
      * simpl. right. left. reflexivity.
      * destruct (failed m); [discriminate|reflexivity].
    + eapply Forall_impl; [|exact (IH Hr)].
      intros a Ha Hman Hw. destruct (Ha Hman Hw) as (vfs & rr & Hin & Hf).
      exists vfs, rr. split; [|exact Hf]. apply in_or_app. now right.
Qed.

Ltac fatal_call r w F :=
  match goal with
  | |- context [kernel ?c ?x] =>
      destruct (kernel c x) as [r w]; simpl;
      destruct (failed r) eqn:F; simpl; [discriminate|]
  end.

Lemma mountPt_calls (mpt : mount_t) (newroot tmpdir : string) (s : st W) :
  forallb (fun e => mountPt_call (fst e))
    (snd (mountPt kernel mpt newroot tmpdir s)) = true.
Proof.
  unfold mountPt, mountPt_mount, bind, sys, pure, next_df_counter.
  run_calls; reflexivity.
Qed.

Lemma mountPts_loop_calls (l : list mount_t) (newroot tmpdir : string)
  (s : st W) :
  forallb (fun e => mountPt_call (fst e))
    (snd (mountPts_loop kernel l newroot tmpdir s)) = true.
Proof.
  revert s. induction l as [|p l IH]; intros s; [reflexivity|].
  cbn [mountPts_loop]. unfold bind.
  pose proof (mountPt_calls p newroot tmpdir s) as Hp.
  destruct (mountPt kernel p newroot tmpdir s) as [[[ok p'] s1] t1].
  simpl in Hp.
  destruct (negb ok && is_mandatory p'); simpl.
  - rewrite app_nil_r. exact Hp.
  - specialize (IH s1).
    destruct (mountPts_loop kernel l newroot tmpdir s1) as [[[r l'] s2] t2].
    simpl in *. rewrite app_nil_r, forallb_app.
    apply andb_true_intro. split; assumption.
Qed.

Lemma mountPts_loop_replayed (l : list mount_t) (newroot tmpdir : string) :
  replayed kernel (mountPts_loop kernel l newroot tmpdir).
Proof.
  induction l as [|p l IH]; cbn [mountPts_loop]; [apply replayed_pure|].
  apply replayed_bind; [apply mountPt_replayed|].
  intros [ok p']. destruct (negb ok && is_mandatory p');
    [apply replayed_pure|].
  apply replayed_bind; [exact IH|].
  intros [r rest]. apply replayed_pure.
Qed.

Lemma initNsInternal_replayed (nsjconf : nsjconf_t) :
  replayed kernel (initNsInternal kernel nsjconf).
Proof.
  unfold initNsInternal.
  repeat first
    [ apply getDir_replayed
    | apply mountPts_loop_replayed
    | apply remountRO_loop_replayed
    | apply replayed_pure
    | apply replayed_sys
    | apply replayed_bind; [|intros ?]
    | match goal with
      | |- replayed _ (if ?b then _ else _) => destruct b
      | |- replayed _ (match ?x with _ => _ end) => destruct x
      end ].
Qed.

(** The shape of a run of initNsInternal that returns true. *)
Lemma initNsInternal_true (nsjconf : nsjconf_t) (s : st W) :
  clone_newns nsjconf = true ->
  let '(r, conf', s', tr) := initNsInternal kernel nsjconf s in
  r = true ->
  exists destdir tmpdir t_root t_tmp t_pass t_ro r0 r1 r2 r3 r4 r5 r6 r7,
    tr = (c_chdir "/", r0) :: t_root ++
         (c_mount (Some "/"%string) "/" None (Z.lor MS_REC MS_PRIVATE) None, r1)
         :: (c_mount None destdir (Some "tmpfs"%string) 0
               (Some "size=16777216"%string), r2)
         :: t_tmp ++
         (c_mount None tmpdir (Some "tmpfs"%string) 0
            (Some "size=16777216"%string), r3)
         :: t_pass ++
         (c_umount2 tmpdir MNT_DETACH, r4)
         :: (c_pivot_root destdir destdir, r5)
         :: (c_umount2 "/" MNT_DETACH, r6)
         :: (c_chdir (cwd nsjconf), r7) :: t_ro /\
    (failed r0 = false /\ failed r1 = false /\ failed r2 = false /\
     failed r3 = false /\ failed r4 = false /\ failed r5 = false /\
     failed r6 = false /\ failed r7 = false) /\
    forallb (fun e => getDir_call (fst e)) t_root = true /\
    forallb (fun e => getDir_call (fst e)) t_tmp = true /\
    forallb (fun e => remount_call (fst e)) t_ro = true /\
    mandatory_mounted (mountpts conf') /\
    Forall (fun p =>
              is_mandatory p = true -> wants_remount p = true ->
              exists vfs rr,
                In (c_mount (Some (dst p)) (dst p) None
                      (remount_flags (out vfs)) None, rr) t_ro /\
                failed rr = false) (mountpts conf') /\
    chooses (orig_uid nsjconf) "root" t_root (Some destdir) /\
    chooses (orig_uid nsjconf) "tmp" t_tmp (Some tmpdir) /\
    forallb (fun e => mountPt_call (fst e)) t_pass = true.
Proof.
  intros Hns. unfold initNsInternal. rewrite Hns. simpl.
  unfold bind, sys, pure.
  fatal_call r0 w0 F0.
  match goal with
  | |- context [getDir kernel nsjconf "root" ?x] =>
      pose proof (getDir_only nsjconf "root" x) as G1;
      pose proof (getDir_chooses kernel nsjconf "root" x) as C1;
      destruct (getDir kernel nsjconf "root" x) as [[[destdir|] s1] t1]
  end; simpl in *; [|discriminate].
  fatal_call r1 w1 F1.
  fatal_call r2 w2 F2.
  match goal with
  | |- context [getDir kernel nsjconf "tmp" ?x] =>
      pose proof (getDir_only nsjconf "tmp" x) as G2;
      pose proof (getDir_chooses kernel nsjconf "tmp" x) as C2;
      destruct (getDir kernel nsjconf "tmp" x) as [[[tmpdir|] s2] t2]
  end; simpl in *; [|discriminate].
  fatal_call r3 w3 F3.
  match goal with
  | |- context [mountPts_loop kernel ?l ?a ?b ?x] =>
      pose proof (mountPts_loop_spec kernel l a b x) as L;
      pose proof (mountPts_loop_calls l a b x) as P;
      destruct (mountPts_loop kernel l a b x) as [[[ok pts] s3] t3]
  end; simpl in *.
  destruct ok; simpl; [|discriminate].
  fatal_call r4 w4 F4.
  fatal_call r5 w5 F5.
  fatal_call r6 w6 F6.
  fatal_call r7 w7 F7.
  match goal with
  | |- context [remountRO_loop kernel ?l ?x] =>
      pose proof (remountRO_loop_true l x) as R1;
      pose proof (remountRO_loop_only l x) as R2;
      destruct (remountRO_loop kernel l x) as [[ok2 s4] t4]
  end; simpl in *.
  destruct ok2; simpl; [|discriminate].
  intros _.
  exists destdir, tmpdir, t1, t2, t3, t4, r0, r1, r2, r3, r4, r5, r6, r7.
  split; [now rewrite app_nil_r|].
  repeat split; try assumption; try tauto.
Qed.

Lemma no_mount_in_getDir (t : list event) :
  forallb (fun e => getDir_call (fst e)) t = true ->
  filter (fun e => is_mount (fst e)) t = [].
Proof.
  induction t as [|[c r] t IH]; simpl; [reflexivity|].
  intros H. apply andb_prop in H. destruct H as [Hc Ht].
  destruct c; simpl in *; try discriminate; auto.
Qed.

(** X10: with a mount namespace, the first mount call initNsInternal
    issues, if it issues any, is the one that makes the whole tree
    recursively private, and when that call fails no other mount call
    follows. *)
Theorem initNsInternal_private_first (nsjconf : nsjconf_t) (s : st W) :
  clone_newns nsjconf = true ->
  let '(_, _, _, tr) := initNsInternal kernel nsjconf s in
  match filter (fun e => is_mount (fst e)) tr with
  | [] => True
  | (c, r) :: rest =>
      c = c_mount (Some "/"%string) "/" None (Z.lor MS_REC MS_PRIVATE) None /\
      (failed r = true -> rest = [])
  end.
Proof.
  intros Hns. unfold initNsInternal. rewrite Hns. simpl.
  unfold bind at 1. unfold sys at 1.
  destruct (kernel (c_chdir "/") (kst s)) as [r0 w0].
  destruct (failed r0); simpl; [exact I|].
  unfold bind at 1.
  match goal with
  | |- context [getDir kernel nsjconf "root" ?x] =>
      pose proof (getDir_only nsjconf "root" x) as G1;
      destruct (getDir kernel nsjconf "root" x) as [[[destdir|] s1] t1]
  end; simpl in G1; destruct G1 as [G1 _];
    apply no_mount_in_getDir in G1.
  - unfold bind at 1. unfold sys at 1.
    destruct (kernel (c_mount (Some "/"%string) "/" None _ None) (kst s1))
      as [r1 w1].
    destruct (failed r1) eqn:F1.
    + simpl. unfold event in *. rewrite filter_app, G1. simpl.
      split; [reflexivity|auto].
    + match goal with
      | |- context [bind ?m ?f ?x] =>
          destruct (bind m f x) as [[[b c'] s2] t2]
      end.
      simpl. unfold event in *. rewrite filter_app, G1. simpl.
      split; [reflexivity|congruence].
  - simpl. unfold event in *. rewrite app_nil_r, G1. exact I.
Qed.

(** X11: when initNsInternal returns true with a mount namespace, its
    trace is, in this order and with every call named here successful:
    chdir to "/"; the calls of the chooser for the label root, which
    accepted the directory destdir; the mount that makes the tree
    private; the mount of a tmpfs on destdir; the calls of the chooser
    for the label tmp, which accepted the directory tmpdir; the mount of
    a tmpfs on tmpdir; the calls of the mount pass; then umount2 of
    tmpdir with MNT_DETACH, pivot_root with destdir as both arguments,
    umount2 of "/" with MNT_DETACH and chdir to the configured working
    directory; every call after these is a statvfs or a re-mount of the
    re-mount pass.  The replies are the kernel's. *)
Theorem initNsInternal_true_has_pivoted (nsjconf : nsjconf_t) (s : st W) :
  clone_newns nsjconf = true ->
  let '(r, _, s', tr) := initNsInternal kernel nsjconf s in
  replays kernel (kst s) tr (kst s') /\
  (r = true ->
   exists destdir tmpdir t_root t_tmp t_pass post r0 r1 r2 r3 r4 r5 r6 r7,
     tr = (c_chdir "/", r0) :: t_root ++
          [(c_mount (Some "/"%string) "/" None (Z.lor MS_REC MS_PRIVATE) None,
            r1);
           (c_mount None destdir (Some "tmpfs"%string) 0
              (Some "size=16777216"%string), r2)] ++
          t_tmp ++
          [(c_mount None tmpdir (Some "tmpfs"%string) 0
              (Some "size=16777216"%string), r3)] ++
          t_pass ++
          [(c_umount2 tmpdir MNT_DETACH, r4);
           (c_pivot_root destdir destdir, r5);
           (c_umount2 "/" MNT_DETACH, r6);
           (c_chdir (cwd nsjconf), r7)] ++ post /\
     (failed r0 = false /\ failed r1 = false /\ failed r2 = false /\
      failed r3 = false /\ failed r4 = false /\ failed r5 = false /\
      failed r6 = false /\ failed r7 = false) /\
     chooses (orig_uid nsjconf) "root" t_root (Some destdir) /\
     chooses (orig_uid nsjconf) "tmp" t_tmp (Some tmpdir) /\
     forallb (fun e => mountPt_call (fst e)) t_pass = true /\
     forallb (fun e => remount_call (fst e)) post = true).
Proof.
  intros Hns.
  pose proof (initNsInternal_true nsjconf s Hns) as H.
  pose proof (initNsInternal_replayed nsjconf s) as Hre.
  destruct (initNsInternal kernel nsjconf s) as [[[r conf'] s'] tr].
  simpl in Hre. split; [exact Hre|].
  intros Hr.
  destruct (H Hr) as (destdir & tmpdir & t_root & t_tmp & t_pass & t_ro &
                      r0 & r1 & r2 & r3 & r4 & r5 & r6 & r7 &
                      -> & F & _ & _ & Hro & _ & _ & C1 & C2 & P).
  exists destdir, tmpdir, t_root, t_tmp, t_pass, t_ro,
    r0, r1, r2, r3, r4, r5, r6, r7.
  split; [reflexivity|]. tauto.
Qed.

(** X12: when initNsInternal returns true with a mount namespace, every
    mandatory descriptor that is not a symlink and has read-only in its
    flags is mounted, and the trace holds a successful re-mount of its
    destination onto itself with the flags remountRO composes. *)
Theorem initNsInternal_true_enforces_read_only
  (nsjconf : nsjconf_t) (s : st W) :
  clone_newns nsjconf = true ->
  let '(r, conf', _, tr) := initNsInternal kernel nsjconf s in
  r = true ->
  Forall (fun p =>
            is_mandatory p = true -> is_symlink p = false ->
            Z.land (flags p) MS_RDONLY <> 0 ->
            mounted p = true /\
            exists vfs rr,
              In (c_mount (Some (dst p)) (dst p) None
                    (remount_flags (out vfs)) None, rr) tr /\
              failed rr = false /\
              has_bits (remount_flags (out vfs))
                (Z.lor (Z.lor MS_REMOUNT MS_RDONLY) MS_BIND))
    (mountpts conf').
Proof.
  intros Hns.
  pose proof (initNsInternal_true nsjconf s Hns) as H.
  destruct (initNsInternal kernel nsjconf s) as [[[r conf'] s'] tr].
  intros Hr.
  destruct (H Hr) as (destdir & tmpdir & t_root & t_tmp & t_pass & t_ro &
                      r0 & r1 & r2 & r3 & r4 & r5 & r6 & r7 &
                      -> & _ & _ & _ & _ & Hm & Hre & _).
  unfold mandatory_mounted in Hm.
  rewrite Forall_forall in *. intros p Hp Hman Hsym Hro.
  assert (Hmt : mounted p = true) by (apply Hm; assumption).
  split; [exact Hmt|].
  assert (Hw : wants_remount p = true).
  { unfold wants_remount. rewrite Hmt, Hsym.
    apply Z.eqb_neq in Hro. rewrite Hro. reflexivity. }
  destruct (Hre p Hp Hman Hw) as (vfs & rr & Hin & Hf).
  exists vfs, rr. split; [|split; [exact Hf|]].
  - right. apply in_or_app. right. right. right.
    apply in_or_app. right. right.
    apply in_or_app. right. do 4 right. exact Hin.
  - apply remount_flags_facts.
Qed.

(** ** Finalization *)

(** X13: a content descriptor added with the tag maybe is realized as a
    file: whatever the mount pass later does with the finalized
    descriptor, mountPt never calls mkdir for it, and the only files it
    opens are the destination, created if missing, and the staging file,
    created exclusively. *)
Theorem content_descriptor_is_a_file
  (src dst fstype options : string) (flags : Z) (is_mandatory : bool)
  (src_env dst_env src_content : string) (s : st W)
  (newroot tmpdir : string) (s' : st W) :
  empty src_content = false ->
  let '(ok, m, _, _) :=
    addMountPt kernel fresh_mount_t src dst fstype options flags NS_DIR_MAYBE
      is_mandatory src_env dst_env src_content false s in
  ok = true ->
  is_dir m = false /\
  forall c r, In (c, r) (snd (mountPt kernel m newroot tmpdir s')) ->
    match c with
    | c_mkdir _ _ => False
    | c_open path oflags perm =>
        perm = 420 /\
        ((path = snprintf PATH_MAX (newroot ^^ "/" ^^ nsjail.dst m) /\
          oflags = Z.lor (Z.lor O_CREAT O_RDONLY) O_CLOEXEC) \/
         oflags = Z.lor (Z.lor (Z.lor O_CREAT O_EXCL) O_CLOEXEC) O_WRONLY)
    | _ => True
    end.
Proof.
  intros Hc. unfold addMountPt, bind.
  destruct (from_env kernel src_env _ s) as [[e1 s1] t1].
  destruct e1 as [e1|]; [|discriminate].
  destruct (from_env kernel dst_env _ s1) as [[e2 s2] t2].
  destruct e2 as [e2|]; [|discriminate].
  rewrite Hc. simpl. intros _. split; [reflexivity|].
  unfold mountPt, mountPt_mount, bind, sys, pure, next_df_counter. simpl.
  rewrite Hc. simpl.
  run_calls; intros mc mr Hin; pick_event Hin; auto.
Qed.

(** X14: finalization from a fresh descriptor looks the source variable
    up first, then the destination variable, each only if named, and the
    second only if the first is set.  It returns false when a named
    variable is unset or the tag is unknown.  Otherwise it returns true,
    the source is the source argument prefixed by the value of the
    source variable, or the argument itself when no variable is named,
    and likewise for the destination; a variable set to the empty string
    is accepted; the only call after the lookups is at most one stat of
    the expanded source. *)
Theorem addMountPt_env_prefix
  (src dst fstype options : string) (flags : Z)
  (is_dir : isDir_t) (is_mandatory : bool)
  (src_env dst_env src_content : string) (is_symlink : bool) (s : st W) :
  let '(ok, m, _, tr) :=
    addMountPt kernel fresh_mount_t src dst fstype options flags is_dir
      is_mandatory src_env dst_env src_content is_symlink s in
  let '(ps, w1, t1) := prefix_in kernel src_env "" (kst s) in
  let '(pd, _, t2) := prefix_in kernel dst_env "" w1 in
  match ps with
  | None => ok = false /\ tr = t1
  | Some ps =>
      match pd with
      | None => ok = false /\ tr = t1 ++ t2
      | Some pd =>
          match is_dir with
          | NS_DIR_other _ => ok = false /\ tr = t1 ++ t2
          | _ =>
              ok = true /\
              nsjail.src m = ps ^^ src /\ nsjail.dst m = pd ^^ dst /\
              exists rest,
                tr = t1 ++ t2 ++ rest /\
                (rest = [] \/ exists r, rest = [(c_stat (ps ^^ src), r)])
          end
      end
  end.
Proof.
  pose proof (addMountPt_exact kernel fresh_mount_t src dst fstype options
                flags is_dir is_mandatory src_env dst_env src_content
                is_symlink s) as H.
  destruct (addMountPt kernel fresh_mount_t src dst fstype options flags
              is_dir is_mandatory src_env dst_env src_content is_symlink s)
    as [[[ok m] s1] tr].
  change (nsjail.src fresh_mount_t) with ""%string in H.
  change (nsjail.dst fresh_mount_t) with ""%string in H.
  destruct (prefix_in kernel src_env "" (kst s)) as [[ps w1] t1].
  destruct (prefix_in kernel dst_env "" w1) as [[pd w2] t2].
  destruct ps as [ps|]; [|tauto].
  destruct pd as [pd|]; [|tauto].
  destruct is_dir; simpl in H; try tauto.
  - destruct H as (-> & -> & ->). repeat split.
    exists []. rewrite !app_nil_r. auto.
  - destruct H as (-> & -> & ->). repeat split.
    exists []. rewrite !app_nil_r. auto.
  - destruct H as [-> H]. split; [reflexivity|].
    destruct (empty src_content), (empty (ps ^^ src)),
      (Z.land flags MS_BIND =? 0); simpl in H; destruct H as [-> ->];
      repeat split;
      first [ (exists []; rewrite !app_nil_r; now auto)
            | (eexists; split; [reflexivity|right; eexists; reflexivity]) ].
Qed.

End mnt_more_facts.

Lemma symlink_descriptor_never_mounts_witness :
  let run :=
    mnt.mountPt scenario.all_ok scenario_more.lib64_link "/new" "/stage"
      scenario.start in
  is_symlink scenario_more.lib64_link = true /\
  snd (fst (fst run)) = scenario_more.lib64_link /\
  mnt.remountRO scenario.all_ok scenario_more.lib64_link scenario.start
  = (true, scenario.start, []).
Proof.
  intro run. split; [reflexivity|].
  pose proof (symlink_descriptor_never_mounts scenario.all_ok
                scenario_more.lib64_link "/new" "/stage" scenario.start
                eq_refl) as H.
  fold run in H. destruct run as [[[ok m] s'] tr].
  destruct H as (Hm & _ & _ & Hr). split; assumption.
Defined.

Ltac find_mount l :=
  match l with
  | (c_mount ?a ?b ?c ?d ?e, ?r) :: _ => constr:((c_mount a b c d e, r))
  | _ :: ?t => find_mount t
  end.

Lemma mountPt_stages_content_witness :
  let run :=
    mnt.mountPt scenario.all_ok scenario_more.hostname_file "/new" "/stage"
      scenario.start in
  empty (src_content scenario_more.hostname_file) = false /\
  df_counter (snd (fst run)) = 1 /\ fst (fst (fst run)) = true.
Proof.
  intro run. split; [reflexivity|].
  pose proof (mountPt_stages_content scenario.all_ok
                scenario_more.hostname_file "/new" "/stage" scenario.start
                eq_refl) as H.
  fold run in H. destruct run as [[[ok m] s'] tr] eqn:E.
  vm_compute in E. inversion E; subst; clear E.
  cbv beta iota zeta in H.
  match type of H with
  | forall c r, In (c, r) ?l -> _ =>
      let e := find_mount l in
      destruct (H (fst e) (snd e)) as
        (pre & o & wr & cl & post & _ & _ & _ & _ & Hd & Hok & _)
  end.
  - simpl. do 6 right. left. reflexivity.
  - reflexivity.
  - simpl in *. split; [exact Hd|exact Hok].
Defined.

Lemma mountPt_plain_source_witness :
  let run :=
    mnt.mountPt scenario.all_ok scenario_more.bin_bind "/new" "/stage"
      scenario.start in
  empty (src_content scenario_more.bin_bind) = true /\
  df_counter (snd (fst run)) = df_counter scenario.start /\
  flags (snd (fst (fst run))) = flags scenario_more.bin_bind.
Proof.
  intro run. split; [reflexivity|].
  pose proof (mountPt_plain_source scenario.all_ok scenario_more.bin_bind
                "/new" "/stage" scenario.start eq_refl) as H.
  fold run in H. destruct run as [[[ok m] s'] tr].
  destruct H as (Hd & Hf & _). split; assumption.
Defined.

Lemma initNsInternal_private_first_witness :
  let run :=
    mnt.initNsInternal scenario.all_ok scenario_more.conf_bin scenario.start in
  clone_newns scenario_more.conf_bin = true /\
  match filter (fun e => is_mount (fst e)) (snd run) with
  | [] => True
  | (c, r) :: rest =>
      c = c_mount (Some "/"%string) "/" None (Z.lor MS_REC MS_PRIVATE) None /\
      (failed r = true -> rest = [])
  end.
Proof.
  intro run. split; [reflexivity|].
  pose proof (initNsInternal_private_first scenario.all_ok
                scenario_more.conf_bin scenario.start eq_refl) as H.
  fold run in H. destruct run as [[[r conf'] s'] tr]. exact H.
Defined.

Lemma initNsInternal_true_has_pivoted_witness :
  let run :=
    mnt.initNsInternal scenario.all_ok scenario_more.conf_bin scenario.start in
  clone_newns scenario_more.conf_bin = true /\
  fst (fst (fst run)) = true /\
  exists destdir tmpdir t_root pre post r4 r5 r6 r7,
    behaviour.chooses (orig_uid scenario_more.conf_bin) "root" t_root
      (Some destdir) /\
    snd run = pre ++
      [(c_umount2 tmpdir MNT_DETACH, r4);
       (c_pivot_root destdir destdir, r5);
       (c_umount2 "/" MNT_DETACH, r6);
       (c_chdir (cwd scenario_more.conf_bin), r7)] ++ post.
Proof.
  intro run. split; [reflexivity|].
  pose proof (initNsInternal_true_has_pivoted scenario.all_ok
                scenario_more.conf_bin scenario.start eq_refl) as H.
  fold run in H.
  assert (Hr : fst (fst (fst run)) = true) by (vm_compute; reflexivity).
  destruct run as [[[r conf'] s'] tr]. simpl in Hr. split; [exact Hr|].
  destruct H as [_ H].
  destruct (H Hr) as (destdir & tmpdir & t_root & t_tmp & t_pass & post &
                      r0 & r1 & r2 & r3 & r4 & r5 & r6 & r7 &
                      Htr & _ & C1 & _).
  exists destdir, tmpdir, t_root,
    ((c_chdir "/", r0) :: t_root ++
     [(c_mount (Some "/"%string) "/" None (Z.lor MS_REC MS_PRIVATE) None, r1);
      (c_mount None destdir (Some "tmpfs"%string) 0
         (Some "size=16777216"%string), r2)] ++
     t_tmp ++
     [(c_mount None tmpdir (Some "tmpfs"%string) 0
         (Some "size=16777216"%string), r3)] ++ t_pass),
    post, r4, r5, r6, r7.
  split; [exact C1|].
  rewrite Htr. simpl. repeat (rewrite <- app_assoc; simpl). reflexivity.
Defined.

Lemma initNsInternal_true_enforces_read_only_witness :
  let run :=
    mnt.initNsInternal scenario.all_ok scenario_more.conf_bin scenario.start in
  clone_newns scenario_more.conf_bin = true /\
  fst (fst (fst run)) = true /\
  Forall (fun p =>
            is_mandatory p = true -> is_symlink p = false ->
            Z.land (flags p) MS_RDONLY <> 0 -> mounted p = true)
    (mountpts (snd (fst (fst run)))).
Proof.
  intro run. split; [reflexivity|].
  pose proof (initNsInternal_true_enforces_read_only scenario.all_ok
                scenario_more.conf_bin scenario.start eq_refl) as H.
  fold run in H.
  assert (Hr : fst (fst (fst run)) = true) by (vm_compute; reflexivity).
  destruct run as [[[r conf'] s'] tr]. simpl in *. split; [exact Hr|].
  eapply Forall_impl; [|exact (H Hr)].
  intros p Hp Hman Hsym Hro. exact (proj1 (Hp Hman Hsym Hro)).
Defined.

(** Scenario 1 of the specification: a mandatory read-only bind of /bin
    ends up mounted and re-mounted read-only on /bin. *)
Example read_only_bind_scenario :
  let '(r, conf', _, tr) :=
    mnt.initNsInternal scenario.all_ok scenario_more.conf_bin scenario.start in
  r = true /\
  map mounted (mountpts conf') = [true] /\
  mnt.mount_targets (filter (fun e => trace.remount_call (fst e)) tr)
  = ["/bin"%string].
Proof. vm_compute. auto. Qed.

Lemma content_descriptor_is_a_file_witness :
  let run :=
    mnt.addMountPt scenario.all_ok mnt.fresh_mount_t "" "/etc/hostname" "" ""
      0 NS_DIR_MAYBE true "" "" "jail" false scenario.start in
  empty "jail" = false /\
  fst (fst (fst run)) = true /\ is_dir (snd (fst (fst run))) = false.
Proof.
  intro run. split; [reflexivity|].
  pose proof (content_descriptor_is_a_file scenario.all_ok
                "" "/etc/hostname" "" "" 0 true "" "" "jail" scenario.start
                "/new" "/stage" scenario.start eq_refl) as H.
  fold run in H.
  assert (Hr : fst (fst (fst run)) = true) by (vm_compute; reflexivity).
  destruct run as [[[ok m] s'] tr]. simpl in *. split; [exact Hr|].
  exact (proj1 (H Hr)).
Defined.

(** HOME set to the empty string is accepted as a prefix; a variable
    that is not set makes finalization fail. *)
Lemma addMountPt_env_prefix_witness :
  let set :=
    mnt.addMountPt (scenario.with_env "HOME" "") mnt.fresh_mount_t
      "/.cache" "/cache" "" "" MS_BIND NS_DIR_YES true "HOME" "" "" false
      scenario.start in
  let unset :=
    mnt.addMountPt (scenario.with_env "HOME" "") mnt.fresh_mount_t
      "/.cache" "/cache" "" "" MS_BIND NS_DIR_YES true "" "XDG" "" false
      scenario.start in
  (fst (fst (fst set)) = true /\
   src (snd (fst (fst set))) = "/.cache"%string /\
   dst (snd (fst (fst set))) = "/cache"%string) /\
  fst (fst (fst unset)) = false.
Proof.
  intros set unset.
  pose proof (addMountPt_env_prefix (scenario.with_env "HOME" "")
                "/.cache" "/cache" "" "" MS_BIND NS_DIR_YES true
                "HOME" "" "" false scenario.start) as H1.
  pose proof (addMountPt_env_prefix (scenario.with_env "HOME" "")
                "/.cache" "/cache" "" "" MS_BIND NS_DIR_YES true
                "" "XDG" "" false scenario.start) as H2.
  fold set in H1. fold unset in H2.
  destruct set as [[[ok1 m1] s1] tr1]. destruct unset as [[[ok2 m2] s2] tr2].
  simpl in H1, H2. simpl. tauto.
Defined.
